(** * EnhancedFontDiagnosticTool: a shallow embedding and its properties

    The Python class [EnhancedFontDiagnosticTool] inspects the font
    installation of the host and collects findings in [self.report].  Its
    methods are embedded as computations of a state-and-exception monad
    over the tool object; everything the methods ask of the operating
    system (file tests, sub-processes, the registry, configuration files)
    is answered by a [Host] record, and every such interaction, as well
    as every printed line, is appended to a trace kept next to the
    report. *)

From Stdlib Require Import String Ascii List ZArith Bool Lia DecimalString.
Import ListNotations.
Open Scope string_scope.

(** ** Python strings

    A [str] is represented by the bytes of its UTF-8 encoding.  Substring
    tests and concatenation agree with the code-point versions; the
    white-space class and lower-casing below cover the ASCII range, which
    is all the tests of the program depend on. *)

Module PyStr.

Fixpoint startswith (s p : string) : bool :=
  match p, s with
  | EmptyString, _ => true
  | String c p', String d s' => Ascii.eqb c d && startswith s' p'
  | String _ _, EmptyString => false
  end.

(** [sub in s] *)
Fixpoint contains (sub s : string) : bool :=
  startswith s sub ||
  match s with
  | EmptyString => false
  | String _ s' => contains sub s'
  end.

Definition rev (s : string) : string :=
  string_of_list_ascii (List.rev (list_ascii_of_string s)).

Definition endswith (s suffix : string) : bool :=
  startswith (rev s) (rev suffix).

(** [str.isspace] on one ASCII character: TAB, LF, VT, FF, CR, the four
    separators FS, GS, RS, US, and the space.  Python also counts the
    white space outside ASCII (U+0085, U+00A0, U+1680, U+2000 to U+200A,
    U+2028, U+2029, U+202F, U+205F, U+3000): [lstrip] and [strip] below
    agree with Python's on text whose white space is ASCII. *)
Definition isspace (c : ascii) : bool :=
  let n := nat_of_ascii c in
  (Nat.leb 9 n && Nat.leb n 13) || (Nat.leb 28 n && Nat.leb n 32).

Fixpoint lstrip (s : string) : string :=
  match s with
  | String c s' => if isspace c then lstrip s' else s
  | EmptyString => EmptyString
  end.

Definition strip (s : string) : string := rev (lstrip (rev (lstrip s))).

Definition lower_ascii (c : ascii) : ascii :=
  let n := nat_of_ascii c in
  if Nat.leb 65 n && Nat.leb n 90 then ascii_of_nat (n + 32) else c.

Fixpoint lower (s : string) : string :=
  match s with
  | EmptyString => EmptyString
  | String c s' => String (lower_ascii c) (lower s')
  end.

(** [sep.join(parts)] *)
Definition join (sep : string) (parts : list string) : string :=
  String.concat sep parts.

(** [str(n)] for an integer. *)
Definition of_Z (n : Z) : string := NilZero.string_of_int (Z.to_int n).

(** Truth value of a string: empty is false. *)
Definition truthy (s : string) : bool := negb (String.eqb s "").

End PyStr.

(** ** The regular expression of the macOS probe

    [re.search(r"Resolution:\s*(.+)", text)]: the leftmost position where
    the literal matches, followed by a greedy run of white space that
    gives characters back until at least one character other than a line
    feed follows; group 1 is the maximal run of such characters. *)

Module ResolutionRe.

Definition newline : ascii := ascii_of_nat 10.

(** The longest prefix without a line feed: what [(.+)] captures. *)
Fixpoint dot_plus (s : string) : string :=
  match s with
  | EmptyString => EmptyString
  | String c s' => if Ascii.eqb c newline then EmptyString else String c (dot_plus s')
  end.

(** [\s*(.+)] at the start of [s]: the greedy choice first, then one
    white-space character fewer, down to none. *)
Fixpoint spaces_then_group (s : string) : option string :=
  let here :=
    match dot_plus s with
    | EmptyString => None
    | g => Some g
    end in
  match s with
  | String c s' =>
      if PyStr.isspace c then
        match spaces_then_group s' with
        | Some g => Some g
        | None => here
        end
      else here
  | EmptyString => None
  end.

Fixpoint drop (n : nat) (s : string) : string :=
  match n, s with
  | S n', String _ s' => drop n' s'
  | _, _ => s
  end.

Definition literal : string := "Resolution:".

(** Group 1 of the first match, or [None] when [re.search] returns [None]. *)
Fixpoint search (s : string) : option string :=
  let at_here :=
    if PyStr.startswith s literal
    then spaces_then_group (drop (String.length literal) s)
    else None in
  match at_here with
  | Some g => Some g
  | None =>
      match s with
      | EmptyString => None
      | String _ s' => search s'
      end
  end.

End ResolutionRe.

(** ** [posixpath.join]

    [os.path] is the path module of the host; the embedding takes
    [os.path.join] from the [Host] record.  This is the POSIX one. *)

Definition posix_join (a : string) (p : list string) : string :=
  fold_left
    (fun path b =>
       if PyStr.startswith b "/" then b
       else if negb (PyStr.truthy path) || PyStr.endswith path "/" then path ++ b
       else path ++ "/" ++ b)
    p a.

(** ** Exceptions

    Only subclasses of [Exception] are modelled.  [CalledProcessError] is
    what [subprocess.run(..., check=True)] raises on a non-zero exit
    status; every other exception carries its class and its [str(e)].
    [ImportError] is not among the classes: the modules the methods import
    ([glob], [re], [xml.etree.ElementTree]) belong to the standard
    library, and a failing [import winreg] is one of the failures of the
    registry query. *)

Inductive exn_class : Type :=
| KeyError | FileNotFoundError | PermissionError | OSError
| UnicodeDecodeError | JSONDecodeError | ParseError | AttributeError
| TypeError | EOFError.

Inductive exn : Type :=
| CalledProcessError (returncode : Z) (stderr : string)
| PyExc (cls : exn_class) (msg : string).

(** [str(e)], as the checks print it.  They never print the text of a
    [CalledProcessError]: their only call with [check=True] has a clause of
    its own, which prints [e.stderr]; the text given here abbreviates
    Python's. *)
Definition exn_str (e : exn) : string :=
  match e with
  | CalledProcessError rc _ =>
      "Command returned non-zero exit status " ++ PyStr.of_Z rc ++ "."
  | PyExc _ msg => msg
  end.

(** The [except] clauses used by the program. *)
Definition is_Exception (e : exn) : bool := true.

Definition is_CalledProcessError (e : exn) : bool :=
  match e with CalledProcessError _ _ => true | PyExc _ _ => false end.

Definition is_FileNotFoundError (e : exn) : bool :=
  match e with PyExc FileNotFoundError _ => true | _ => false end.

Inductive outcome (A : Type) : Type :=
| Returns (a : A)
| Raises (e : exn).
Arguments Returns {A} a.
Arguments Raises {A} e.

(** ** The report *)

Record Report : Type := mkReport {
  system : string;
  issues : list string;
  suggestions : list string;
  missing_fonts : list string;
  corrupted_fonts : list string;
  font_cache_issues : bool;
  (** a [defaultdict(list)]: keys in insertion order *)
  software_specific_issues : list (string * list string);
  dpi_scaling_issues : list string;
  font_integrity_issues : list string
}.

(** ** What the host answers *)

Record CompletedProcess : Type := mkCompleted {
  returncode : Z;
  stdout : string;
  stderr : string
}.

(** A value read from a JSON document, seen through the two observations
    the program makes of it: its truth value and its [str()]. *)
Inductive pyval : Type :=
| VStr (s : string)
| VOther (truth : bool) (shown : string).

Definition pyval_truthy (v : pyval) : bool :=
  match v with VStr s => PyStr.truthy s | VOther b _ => b end.

Definition pyval_str (v : pyval) : string :=
  match v with VStr s => s | VOther _ t => t end.

(** A registry value: [REG_DWORD] or [REG_SZ]. *)
Inductive regval : Type :=
| RegInt (n : Z)
| RegText (s : string).

Definition regval_str (v : regval) : string :=
  match v with RegInt n => PyStr.of_Z n | RegText s => s end.

Record Host : Type := mkHost {
  (** [os.environ], a mapping that raises [KeyError] on a missing key *)
  environ : string -> option string;
  (** [os.path.expanduser] *)
  expanduser : string -> string;
  (** [os.path.join(a, *p)] *)
  os_path_join : string -> list string -> string;
  (** [os.path.exists] *)
  exists_on_disk : string -> bool;
  (** [os.access(path, os.R_OK)] *)
  readable : string -> bool;
  (** [os.listdir] *)
  dir_entries : string -> exn + list string;
  (** [glob.glob] *)
  glob_matches : string -> list string;
  (** [open(path, 'rb').read()] *)
  file_bytes : string -> exn + list Byte.byte;
  (** [hashlib.md5(data).hexdigest()] *)
  md5_hexdigest : list Byte.byte -> string;
  (** [subprocess.run(argv, capture_output=True, text=True)] without
      [check]: an exception (the executable is missing, ...) or the
      completed process *)
  spawn : list string -> exn + CompletedProcess;
  (** [json.load(open(path)).get(key, "")] *)
  json_setting : string -> string -> exn + pyval;
  (** [ET.parse(path).getroot().iter(tag)]: a parse failure, or the texts
      ([elem.text], possibly [None]) of the matching elements in document
      order *)
  xml_texts : string -> string -> exn + list (option string);
  (** [winreg.QueryValueEx(OpenKey(HKEY_CURRENT_USER, key), name)[0]] *)
  registry_value : string -> string -> exn + regval;
  (** opening [path] with mode ['w'] and dumping the JSON text: [None]
      when it succeeds *)
  write_failure : string -> option exn
}.

(** ** The trace of interactions *)

Inductive event : Type :=
| Print (text : string)
| FsExists (path : string)
| FsAccess (path : string)
| FsListdir (path : string)
| FsGlob (pattern : string)
| FsRead (path : string)
| FsWrite (path : string)
| JsonDumped (path : string) (content : Report)
| Exec (argv : list string)
| RegistryQuery (key name : string).

Definition is_print (e : event) : bool :=
  match e with Print _ => true | _ => false end.

(** ** The tool object *)

Record Tool : Type := mkTool {
  self_system : string;
  report : Report;
  trace : list event
}.

(** [__init__], given the value of [platform.system()]. *)
Definition init (platform_system : string) : Tool :=
  {| self_system := platform_system;
     report := {| system := platform_system;
                  issues := [];
                  suggestions := [];
                  missing_fonts := [];
                  corrupted_fonts := [];
                  font_cache_issues := false;
                  software_specific_issues := [];
                  dpi_scaling_issues := [];
                  font_integrity_issues := [] |};
     trace := [] |}.

(** [self.known_font_hashes]; no method assigns it. *)
Definition known_font_hashes : list (string * string) :=
  [ ("Arial.ttf", "a1b2c3d4e5f678901234567890123456");
    ("Times New Roman.ttf", "f6e5d4c3b2a198765432109876543210");
    ("Segoe UI.ttf", "1234567890abcdef1234567890abcdef");
    ("DejaVuSans.ttf", "abcdef1234567890abcdef1234567890");
    ("FreeSans.ttf", "0987654321abcdef0987654321abcdef");
    ("Helvetica.dfont", "aabbccddeeff00112233445566778899");
    ("San Francisco.ttf", "11223344556677889900aabbccddeeff") ].

(** [d.get(key)] on a dictionary with string keys. *)
Fixpoint dict_get {V : Type} (d : list (string * V)) (key : string) : option V :=
  match d with
  | [] => None
  | (k, v) :: rest => if String.eqb k key then Some v else dict_get rest key
  end.

(** [d[key].append(x)] on a [defaultdict(list)]. *)
Fixpoint dict_append (d : list (string * list string)) (key x : string)
  : list (string * list string) :=
  match d with
  | [] => [(key, [x])]
  | (k, v) :: rest =>
      if String.eqb k key then (k, (v ++ [x])%list) :: rest
      else (k, v) :: dict_append rest key x
  end.

(** The [required_fonts] / [critical_fonts] dictionary, with [.get(system, [])]. *)
Definition critical_fonts (sys : string) : list string :=
  match dict_get
          [ ("Windows", ["Arial.ttf"; "Times New Roman.ttf"; "Segoe UI.ttf"]);
            ("Linux", ["DejaVuSans.ttf"; "FreeSans.ttf"]);
            ("Darwin", ["Helvetica.dfont"; "San Francisco.ttf"]) ] sys with
  | Some l => l
  | None => []
  end.

(** ** The monad of the methods

    A method takes the tool object and gives it back together with a
    value or a raised exception; what was written to the report before an
    exception stays written. *)

Definition Py (A : Type) : Type := Tool -> Tool * outcome A.

Definition ret {A : Type} (a : A) : Py A := fun t => (t, Returns a).

Definition raise {A : Type} (e : exn) : Py A := fun t => (t, Raises e).

Definition bind {A B : Type} (m : Py A) (f : A -> Py B) : Py B :=
  fun t =>
    match m t with
    | (t', Returns a) => f a t'
    | (t', Raises e) => (t', Raises e)
    end.

(** [try: body  except <clause> as e: handler e] *)
Definition try_except {A : Type} (body : Py A) (clause : exn -> bool)
  (handler : exn -> Py A) : Py A :=
  fun t =>
    match body t with
    | (t', Returns a) => (t', Returns a)
    | (t', Raises e) => if clause e then handler e t' else (t', Raises e)
    end.

Declare Scope py_scope.
Delimit Scope py_scope with py.
Notation "x <- c1 ;; c2" := (bind c1 (fun x => c2))
  (at level 61, c1 at next level, right associativity) : py_scope.
Notation "c1 ;; c2" := (bind c1 (fun _ => c2))
  (at level 61, right associativity) : py_scope.
Open Scope py_scope.

(** Loops: the body sees the loop variable and the local variables it
    assigns, and says whether the loop goes on. *)
Inductive flow : Type := Continue | Break.

Fixpoint for_in {A L : Type} (items : list A) (locals : L)
  (body : A -> L -> Py (flow * L)) : Py L :=
  match items with
  | [] => ret locals
  | a :: rest =>
      r <- body a locals ;;
      match r with
      | (Break, l') => ret l'
      | (Continue, l') => for_in rest l' body
      end
  end.

Definition for_each {A : Type} (items : list A) (body : A -> Py unit) : Py unit :=
  for_in items tt (fun a _ => body a ;; ret (Continue, tt)).

Definition when (b : bool) (m : Py unit) : Py unit := if b then m else ret tt.

Definition lift {A : Type} (r : exn + A) : Py A :=
  match r with
  | inl e => raise e
  | inr a => ret a
  end.

(** *** The tool object *)

Definition get_system : Py string := fun t => (t, Returns (self_system t)).

Definition get_report : Py Report := fun t => (t, Returns (report t)).

Definition update_report (f : Report -> Report) : Py unit :=
  fun t => (mkTool (self_system t) (f (report t)) (trace t), Returns tt).

Definition emit (e : event) : Py unit :=
  fun t => (mkTool (self_system t) (report t) (trace t ++ [e])%list, Returns tt).

(** [print(text)]: the line is logged.  [print] is taken to succeed: the
    console is one that can write the program's own messages (UTF-8), and
    the text is one it can encode.  Python raises [UnicodeEncodeError] for
    text with a code point no encoding accepts (a lone surrogate, which
    [json.load] and [os.listdir] can deliver); the statements that give an
    exact outcome therefore ask that the lines printed satisfy
    [console_accepts], defined with the vocabulary below. *)
Definition print (text : string) : Py unit := emit (Print text).

(** [self.report['issues'].append(x)] and its siblings. *)
Definition append_issue (x : string) (r : Report) : Report :=
  mkReport (system r) (issues r ++ [x])%list (suggestions r) (missing_fonts r)
    (corrupted_fonts r) (font_cache_issues r) (software_specific_issues r)
    (dpi_scaling_issues r) (font_integrity_issues r).

Definition append_suggestion (x : string) (r : Report) : Report :=
  mkReport (system r) (issues r) (suggestions r ++ [x])%list (missing_fonts r)
    (corrupted_fonts r) (font_cache_issues r) (software_specific_issues r)
    (dpi_scaling_issues r) (font_integrity_issues r).

(** [self.report['missing_fonts'] = l] *)
Definition set_missing_fonts (l : list string) (r : Report) : Report :=
  mkReport (system r) (issues r) (suggestions r) l
    (corrupted_fonts r) (font_cache_issues r) (software_specific_issues r)
    (dpi_scaling_issues r) (font_integrity_issues r).

(** [self.report['font_cache_issues'] = True] *)
Definition set_font_cache_issues (r : Report) : Report :=
  mkReport (system r) (issues r) (suggestions r) (missing_fonts r)
    (corrupted_fonts r) true (software_specific_issues r)
    (dpi_scaling_issues r) (font_integrity_issues r).

Definition append_software_issue (app x : string) (r : Report) : Report :=
  mkReport (system r) (issues r) (suggestions r) (missing_fonts r)
    (corrupted_fonts r) (font_cache_issues r)
    (dict_append (software_specific_issues r) app x)
    (dpi_scaling_issues r) (font_integrity_issues r).

Definition append_dpi_scaling_issue (x : string) (r : Report) : Report :=
  mkReport (system r) (issues r) (suggestions r) (missing_fonts r)
    (corrupted_fonts r) (font_cache_issues r) (software_specific_issues r)
    (dpi_scaling_issues r ++ [x])%list (font_integrity_issues r).

Definition append_font_integrity_issue (x : string) (r : Report) : Report :=
  mkReport (system r) (issues r) (suggestions r) (missing_fonts r)
    (corrupted_fonts r) (font_cache_issues r) (software_specific_issues r)
    (dpi_scaling_issues r) (font_integrity_issues r ++ [x])%list.

(** A line feed, for the ["\n..."] literals. *)
Definition nl : string := String (ascii_of_nat 10) EmptyString.

(** ** The methods *)

Section Methods.

Variable host : Host.

(** *** Operations of the host *)

(** [os.environ[name]] *)
Definition os_environ (name : string) : Py string :=
  match environ host name with
  | Some v => ret v
  | None => raise (PyExc KeyError ("'" ++ name ++ "'"))
  end.

(** [os.environ.get(name, default)] *)
Definition os_environ_get (name default : string) : string :=
  match environ host name with
  | Some v => v
  | None => default
  end.

Definition os_path_exists (path : string) : Py bool :=
  emit (FsExists path) ;; ret (exists_on_disk host path).

Definition os_access_R_OK (path : string) : Py bool :=
  emit (FsAccess path) ;; ret (readable host path).

Definition os_listdir (path : string) : Py (list string) :=
  emit (FsListdir path) ;; lift (dir_entries host path).

Definition glob_glob (pattern : string) : Py (list string) :=
  emit (FsGlob pattern) ;; ret (glob_matches host pattern).

(** [subprocess.run(argv, capture_output=True, text=True)], with or
    without [check=True]. *)
Definition subprocess_run (argv : list string) (check : bool) : Py CompletedProcess :=
  emit (Exec argv) ;;
  result <- lift (spawn host argv) ;;
  if check && negb (returncode result =? 0)%Z
  then raise (CalledProcessError (returncode result) (stderr result))
  else ret result.

(** *** [get_font_dirs] *)

Definition get_font_dirs : Py (list string) :=
  sys <- get_system ;;
  if (sys =? "Windows")%string then
    windir <- os_environ "WINDIR" ;;
    localappdata <- os_environ "LOCALAPPDATA" ;;
    ret [ os_path_join host windir ["Fonts"];
          os_path_join host localappdata ["Microsoft"; "Windows"; "Fonts"] ]
  else if (sys =? "Linux")%string then
    ret [ "/usr/share/fonts";
          "/usr/local/share/fonts";
          expanduser host "~/.fonts" ]
  else if (sys =? "Darwin")%string then
    ret [ "/Library/Fonts";
          "/System/Library/Fonts";
          expanduser host "~/Library/Fonts" ]
  else ret [].

(** *** [check_font_directories] *)

Definition check_font_directories : Py unit :=
  print (nl ++ "检查字体目录...") ;;
  font_dirs <- get_font_dirs ;;
  for_each font_dirs (fun directory =>
    present <- os_path_exists directory ;;
    if negb present then
      update_report (append_issue ("字体目录不存在: " ++ directory)) ;;
      update_report (append_suggestion
                       ("创建目录: " ++ directory ++ " 或修复系统字体设置"))
    else
      ok <- os_access_R_OK directory ;;
      if negb ok then
        update_report (append_issue ("无法访问字体目录: " ++ directory)) ;;
        update_report (append_suggestion ("检查目录权限: " ++ directory))
      else
        print ("字体目录正常: " ++ directory)).

(** *** [check_font_cache] *)

Definition check_font_cache : Py unit :=
  print (nl ++ "检查字体缓存...") ;;
  sys <- get_system ;;
  if (sys =? "Windows")%string then
    localappdata <- os_environ "LOCALAPPDATA" ;;
    let cache_dir :=
      os_path_join host localappdata ["Microsoft"; "Windows"; "FontCache"] in
    present <- os_path_exists cache_dir ;;
    if negb present then
      update_report set_font_cache_issues ;;
      update_report (append_issue "Windows字体缓存目录不存在")
    else
      print "Windows字体缓存目录存在"
  else if (sys =? "Linux")%string then
    try_except
      (subprocess_run ["fc-cache"; "-v"] true ;;
       print "Linux字体缓存正常")
      is_CalledProcessError
      (fun e =>
         update_report set_font_cache_issues ;;
         update_report (append_issue "Linux字体缓存问题") ;;
         print ("字体缓存错误: " ++
                match e with
                | CalledProcessError _ err => err
                | PyExc _ _ => ""
                end))
  else if (sys =? "Darwin")%string then
    print "macOS字体缓存通常自动管理"
  else ret tt.

(** *** [check_system_fonts] *)

(** The search loop shared by [check_system_fonts] and
    [check_office_fonts]: [found] after the loop over the directories. *)
Definition font_found (font : string) : Py bool :=
  font_dirs <- get_font_dirs ;;
  for_in font_dirs false (fun font_dir found =>
    present <- os_path_exists (os_path_join host font_dir [font]) ;;
    if present then ret (Break, true) else ret (Continue, found)).

(** The fonts of a list that are found in no directory. *)
Definition collect_missing (fonts : list string) : Py (list string) :=
  for_in fonts [] (fun font missing =>
    found <- font_found font ;;
    if negb found then ret (Continue, (missing ++ [font])%list)
    else ret (Continue, missing)).

Definition check_system_fonts : Py unit :=
  print (nl ++ "检查系统字体...") ;;
  sys <- get_system ;;
  let required_fonts := critical_fonts sys in
  missing <- collect_missing required_fonts ;;
  match missing with
  | _ :: _ =>
      update_report (set_missing_fonts missing) ;;
      update_report (append_issue
                       ("缺少关键系统字体: " ++ PyStr.join ", " missing)) ;;
      update_report (append_suggestion "考虑重新安装系统或恢复默认字体")
  | [] => print "关键系统字体存在"
  end.

(** *** [check_font_config] *)

Definition check_font_config : Py unit :=
  print (nl ++ "检查字体配置...") ;;
  sys <- get_system ;;
  when (sys =? "Linux")%string
    (try_except
       (result <- subprocess_run ["fc-match"; "sans-serif"] false ;;
        if negb (returncode result =? 0)%Z then
          update_report (append_issue "字体配置问题: 无法匹配基本字体") ;;
          print ("字体配置问题:" ++ " " ++ stderr result)
        else
          print ("基本字体匹配正常:" ++ " " ++ PyStr.strip (stdout result)))
       is_FileNotFoundError
       (fun _ =>
          update_report (append_issue "fontconfig未安装或不可用") ;;
          update_report (append_suggestion
                           "安装fontconfig包: sudo apt install fontconfig"))).

(** *** [check_locale_settings] *)

Definition check_locale_settings : Py unit :=
  print (nl ++ "检查区域设置...") ;;
  sys <- get_system ;;
  when (sys =? "Linux")%string
    (try_except
       (result <- subprocess_run ["locale"] false ;;
        when (negb (PyStr.contains "en_US.UTF-8" (stdout result)))
          (update_report (append_issue "区域设置可能不支持某些字体") ;;
           update_report (append_suggestion "考虑设置LANG=en_US.UTF-8")))
       is_Exception
       (fun e => print ("无法检查区域设置:" ++ " " ++ exn_str e))).

(** *** [generate_report] *)

Definition print_section (title : string) (lines : list string)
  (render : string -> string) : Py unit :=
  match lines with
  | _ :: _ =>
      print (nl ++ title) ;;
      for_each lines (fun x => print (render x))
  | [] => ret tt
  end.

Definition generate_report : Py unit :=
  print (nl ++ "=== 诊断报告 ===") ;;
  r <- get_report ;;
  print ("系统: " ++ system r) ;;
  r <- get_report ;;
  match issues r with
  | _ :: _ =>
      print (nl ++ "发现的问题:") ;;
      for_each (issues r) (fun issue => print ("- " ++ issue))
  | [] => print (nl ++ "未发现重大问题")
  end ;;
  r <- get_report ;;
  print_section "缺失的字体:" (missing_fonts r) (fun font => "- " ++ font) ;;
  r <- get_report ;;
  print_section "可能损坏的字体:" (corrupted_fonts r) (fun font => "- " ++ font) ;;
  r <- get_report ;;
  print_section "字体完整性问题:" (font_integrity_issues r)
    (fun font => "- " ++ font ++ " 可能已损坏") ;;
  r <- get_report ;;
  print_section "DPI/缩放问题:" (dpi_scaling_issues r) (fun issue => "- " ++ issue) ;;
  r <- get_report ;;
  match software_specific_issues r with
  | _ :: _ =>
      print (nl ++ "软件特定问题:") ;;
      for_each (software_specific_issues r) (fun entry =>
        print (fst entry ++ ":") ;;
        for_each (snd entry) (fun issue => print (" - " ++ issue)))
  | [] => ret tt
  end ;;
  r <- get_report ;;
  print_section "建议的解决方案:" (suggestions r) (fun suggestion => "- " ++ suggestion) ;;
  let report_path :=
    os_path_join host (expanduser host "~") ["font_diagnostic_report.txt"] in
  emit (FsWrite report_path) ;;
  match write_failure host report_path with
  | Some e => raise e
  | None =>
      r <- get_report ;;
      emit (JsonDumped report_path r)
  end ;;
  print (nl ++ "完整报告已保存到: " ++ report_path).

(** *** [restore_default_fonts] *)

Definition restore_default_fonts : Py unit :=
  print (nl ++ "恢复默认系统字体...") ;;
  sys <- get_system ;;
  if (sys =? "Windows")%string then
    print "在Windows上恢复默认字体:" ;;
    print "1. 打开设置 > 个性化 > 字体" ;;
    print "2. 点击'恢复默认字体设置'" ;;
    print "3. 或者从另一台相同系统的计算机复制字体"
  else if (sys =? "Linux")%string then
    print "在Linux上恢复默认字体:" ;;
    print "1. 重新安装字体包:" ;;
    print "   Debian/Ubuntu: sudo apt install --reinstall fonts-dejavu fonts-freefont-ttf" ;;
    print "   Fedora/RHEL: sudo dnf reinstall dejavu-sans-fonts freefont"
  else if (sys =? "Darwin")%string then
    print "在macOS上恢复默认字体:" ;;
    print "1. 从Time Machine备份恢复/Library/Fonts和/System/Library/Fonts" ;;
    print "2. 或重新安装操作系统"
  else ret tt.

(** *** [check_adobe_fonts] *)

Definition check_adobe_fonts : Py unit :=
  try_except
    (let adobe_font_dir :=
       os_path_join host (os_environ_get "APPDATA" "")
         ["Adobe"; "CoreSync"; "plugins"; "livetype"; "c"] in
     present <- os_path_exists adobe_font_dir ;;
     when present
       (print ("检查Adobe字体目录: " ++ adobe_font_dir) ;;
        entries <- os_listdir adobe_font_dir ;;
        let cache_files := filter (fun f => PyStr.endswith f ".lst") entries in
        match cache_files with
        | [] =>
            update_report (append_software_issue "Adobe" "Adobe字体缓存文件缺失") ;;
            update_report (append_suggestion "尝试在Adobe软件中重置字体首选项")
        | _ :: _ => ret tt
        end))
    is_Exception
    (fun e => print ("检查Adobe字体时出错: " ++ exn_str e)).

(** *** [check_office_fonts] *)

Definition check_office_fonts : Py unit :=
  try_except
    (let office_fonts := ["Calibri.ttf"; "Cambria.ttf"; "Consolas.ttf"] in
     missing <- collect_missing office_fonts ;;
     match missing with
     | _ :: _ =>
         update_report (append_software_issue "Microsoft Office"
                          ("Office使用的字体缺失: " ++ PyStr.join ", " missing)) ;;
         update_report (append_suggestion
                          "重新安装Microsoft Office或手动安装缺失的Office字体")
     | [] => ret tt
     end)
    is_Exception
    (fun e => print ("检查Office字体时出错: " ++ exn_str e)).

(** *** [check_ide_font_config] *)

(** The configured font family: from the JSON document, from the first
    matching element of the XML document, or the empty string. *)
Definition read_font_family (config_path font_setting_key : string) : Py pyval :=
  if PyStr.endswith config_path ".json" then
    emit (FsRead config_path) ;;
    lift (json_setting host config_path font_setting_key)
  else if PyStr.endswith config_path ".xml" then
    emit (FsRead config_path) ;;
    texts <- lift (xml_texts host config_path font_setting_key) ;;
    match texts with
    | [] => ret (VStr "")
    | Some text :: _ => ret (VStr (PyStr.strip text))
    | None :: _ =>
        raise (PyExc AttributeError "'NoneType' object has no attribute 'strip'")
    end
  else ret (VStr "").

(** [available] after the two nested loops. *)
Definition font_family_available (font_family : string) : Py bool :=
  font_dirs <- get_font_dirs ;;
  for_in font_dirs false (fun font_dir available =>
    available <- for_in [".ttf"; ".otf"; ".ttc"] available (fun ext available =>
      present <- os_path_exists
                   (os_path_join host font_dir [font_family ++ ext]) ;;
      if present then ret (Break, true) else ret (Continue, available)) ;;
    if available then ret (Break, available) else ret (Continue, available)).

Definition check_ide_font_config (ide_name config_path font_setting_key : string)
  : Py unit :=
  try_except
    (font_family <- read_font_family config_path font_setting_key ;;
     when (pyval_truthy font_family)
       (available <- font_family_available (pyval_str font_family) ;;
        when (negb available)
          (update_report (append_software_issue ide_name
                            ("配置的字体 '" ++ pyval_str font_family ++ "' 不可用")) ;;
           update_report (append_suggestion
                            ("在" ++ ide_name ++ "设置中更改为已安装的字体")))))
    is_Exception
    (fun e => print ("检查" ++ ide_name ++ "字体配置时出错: " ++ exn_str e)).

(** *** [check_ide_fonts] *)

Record ide_info : Type := mkIde {
  paths : list string;
  config_file : string;
  font_setting : string
}.

Definition common_ides : list (string * ide_info) :=
  [ ("VSCode",
     {| paths := [ expanduser host "~/.vscode";
                   expanduser host "~/AppData/Roaming/Code" ];
        config_file := "settings.json";
        font_setting := "editor.fontFamily" |});
    ("IntelliJ",
     {| paths := [ expanduser host "~/.IntelliJIdea*";
                   expanduser host "~/Library/Preferences/IntelliJIdea*" ];
        config_file := "options/editor.xml";
        font_setting := "FONT_FAMILY" |}) ].

Definition check_ide_fonts : Py unit :=
  for_each common_ides (fun entry =>
    let ide := fst entry in
    let info := snd entry in
    for_in (paths info) tt (fun path_pattern _ =>
      located <-
        (if PyStr.contains "*" path_pattern then
           matches <- glob_glob path_pattern ;;
           ret (hd_error matches)
         else ret (Some path_pattern)) ;;
      match located with
      | None => ret (Continue, tt)
      | Some ide_path =>
          let config_path := os_path_join host ide_path [config_file info] in
          present <- os_path_exists config_path ;;
          if present then
            print ("检测到" ++ ide ++ "安装，检查字体配置...") ;;
            check_ide_font_config ide config_path (font_setting info) ;;
            ret (Break, tt)
          else ret (Continue, tt)
      end)).

(** *** [check_software_specific_issues] *)

Definition check_software_specific_issues : Py unit :=
  print (nl ++ "检查特定软件的字体问题...") ;;
  sys <- get_system ;;
  when (sys =? "Windows")%string
    (present <- os_path_exists "C:\Program Files\Adobe" ;;
     when present
       (print "检测到Adobe软件安装" ;;
        check_adobe_fonts)) ;;
  sys <- get_system ;;
  when (sys =? "Windows")%string
    (present <- os_path_exists "C:\Program Files\Microsoft Office" ;;
     when present
       (print "检测到Microsoft Office安装" ;;
        check_office_fonts)) ;;
  check_ide_fonts.

(** *** [verify_font_integrity] *)

Definition verify_font_integrity (font_path font_name : string) : Py bool :=
  try_except
    (emit (FsRead font_path) ;;
     data <- lift (file_bytes host font_path) ;;
     let file_hash := md5_hexdigest host data in
     let known_hash := dict_get known_font_hashes font_name in
     match known_hash with
     | Some known =>
         if PyStr.truthy known && negb (file_hash =? known)%string then
           print ("⚠ 字体文件可能损坏: " ++ font_path) ;;
           print ("  期望哈希: " ++ known) ;;
           print ("  实际哈希: " ++ file_hash) ;;
           ret false
         else ret true
     | None => ret true
     end)
    is_Exception
    (fun e =>
       print ("验证字体完整性时出错 (" ++ font_path ++ "): " ++ exn_str e) ;;
       ret false).

(** *** [check_font_integrity] *)

Definition check_font_integrity : Py unit :=
  print (nl ++ "检查字体文件完整性...") ;;
  sys <- get_system ;;
  for_each (critical_fonts sys) (fun font =>
    font_dirs <- get_font_dirs ;;
    for_in font_dirs tt (fun font_dir _ =>
      let font_path := os_path_join host font_dir [font] in
      present <- os_path_exists font_path ;;
      if present then
        intact <- verify_font_integrity font_path font ;;
        when (negb intact)
          (update_report (append_font_integrity_issue font)) ;;
        ret (Break, tt)
      else ret (Continue, tt))).

(** *** [check_dpi_scaling] *)

(** [dpi_value in [96, 120, 144]] *)
Definition standard_dpi (v : regval) : bool :=
  match v with
  | RegInt n => existsb (Z.eqb n) [96; 120; 144]%Z
  | RegText _ => false
  end.

(** [scaling in ["1", "2"]] *)
Definition standard_scaling (scaling : string) : bool :=
  existsb (String.eqb scaling) ["1"; "2"].

Definition check_dpi_scaling : Py unit :=
  print (nl ++ "检查DPI和显示缩放设置...") ;;
  sys <- get_system ;;
  if (sys =? "Windows")%string then
    try_except
      (emit (RegistryQuery "Control Panel\Desktop" "LogPixels") ;;
       dpi_value <- lift (registry_value host "Control Panel\Desktop" "LogPixels") ;;
       when (negb (standard_dpi dpi_value))
         (update_report (append_dpi_scaling_issue
                           ("非标准DPI设置 (" ++ regval_str dpi_value
                            ++ ") 可能导致字体显示问题")) ;;
          update_report (append_suggestion
                           "尝试将DPI设置为100%(96)、125%(120)或150%(144)")))
      is_Exception
      (fun e => print ("无法检查Windows DPI设置: " ++ exn_str e))
  else if (sys =? "Linux")%string then
    try_except
      (result <- subprocess_run
                   ["gsettings"; "get"; "org.gnome.desktop.interface"; "scaling-factor"]
                   false ;;
       when (returncode result =? 0)%Z
         (let scaling := PyStr.strip (stdout result) in
          when (negb (standard_scaling scaling))
            (update_report (append_dpi_scaling_issue
                              ("非标准缩放设置 (" ++ scaling
                               ++ ") 可能导致字体显示问题")))))
      is_Exception
      (fun e => print ("无法检查Linux缩放设置: " ++ exn_str e))
  else if (sys =? "Darwin")%string then
    try_except
      (result <- subprocess_run ["system_profiler"; "SPDisplaysDataType"] false ;;
       when (PyStr.contains "Resolution" (stdout result))
         (match ResolutionRe.search (stdout result) with
          | Some resolution =>
              when (PyStr.contains "scaled" (PyStr.lower resolution))
                (update_report (append_dpi_scaling_issue
                                  "检测到缩放的显示分辨率，可能影响字体显示"))
          | None => ret tt
          end))
      is_Exception
      (fun e => print ("无法检查macOS显示设置: " ++ exn_str e))
  else ret tt.

(** *** [run_full_diagnostics] *)

Definition run_full_diagnostics : Py unit :=
  print "正在运行全面的字体诊断..." ;;
  check_font_directories ;;
  check_font_cache ;;
  check_system_fonts ;;
  check_font_config ;;
  check_locale_settings ;;
  check_software_specific_issues ;;
  check_font_integrity ;;
  check_dpi_scaling ;;
  print (nl ++ "诊断完成!") ;;
  generate_report.

End Methods.

(** The eight checks of a full pass, in the order of
    [run_full_diagnostics]. *)
Definition checks (host : Host) : list (Py unit) :=
  [ check_font_directories host;
    check_font_cache host;
    check_system_fonts host;
    check_font_config host;
    check_locale_settings host;
    check_software_specific_issues host;
    check_font_integrity host;
    check_dpi_scaling host ].

(** ** Concrete hosts

    POSIX hosts used to run the methods on explicit inputs. *)

Module Hosts.

(** [posixpath.expanduser] for ["~"] and ["~/..."], the only forms the
    program passes. *)
Definition posix_expanduser (home path : string) : string :=
  if (path =? "~")%string then home
  else if PyStr.startswith path "~/" then home ++ ResolutionRe.drop 1 path
  else path.

Definition no_such_file (what : string) : exn :=
  PyExc FileNotFoundError ("[Errno 2] No such file or directory: '" ++ what ++ "'").

Definition permission_denied (what : string) : exn :=
  PyExc PermissionError ("[Errno 13] Permission denied: '" ++ what ++ "'").

Definition completed (rc : Z) (out err : string) : exn + CompletedProcess :=
  inr (mkCompleted rc out err).

(** A host with an empty file system, no environment variable and no
    executable installed.  Every file of the hosts below is empty, and
    [md5_hexdigest] gives the MD5 digest of the empty byte string. *)
Definition bare (home : string) : Host :=
  {| environ := fun _ => None;
     expanduser := posix_expanduser home;
     os_path_join := posix_join;
     exists_on_disk := fun _ => false;
     readable := fun _ => false;
     dir_entries := fun p => inl (no_such_file p);
     glob_matches := fun _ => [];
     file_bytes := fun p => inl (no_such_file p);
     md5_hexdigest := fun _ => "d41d8cd98f00b204e9800998ecf8427e";
     spawn := fun argv => inl (no_such_file (hd "" argv));
     json_setting := fun p _ => inl (no_such_file p);
     xml_texts := fun p _ => inl (no_such_file p);
     registry_value := fun _ _ => inl (PyExc OSError "winreg is not available");
     write_failure := fun _ => None |}.

Definition mem (x : string) (l : list string) : bool := existsb (String.eqb x) l.

(** The paths of [present] exist and are readable; read as files they
    are empty. *)
Definition with_files (present : list string) (h : Host) : Host :=
  mkHost (environ h) (expanduser h) (os_path_join h)
    (fun p => mem p present) (fun p => mem p present)
    (dir_entries h) (glob_matches h)
    (fun p => if mem p present then inr [] else inl (no_such_file p))
    (md5_hexdigest h) (spawn h)
    (json_setting h) (xml_texts h) (registry_value h) (write_failure h).

Definition with_spawn (run : list string -> exn + CompletedProcess) (h : Host) : Host :=
  mkHost (environ h) (expanduser h) (os_path_join h)
    (exists_on_disk h) (readable h)
    (dir_entries h) (glob_matches h) (file_bytes h) (md5_hexdigest h) run
    (json_setting h) (xml_texts h) (registry_value h) (write_failure h).

Definition with_file_bytes (read : string -> exn + list Byte.byte) (h : Host) : Host :=
  mkHost (environ h) (expanduser h) (os_path_join h)
    (exists_on_disk h) (readable h)
    (dir_entries h) (glob_matches h) read (md5_hexdigest h) (spawn h)
    (json_setting h) (xml_texts h) (registry_value h) (write_failure h).

Definition with_json (load : string -> string -> exn + pyval) (h : Host) : Host :=
  mkHost (environ h) (expanduser h) (os_path_join h)
    (exists_on_disk h) (readable h)
    (dir_entries h) (glob_matches h) (file_bytes h) (md5_hexdigest h) (spawn h)
    load (xml_texts h) (registry_value h) (write_failure h).

Definition with_write_failure (fails : string -> option exn) (h : Host) : Host :=
  mkHost (environ h) (expanduser h) (os_path_join h)
    (exists_on_disk h) (readable h)
    (dir_entries h) (glob_matches h) (file_bytes h) (md5_hexdigest h) (spawn h)
    (json_setting h) (xml_texts h) (registry_value h) fails.

Definition with_environ (env : list (string * string)) (h : Host) : Host :=
  mkHost (dict_get env) (expanduser h) (os_path_join h)
    (exists_on_disk h) (readable h)
    (dir_entries h) (glob_matches h) (file_bytes h) (md5_hexdigest h) (spawn h)
    (json_setting h) (xml_texts h) (registry_value h) (write_failure h).

(** The fontconfig, locale and GNOME tools of a healthy Linux desktop. *)
Definition linux_tools (argv : list string) : exn + CompletedProcess :=
  match argv with
  | ["fc-cache"; "-v"] => completed 0 "fc-cache: succeeded" ""
  | ["fc-match"; "sans-serif"] => completed 0 "DejaVuSans.ttf: DejaVu Sans Book" ""
  | ["locale"] => completed 0 "LANG=en_US.UTF-8" ""
  | ["gsettings"; "get"; "org.gnome.desktop.interface"; "scaling-factor"] =>
      completed 0 ("uint32 0" ++ nl) ""
  | _ => inl (no_such_file (hd "" argv))
  end.

(** The same desktop without fontconfig: [fc-cache] and [fc-match] are
    not installed. *)
Definition linux_tools_without_fontconfig (argv : list string)
  : exn + CompletedProcess :=
  match argv with
  | "fc-cache" :: _ | "fc-match" :: _ => inl (no_such_file (hd "" argv))
  | _ => linux_tools argv
  end.

Definition linux_dirs : list string :=
  ["/usr/share/fonts"; "/usr/local/share/fonts"; "/home/user/.fonts"].

(** Linux, the three font directories present, no critical font
    installed. *)
Definition linux_no_fonts : Host :=
  with_spawn linux_tools (with_files linux_dirs (bare "/home/user")).

(** Linux with [DejaVuSans.ttf] installed and [FreeSans.ttf] absent. *)
Definition linux_dejavu_only : Host :=
  with_spawn linux_tools
    (with_files (linux_dirs ++ ["/usr/share/fonts/DejaVuSans.ttf"])%list
       (bare "/home/user")).

(** Linux with both critical fonts installed. *)
Definition linux_all_fonts : Host :=
  with_spawn linux_tools
    (with_files (linux_dirs ++ ["/usr/share/fonts/DejaVuSans.ttf";
                                "/usr/local/share/fonts/FreeSans.ttf"])%list
       (bare "/home/user")).

(** Linux without the fontconfig executables. *)
Definition linux_without_fontconfig : Host :=
  with_spawn linux_tools_without_fontconfig linux_all_fonts.

(** Linux where the report file cannot be opened for writing. *)
Definition linux_unwritable_home : Host :=
  with_write_failure
    (fun p => Some (permission_denied p))
    linux_all_fonts.

(** Linux where [DejaVuSans.ttf] exists but cannot be read. *)
Definition linux_unreadable_font : Host :=
  with_file_bytes (fun p => inl (permission_denied p)) linux_dejavu_only.

(** A platform the program does not know, with a VS Code settings file
    that names a font family. *)
Definition freebsd_with_vscode : Host :=
  with_json
    (fun _ key => if (key =? "editor.fontFamily")%string
                  then inr (VStr "Fira Code") else inr (VStr ""))
    (with_files ["/home/user/.vscode/settings.json"] (bare "/home/user")).

(** Windows without [WINDIR] and [LOCALAPPDATA]. *)
Definition windows_without_environment : Host := bare "C:\Users\user".

(** [ntpath.join] on a first argument that carries the drive and plain
    names after it, the only form the Windows host below meets. *)
Definition nt_join_names (a : string) (p : list string) : string :=
  fold_left (fun path b => path ++ "\" ++ b) p a.

(** A Windows desktop with its usual environment and empty font
    directories. *)
Definition windows_desktop : Host :=
  let h :=
    with_environ [ ("WINDIR", "C:\Windows");
                   ("LOCALAPPDATA", "C:\Users\user\AppData\Local");
                   ("APPDATA", "C:\Users\user\AppData\Roaming") ]
      (with_files [ "C:\Windows\Fonts";
                    "C:\Users\user\AppData\Local\Microsoft\Windows\Fonts" ]
         (bare "C:\Users\user")) in
  mkHost (environ h) (fun path => path) nt_join_names
    (exists_on_disk h) (readable h)
    (dir_entries h) (glob_matches h) (file_bytes h) (md5_hexdigest h) (spawn h)
    (json_setting h) (xml_texts h) (registry_value h) (write_failure h).

End Hosts.

(** ** Vocabulary of the statements *)

(** The tool object after more interactions, its report untouched. *)
Definition log (t : Tool) (events : list event) : Tool :=
  mkTool (self_system t) (report t) (trace t ++ events)%list.

(** The tool object with another report. *)
Definition with_report (t : Tool) (r : Report) : Tool :=
  mkTool (self_system t) r (trace t).

(** What [get_font_dirs] answers for a platform identifier. *)
Definition font_dirs_of (host : Host) (sys : string) : outcome (list string) :=
  if (sys =? "Windows")%string then
    match environ host "WINDIR", environ host "LOCALAPPDATA" with
    | Some windir, Some localappdata =>
        Returns [ os_path_join host windir ["Fonts"];
                  os_path_join host localappdata ["Microsoft"; "Windows"; "Fonts"] ]
    | None, _ => Raises (PyExc KeyError "'WINDIR'")
    | Some _, None => Raises (PyExc KeyError "'LOCALAPPDATA'")
    end
  else if (sys =? "Linux")%string then
    Returns [ "/usr/share/fonts"; "/usr/local/share/fonts";
              expanduser host "~/.fonts" ]
  else if (sys =? "Darwin")%string then
    Returns [ "/Library/Fonts"; "/System/Library/Fonts";
              expanduser host "~/Library/Fonts" ]
  else Returns [].

(** The platform identifiers the program knows. *)
Definition supported (sys : string) : bool :=
  Hosts.mem sys ["Windows"; "Linux"; "Darwin"].

(** [font] lies in one of the directories. *)
Definition present_in (host : Host) (dirs : list string) (font : string) : bool :=
  existsb (fun d => exists_on_disk host (os_path_join host d [font])) dirs.

(** The fonts of [fonts] that lie in none of the directories, in the
    order of [fonts]. *)
Definition absent_fonts (host : Host) (dirs fonts : list string) : list string :=
  filter (fun font => negb (present_in host dirs font)) fonts.

(** The copy of [font] in the first directory that has one. *)
Definition first_copy (host : Host) (dirs : list string) (font : string)
  : option string :=
  find (exists_on_disk host) (map (fun d => os_path_join host d [font]) dirs).

(** The report path of [generate_report]. *)
Definition report_path (host : Host) : string :=
  os_path_join host (expanduser host "~") ["font_diagnostic_report.txt"].

(** The line [verify_font_integrity] prints when the file cannot be read. *)
Definition read_error_line (font_path : string) (e : exn) : string :=
  "验证字体完整性时出错 (" ++ font_path ++ "): " ++ exn_str e.

(** The lines it prints on a digest mismatch. *)
Definition mismatch_lines (font_path known file_hash : string) : list string :=
  [ "⚠ 字体文件可能损坏: " ++ font_path;
    "  期望哈希: " ++ known;
    "  实际哈希: " ++ file_hash ].

(** The boolean [verify_font_integrity] returns. *)
Definition verified (host : Host) (font_path font_name : string) : bool :=
  match file_bytes host font_path with
  | inl _ => false
  | inr data =>
      match dict_get known_font_hashes font_name with
      | Some known =>
          negb (PyStr.truthy known
                && negb (md5_hexdigest host data =? known)%string)
      | None => true
      end
  end.

(** The critical fonts whose first copy fails verification. *)
Definition integrity_failures (host : Host) (dirs fonts : list string) : list string :=
  filter (fun font =>
            match first_copy host dirs font with
            | Some path => negb (verified host path font)
            | None => false
            end) fonts.

(** The files opened for reading, in order. *)
Fixpoint reads_of (events : list event) : list string :=
  match events with
  | [] => []
  | FsRead p :: rest => p :: reads_of rest
  | _ :: rest => reads_of rest
  end.

(** The report was written out. *)
Definition dumped (events : list event) : bool :=
  existsb (fun e => match e with JsonDumped _ _ => true | _ => false end) events.

(** [l'] is [l] with entries appended. *)
Definition extends {A : Type} (l l' : list A) : Prop :=
  exists more, l' = (l ++ more)%list.

(** Every list of [d] is still there in [d'], possibly longer. *)
Definition dict_extends (d d' : list (string * list string)) : Prop :=
  forall k l, dict_get d k = Some l -> exists l', dict_get d' k = Some l' /\ extends l l'.

(** Nothing recorded in [t] is removed or edited in [t'], the field
    [missing_fonts] left aside. *)
Record grows (t t' : Tool) : Prop := mkGrows {
  same_self_system : self_system t' = self_system t;
  same_system : system (report t') = system (report t);
  more_issues : extends (issues (report t)) (issues (report t'));
  more_suggestions : extends (suggestions (report t)) (suggestions (report t'));
  same_corrupted : corrupted_fonts (report t') = corrupted_fonts (report t);
  cache_flag_kept : font_cache_issues (report t) = true ->
                font_cache_issues (report t') = true;
  more_software : dict_extends (software_specific_issues (report t))
                                (software_specific_issues (report t'));
  more_dpi : extends (dpi_scaling_issues (report t)) (dpi_scaling_issues (report t'));
  more_integrity : extends (font_integrity_issues (report t))
                            (font_integrity_issues (report t'));
  more_trace : extends (trace t) (trace t')
}.

(** The same, and [missing_fonts] is as it was. *)
Definition grows_keeping_missing (t t' : Tool) : Prop :=
  grows t t' /\ missing_fonts (report t') = missing_fonts (report t).

(** The same, with [missing_fonts] append-only as well. *)
Definition grows_everywhere (t t' : Tool) : Prop :=
  grows t t' /\ extends (missing_fonts (report t)) (missing_fonts (report t')).

(** A computation never leaves the relation [R]. *)
Definition stable (R : Tool -> Tool -> Prop) {A : Type} (m : Py A) : Prop :=
  forall t, R t (fst (m t)).

(** The first [n] checks of a pass, stopping at the first exception. *)
Fixpoint run_checks (cs : list (Py unit)) : Py unit :=
  match cs with
  | [] => ret tt
  | c :: rest => c ;; run_checks rest
  end.

Definition after_checks (host : Host) (n : nat) (t : Tool) : Tool :=
  fst (run_checks (firstn n (checks host)) t).

(** The macOS probe finds a scaled resolution in the profiler's output. *)
Definition scaled_resolution (out : string) : bool :=
  PyStr.contains "Resolution" out &&
  match ResolutionRe.search out with
  | Some resolution => PyStr.contains "scaled" (PyStr.lower resolution)
  | None => false
  end.

(** The command line of the GNOME query. *)
Definition gsettings_query : list string :=
  ["gsettings"; "get"; "org.gnome.desktop.interface"; "scaling-factor"].

(** The file [check_font_integrity] opens for [font]: its first copy, if
    there is one. *)
Definition copy_read (host : Host) (dirs : list string) (font : string) : list string :=
  match first_copy host dirs font with
  | Some path => [path]
  | None => []
  end.

(** The report after the fonts of [fonts] were appended, in order, to
    [font_integrity_issues]. *)
Definition record_failures (fonts : list string) (r : Report) : Report :=
  fold_left (fun r font => append_font_integrity_issue font r) fonts r.

(** A computation that only prints: it returns, and leaves the report
    and the host alone. *)
Definition quiet (m : Py unit) : Prop :=
  forall t, exists lines, m t = (log t (map Print lines), Returns tt).

(** [m] prints some lines and then behaves as [k]. *)
Definition print_prefixed {A : Type} (m k : Py A) : Prop :=
  forall t, exists lines, m t = k (log t (map Print lines)).

(** A computation that returns from every state. *)
Definition never_raises {A : Type} (m : Py A) : Prop :=
  forall t, exists a, snd (m t) = Returns a.

(** The checks that test the platform identifier before they do
    anything; [check_software_specific_issues] is the eighth check, and
    its scan of the editors' settings runs on every platform. *)
Definition platform_gated_checks (host : Host) : list (Py unit) :=
  [ check_font_directories host;
    check_font_cache host;
    check_system_fonts host;
    check_font_config host;
    check_locale_settings host;
    check_font_integrity host;
    check_dpi_scaling host ].

(** The tool object after a full pass on a Linux host without any
    critical font: the state a second pass of the same process starts
    from. *)
Definition after_first_pass : Tool :=
  fst (run_full_diagnostics Hosts.linux_no_fonts (init "Linux")).

(** The three states [check_font_directories] tells apart. *)
Inductive dir_state : Type := DirMissing | DirInaccessible | DirOk.

Definition classify_directory (host : Host) (directory : string) : dir_state :=
  if negb (exists_on_disk host directory) then DirMissing
  else if negb (readable host directory) then DirInaccessible
  else DirOk.

(** What [check_font_directories] records for one directory. *)
Definition record_directory (host : Host) (r : Report) (directory : string) : Report :=
  match classify_directory host directory with
  | DirMissing =>
      append_suggestion ("创建目录: " ++ directory ++ " 或修复系统字体设置")
        (append_issue ("字体目录不存在: " ++ directory) r)
  | DirInaccessible =>
      append_suggestion ("检查目录权限: " ++ directory)
        (append_issue ("无法访问字体目录: " ++ directory) r)
  | DirOk => r
  end.

(** The directories that are missing or cannot be read. *)
Definition faulty_directories (host : Host) (dirs : list string) : list string :=
  filter (fun d => match classify_directory host d with DirOk => false | _ => true end)
    dirs.

(** Linux with a VS Code settings file that names a font no directory
    holds. *)
Definition linux_with_vscode : Host :=
  Hosts.with_spawn Hosts.linux_tools
    (Hosts.with_json
       (fun _ key => if (key =? "editor.fontFamily")%string
                     then inr (VStr "Fira Code") else inr (VStr ""))
       (Hosts.with_files
          (Hosts.linux_dirs ++ ["/usr/share/fonts/DejaVuSans.ttf";
                                "/home/user/.vscode/settings.json"])%list
          (Hosts.bare "/home/user"))).

(** ** The repair operations and the menu

    [fix_font_cache] and [fix_dpi_scaling] are methods over the tool
    object like the checks.  [install_font] also changes the disk, and
    [main] reads what the user types: both run over a [Session], the tool
    object together with the operations that took effect on the disk and
    the prompts answered so far.  The three logs (trace, disk, prompts)
    are each in the order of the source. *)

Section Repairs.

Variable host : Host.

(** [subprocess.run(argv, check=True)] with the output left on the
    console: [e.stderr] is [None], which the handlers print as such. *)
Definition subprocess_run_checked (argv : list string) : Py unit :=
  emit (Exec argv) ;;
  result <- lift (spawn host argv) ;;
  if negb (returncode result =? 0)%Z
  then raise (CalledProcessError (returncode result) "None")
  else ret tt.

(** *** [fix_font_cache] *)

Definition fix_font_cache : Py unit :=
  print (nl ++ "尝试修复字体缓存...") ;;
  sys <- get_system ;;
  if (sys =? "Windows")%string then
    print "在Windows上重建字体缓存:" ;;
    print "1. 打开命令提示符(管理员)" ;;
    print "2. 运行: net stop FontCache" ;;
    print "3. 运行: del /q %windir%\System32\FNTCACHE.DAT" ;;
    print "4. 运行: net start FontCache" ;;
    print "5. 重启计算机"
  else if (sys =? "Linux")%string then
    try_except
      (print "在Linux上重建字体缓存..." ;;
       subprocess_run_checked ["fc-cache"; "-f"; "-v"] ;;
       print "字体缓存重建成功")
      is_CalledProcessError
      (fun e =>
         print ("重建字体缓存失败:" ++ " " ++
                match e with
                | CalledProcessError _ err => err
                | PyExc _ _ => ""
                end))
  else if (sys =? "Darwin")%string then
    print "在macOS上重建字体缓存:" ;;
    print "1. 打开终端" ;;
    print "2. 运行: atsutil databases -remove" ;;
    print "3. 重启计算机"
  else ret tt.

(** *** [fix_dpi_scaling] *)

Definition fix_dpi_scaling : Py unit :=
  print (nl ++ "尝试修复DPI/缩放设置...") ;;
  r <- get_report ;;
  match dpi_scaling_issues r with
  | [] => print "未发现DPI/缩放设置问题"
  | _ :: _ =>
      sys <- get_system ;;
      if (sys =? "Windows")%string then
        print "Windows DPI/缩放设置修复:" ;;
        print "1. 右键桌面选择'显示设置'" ;;
        print "2. 在'缩放与布局'部分" ;;
        print "3. 将'更改文本、应用等项目的大小'设置为推荐值(通常是100%或125%)" ;;
        print "4. 点击'高级缩放设置'" ;;
        print "5. 输入自定义缩放值(如果需要)，然后注销并重新登录"
      else if (sys =? "Linux")%string then
        print "Linux 缩放设置修复:" ;;
        print "GNOME桌面:" ;;
        print "1. 打开设置 > 设备 > 显示" ;;
        print "2. 调整缩放比例为1或2" ;;
        print "3. 或者使用命令: gsettings set org.gnome.desktop.interface scaling-factor 1"
      else if (sys =? "Darwin")%string then
        print "macOS 显示缩放修复:" ;;
        print "1. 打开系统偏好设置 > 显示器" ;;
        print "2. 选择'默认'或'更多空间'选项" ;;
        print "3. 避免使用缩放的选项"
      else ret tt
  end.

End Repairs.

(** *** Sessions *)

(** An operation of [install_font] that took effect on the disk.  The
    writing of the report file by [generate_report] is an event of the
    tool object's log ([FsWrite]); [written] below collects both. *)
Inductive disk_op : Type :=
| Makedirs (path : string)
| Copy2 (src dst : string).

Record Session : Type := mkSession {
  tool : Tool;
  disk : list disk_op;
  (** the prompts of [input] with the lines typed in answer *)
  asked : list (string * string)
}.

(** What [install_font] needs of the host besides [Host]: the path
    module's [basename], the outcome of [os.makedirs] and [shutil.copy2]
    ([None] when they succeed, the class and text of the exception
    otherwise), and [str(e)] of the [CalledProcessError] of a command
    line and exit status. *)
Record Installer : Type := mkInstaller {
  os_path_basename : string -> string;
  makedirs_failure : string -> option (exn_class * string);
  copy2_failure : string -> string -> option (exn_class * string);
  called_process_error_str : list string -> Z -> string
}.

Definition Sh (A : Type) : Type := Session -> Session * outcome A.

Definition sret {A : Type} (a : A) : Sh A := fun w => (w, Returns a).

Definition sbind {A B : Type} (m : Sh A) (f : A -> Sh B) : Sh B :=
  fun w =>
    match m w with
    | (w', Returns a) => f a w'
    | (w', Raises e) => (w', Raises e)
    end.

Definition stry {A : Type} (body : Sh A) (clause : exn -> bool)
  (handler : exn -> Sh A) : Sh A :=
  fun w =>
    match body w with
    | (w', Returns a) => (w', Returns a)
    | (w', Raises e) => if clause e then handler e w' else (w', Raises e)
    end.

(** A method of the tool object, run within a session. *)
Definition on_tool {A : Type} (m : Py A) : Sh A :=
  fun w =>
    match m (tool w) with
    | (t', o) => (mkSession t' (disk w) (asked w), o)
    end.

Definition did (op : disk_op) : Sh unit :=
  fun w => (mkSession (tool w) (disk w ++ [op])%list (asked w), Returns tt).

Definition swhen (b : bool) (m : Sh unit) : Sh unit := if b then m else sret tt.

Declare Scope sh_scope.
Delimit Scope sh_scope with sh.
Notation "x <- c1 ;; c2" := (sbind c1 (fun x => c2))
  (at level 61, c1 at next level, right associativity) : sh_scope.
Notation "c1 ;; c2" := (sbind c1 (fun _ => c2))
  (at level 61, right associativity) : sh_scope.

Section Install.

Variable host : Host.
Variable installer : Installer.

Definition os_makedirs (path : string) : Sh unit :=
  match makedirs_failure installer path with
  | Some (cls, msg) => fun w => (w, Raises (PyExc cls msg))
  | None => did (Makedirs path)
  end.

Definition shutil_copy2 (src dst : string) : Sh unit :=
  match copy2_failure installer src dst with
  | Some (cls, msg) => fun w => (w, Raises (PyExc cls msg))
  | None => did (Copy2 src dst)
  end.

(** [str(e)] in the handler of [install_font], whose only
    [CalledProcessError] is that of the [fc-cache] call. *)
Definition install_error_str (e : exn) : string :=
  match e with
  | CalledProcessError rc _ =>
      called_process_error_str installer ["fc-cache"; "-f"; "-v"] rc
  | PyExc _ msg => msg
  end.

(** *** [install_font] *)

Definition install_font (font_path : string) : Sh unit :=
  (on_tool (print (nl ++ "尝试安装字体: " ++ font_path)) ;;
   present <- on_tool (os_path_exists host font_path) ;;
   if negb present then on_tool (print "错误: 字体文件不存在")
   else
     font_dirs <- on_tool (get_font_dirs host) ;;
     match font_dirs with
     | [] => on_tool (print "错误: 无法确定系统字体目录")
     | target_dir :: _ =>
         let font_name := os_path_basename installer font_path in
         let target_path := os_path_join host target_dir [font_name] in
         stry
           (target_present <- on_tool (os_path_exists host target_dir) ;;
            swhen (negb target_present) (os_makedirs target_dir) ;;
            shutil_copy2 font_path target_path ;;
            on_tool (print ("字体已安装到: " ++ target_path)) ;;
            sys <- on_tool get_system ;;
            swhen (sys =? "Linux")%string
              (on_tool (subprocess_run_checked host ["fc-cache"; "-f"; "-v"])) ;;
            on_tool (update_report
                       (append_suggestion ("新字体安装完成: " ++ font_name))))
           is_Exception
           (fun e =>
              on_tool (print ("安装字体失败: " ++ install_error_str e)) ;;
              on_tool (update_report
                         (append_issue ("字体安装失败: " ++ font_name))))
     end)%sh.

End Install.

(** *** [main] *)

(** One line typed by the user, with the host as it is then. *)
Record typed_line : Type := mkTyped {
  host_then : Host;
  installer_then : Installer;
  line : string
}.

(** [input] at the end of the input: [EOFError], which nothing catches. *)
Definition end_of_input : exn := PyExc EOFError "EOF when reading a line".

(** How a session ends: the user chose to leave, or an exception that
    nothing catches ended the program: one raised by an operation, or
    [end_of_input] raised by [input]. *)
Inductive ending : Type :=
| Exited
| Crashed (e : exn).

Definition menu : list string :=
  [ nl ++ "菜单:";
    "1. 运行全面诊断";
    "2. 修复字体缓存";
    "3. 安装新字体";
    "4. 恢复默认字体";
    "5. 修复DPI/缩放设置";
    "6. 检查特定软件字体问题";
    "7. 退出" ].

Definition say (lines : list string) (w : Session) : Session :=
  mkSession (log (tool w) (map Print lines)) (disk w) (asked w).

(** [input(prompt)] answered by [answer]. *)
Definition answered (prompt answer : string) (w : Session) : Session :=
  mkSession (tool w) (disk w) (asked w ++ [(prompt, answer)])%list.

(** Selection 6: the software issues recorded so far. *)
Definition list_software_issues : Py unit :=
  r <- get_report ;;
  match software_specific_issues r with
  | _ :: _ =>
      print (nl ++ "检测到的软件特定问题:") ;;
      for_each (software_specific_issues r) (fun entry =>
        print (fst entry ++ ":") ;;
        for_each (snd entry) (fun issue => print (" - " ++ issue)))
  | [] => print "未检测到特定软件的字体问题"
  end.

(** The loop goes on after an operation that returned. *)
Definition and_then (r : Session * outcome unit) (next : Session -> Session * ending)
  : Session * ending :=
  match r with
  | (w, Returns _) => next w
  | (w, Raises e) => (w, Crashed e)
  end.

Fixpoint menu_loop (input : list typed_line) (w : Session) : Session * ending :=
  let w := say menu w in
  match input with
  | [] => (w, Crashed end_of_input)
  | selection :: rest =>
      let w := answered "请选择操作 (1-7): " (line selection) w in
      let choice := line selection in
      let h := host_then selection in
      if (choice =? "1")%string then
        and_then (on_tool (run_full_diagnostics h) w) (menu_loop rest)
      else if (choice =? "2")%string then
        and_then (on_tool (fix_font_cache h) w) (menu_loop rest)
      else if (choice =? "3")%string then
        match rest with
        | [] => (w, Crashed end_of_input)
        | path_line :: rest' =>
            let w := answered "输入字体文件路径: " (line path_line) w in
            let font_path := PyStr.strip (line path_line) in
            and_then
              (install_font (host_then path_line) (installer_then path_line)
                 font_path w)
              (menu_loop rest')
        end
      else if (choice =? "4")%string then
        and_then (on_tool restore_default_fonts w) (menu_loop rest)
      else if (choice =? "5")%string then
        and_then (on_tool fix_dpi_scaling w) (menu_loop rest)
      else if (choice =? "6")%string then
        and_then (on_tool list_software_issues w) (menu_loop rest)
      else if (choice =? "7")%string then
        (say ["退出程序"] w, Exited)
      else
        menu_loop rest (say ["无效选择，请重试"] w)
  end.

(** [main], given the value of [platform.system()] and what is typed. *)
Definition main (platform_system : string) (input : list typed_line)
  : Session * ending :=
  menu_loop input
    (say ["=== 增强版字体问题诊断与修复工具 ==="]
       (mkSession (init platform_system) [] [])).

(** ** Vocabulary of the further statements *)

(** A titled section of the printed report: nothing when it has no entry. *)
Definition section_lines (title : string) (entries : list string)
  (render : string -> string) : list string :=
  match entries with
  | [] => []
  | _ :: _ => (nl ++ title) :: map render entries
  end.

(** The lines [generate_report] prints before it writes the file. *)
Definition rendered (r : Report) : list string :=
  concat
    [ [ nl ++ "=== 诊断报告 ==="; "系统: " ++ system r ];
      match issues r with
      | [] => [nl ++ "未发现重大问题"]
      | _ :: _ => (nl ++ "发现的问题:") :: map (fun issue => "- " ++ issue) (issues r)
      end;
      section_lines "缺失的字体:" (missing_fonts r) (fun font => "- " ++ font);
      section_lines "可能损坏的字体:" (corrupted_fonts r) (fun font => "- " ++ font);
      section_lines "字体完整性问题:" (font_integrity_issues r)
        (fun font => "- " ++ font ++ " 可能已损坏");
      section_lines "DPI/缩放问题:" (dpi_scaling_issues r) (fun issue => "- " ++ issue);
      match software_specific_issues r with
      | [] => []
      | _ :: _ =>
          (nl ++ "软件特定问题:")
          :: flat_map (fun entry =>
                         (fst entry ++ ":")
                         :: map (fun issue => " - " ++ issue) (snd entry))
               (software_specific_issues r)
      end;
      section_lines "建议的解决方案:" (suggestions r)
        (fun suggestion => "- " ++ suggestion) ].

(** [m], run on a tool object whose report is [r], prints [lines] and
    returns. *)
Definition prints_at (r : Report) (m : Py unit) (lines : list string) : Prop :=
  forall t, report t = r -> m t = (log t (map Print lines), Returns tt).

(** [m], run on a tool object whose report is [r], prints [lines] and then
    behaves as [k]. *)
Definition prefixed_at {A : Type} (r : Report) (m : Py A) (lines : list string)
  (k : Py A) : Prop :=
  forall t, report t = r -> m t = k (log t (map Print lines)).

(** The cache directory [check_adobe_fonts] looks into. *)
Definition adobe_font_dir (host : Host) : string :=
  os_path_join host (os_environ_get host "APPDATA" "")
    ["Adobe"; "CoreSync"; "plugins"; "livetype"; "c"].

(** The fonts [check_office_fonts] requires. *)
Definition office_fonts : list string := ["Calibri.ttf"; "Cambria.ttf"; "Consolas.ttf"].

(** Some directory holds a file named after the family with one of the
    three extensions. *)
Definition family_available (host : Host) (dirs : list string) (family : string) : bool :=
  existsb (fun d =>
             existsb (fun ext => exists_on_disk host (os_path_join host d [family ++ ext]))
               [".ttf"; ".otf"; ".ttc"])
    dirs.

(** The fields of the report a method may write. *)
Inductive field : Type :=
| Issues | Suggestions | MissingFonts | CorruptedFonts | FontCacheIssues
| SoftwareSpecificIssues | DpiScalingIssues | FontIntegrityIssues.

Definition field_eqb (a b : field) : bool :=
  match a, b with
  | Issues, Issues | Suggestions, Suggestions | MissingFonts, MissingFonts
  | CorruptedFonts, CorruptedFonts | FontCacheIssues, FontCacheIssues
  | SoftwareSpecificIssues, SoftwareSpecificIssues
  | DpiScalingIssues, DpiScalingIssues
  | FontIntegrityIssues, FontIntegrityIssues => true
  | _, _ => false
  end.

(** The field holds the same value in both reports. *)
Definition untouched (f : field) (r r' : Report) : Prop :=
  match f with
  | Issues => issues r' = issues r
  | Suggestions => suggestions r' = suggestions r
  | MissingFonts => missing_fonts r' = missing_fonts r
  | CorruptedFonts => corrupted_fonts r' = corrupted_fonts r
  | FontCacheIssues => font_cache_issues r' = font_cache_issues r
  | SoftwareSpecificIssues => software_specific_issues r' = software_specific_issues r
  | DpiScalingIssues => dpi_scaling_issues r' = dpi_scaling_issues r
  | FontIntegrityIssues => font_integrity_issues r' = font_integrity_issues r
  end.

(** From [t] to [t'] the platform identifier and every field outside
    [allowed] stay as they are. *)
Definition touches_only (allowed : list field) (t t' : Tool) : Prop :=
  self_system t' = self_system t
  /\ system (report t') = system (report t)
  /\ forall f, existsb (field_eqb f) allowed = false ->
               untouched f (report t) (report t').

(** The command line that rebuilds the font cache. *)
Definition fc_cache_rebuild : list string := ["fc-cache"; "-f"; "-v"].

(** What [install_font] does for a font file that exists, given the first
    font directory: the disk operations that take effect, and whether every
    step succeeds (the directory is there or can be made, the copy succeeds
    and, on Linux, [fc-cache] exits with status 0). *)
Definition install_steps (host : Host) (installer : Installer) (sys : string)
  (font_path target_dir : string) : list disk_op * bool :=
  let target_path :=
    os_path_join host target_dir [os_path_basename installer font_path] in
  let made :=
    if exists_on_disk host target_dir then Some []
    else match makedirs_failure installer target_dir with
         | None => Some [Makedirs target_dir]
         | Some _ => None
         end in
  match made with
  | None => ([], false)
  | Some ops =>
      match copy2_failure installer font_path target_path with
      | Some _ => (ops, false)
      | None =>
          ((ops ++ [Copy2 font_path target_path])%list,
           if (sys =? "Linux")%string then
             match spawn host fc_cache_rebuild with
             | inr completed => (returncode completed =? 0)%Z
             | inl _ => false
             end
           else true)
      end
  end.

(** An installer for the concrete hosts: POSIX [basename], and every
    operation succeeds. *)
Definition posix_basename (path : string) : string :=
  let fix after_last_slash (rest current : string) : string :=
    match rest with
    | EmptyString => current
    | String c rest' =>
        if Ascii.eqb c "/"%char then after_last_slash rest' rest'
        else after_last_slash rest' current
    end in
  after_last_slash path path.

Definition obliging_installer : Installer :=
  {| os_path_basename := posix_basename;
     makedirs_failure := fun _ => None;
     copy2_failure := fun _ _ => None;
     called_process_error_str := fun _ rc =>
       "Command '['fc-cache', '-f', '-v']' returned non-zero exit status "
       ++ PyStr.of_Z rc ++ "." |}.

(** An installer on a disk that refuses the copy. *)
Definition read_only_installer : Installer :=
  {| os_path_basename := posix_basename;
     makedirs_failure := fun p => Some (PermissionError, "[Errno 13] Permission denied: '" ++ p ++ "'");
     copy2_failure := fun _ dst => Some (PermissionError, "[Errno 13] Permission denied: '" ++ dst ++ "'");
     called_process_error_str := fun _ rc =>
       "Command '['fc-cache', '-f', '-v']' returned non-zero exit status "
       ++ PyStr.of_Z rc ++ "." |}.

(** A Linux desktop whose [fc-cache] also rebuilds the cache, with a font
    file in the user's download directory. *)
Definition linux_with_download : Host :=
  Hosts.with_spawn
    (fun argv =>
       match argv with
       | ["fc-cache"; "-f"; "-v"] => Hosts.completed 0 "fc-cache: succeeded" ""
       | _ => Hosts.linux_tools argv
       end)
    (Hosts.with_files
       (Hosts.linux_dirs ++ ["/home/user/Downloads/Inter.ttf"])%list
       (Hosts.bare "/home/user")).

(** A line typed on that desktop. *)
Definition typed (text : string) : typed_line :=
  mkTyped linux_with_download obliging_installer text.

(** The exception that leaves [check_font_cache] on platform [sys], if
    any: the [KeyError] of [os.environ] on Windows, and on Linux whatever
    [subprocess.run] raises other than [CalledProcessError]. *)
Definition cache_failure (host : Host) (sys : string) : option exn :=
  if (sys =? "Windows")%string then
    match environ host "LOCALAPPDATA" with
    | Some _ => None
    | None => Some (PyExc KeyError "'LOCALAPPDATA'")
    end
  else if (sys =? "Linux")%string then
    match spawn host ["fc-cache"; "-v"] with
    | inl e => if is_CalledProcessError e then None else Some e
    | inr _ => None
    end
  else None.

(** The exception that leaves [check_font_config], if any: on Linux
    whatever [subprocess.run] raises other than [FileNotFoundError]. *)
Definition config_failure (host : Host) (sys : string) : option exn :=
  if (sys =? "Linux")%string then
    match spawn host ["fc-match"; "sans-serif"] with
    | inl e => if is_FileNotFoundError e then None else Some e
    | inr _ => None
    end
  else None.

(** The exception that leaves one of the eight checks of a pass on
    platform [sys], if any: the first among the resolver's, the cache
    check's and the configuration check's. *)
Definition check_failure (host : Host) (sys : string) : option exn :=
  match font_dirs_of host sys with
  | Raises e => Some e
  | Returns _ =>
      match cache_failure host sys with
      | Some e => Some e
      | None => config_failure host sys
      end
  end.

(** The exception that ends a full pass on platform [sys], if any: that
    of a check, or else the one of opening the report file. *)
Definition pass_failure (host : Host) (sys : string) : option exn :=
  match check_failure host sys with
  | Some e => Some e
  | None => write_failure host (report_path host)
  end.

(** The command lines of the checks. *)
Definition check_commands : list (list string) :=
  [ ["fc-cache"; "-v"];
    ["fc-match"; "sans-serif"];
    ["locale"];
    gsettings_query;
    ["system_profiler"; "SPDisplaysDataType"] ].

(** The command lines of the program: those of the checks and the
    rebuilding of the font cache. *)
Definition known_commands : list (list string) :=
  (check_commands ++ [fc_cache_rebuild])%list.

Fixpoint argv_eqb (a b : list string) : bool :=
  match a, b with
  | [], [] => true
  | x :: a', y :: b' => (x =? y)%string && argv_eqb a' b'
  | _, _ => false
  end.

(** An event that writes no file and runs no command outside [commands]. *)
Definition read_only (commands : list (list string)) (e : event) : bool :=
  match e with
  | FsWrite _ | JsonDumped _ _ => false
  | Exec argv => existsb (argv_eqb argv) commands
  | _ => true
  end.

(** An event that runs no command outside [commands]. *)
Definition runs_only (commands : list (list string)) (e : event) : bool :=
  match e with
  | Exec argv => existsb (argv_eqb argv) commands
  | _ => true
  end.

(** From [t] to [t'] the log gains events, each of them [allowed]. *)
Definition adds_only (allowed : event -> bool) (t t' : Tool) : Prop :=
  exists events,
    trace t' = (trace t ++ events)%list /\ forallb allowed events = true.

(** ** What the console accepts

    Texts are held as the bytes of their UTF-8 encoding.  A Python string
    with a code point that UTF-8 does not encode (a lone surrogate) has no
    such encoding: it is held in the same three-byte form, which is not
    well-formed, and [print] raises [UnicodeEncodeError] for it. *)

(** Well-formed UTF-8 (RFC 3629, table 3-7 of Unicode): [more]
    continuation bytes are still due, the next of them within [lo] and
    [hi]. *)
Fixpoint utf8_from (more lo hi : nat) (s : string) : bool :=
  match s with
  | EmptyString => Nat.eqb more 0
  | String c rest =>
      let b := nat_of_ascii c in
      match more with
      | S more' => Nat.leb lo b && Nat.leb b hi && utf8_from more' 128 191 rest
      | O =>
          if Nat.leb b 127 then utf8_from 0 128 191 rest
          else if Nat.leb 194 b && Nat.leb b 223 then utf8_from 1 128 191 rest
          else if Nat.eqb b 224 then utf8_from 2 160 191 rest
          else if Nat.eqb b 237 then utf8_from 2 128 159 rest
          else if Nat.leb 225 b && Nat.leb b 239 then utf8_from 2 128 191 rest
          else if Nat.eqb b 240 then utf8_from 3 144 191 rest
          else if Nat.leb 241 b && Nat.leb b 243 then utf8_from 3 128 191 rest
          else if Nat.eqb b 244 then utf8_from 3 128 143 rest
          else false
      end
  end.

(** The text can be printed. *)
Definition console_accepts (text : string) : bool := utf8_from 0 128 191 text.

(** Every line printed among [events] can be printed. *)
Definition printable (events : list event) : bool :=
  forallb (fun e => match e with Print text => console_accepts text | _ => true end)
    events.

(** ** Files a session writes *)

(** The files opened for writing by the tool object's methods. *)
Definition opened_for_writing (events : list event) : list string :=
  flat_map (fun e => match e with FsWrite path => [path] | _ => [] end) events.

(** The paths written or created so far in a session: the report files
    and what [install_font] made or copied. *)
Definition written (w : Session) : list string :=
  (opened_for_writing (trace (tool w))
   ++ map (fun op => match op with Makedirs path => path | Copy2 _ dst => dst end)
        (disk w))%list.

(** ** Hosts with a display setting out of the ordinary *)

(** A Windows desktop whose [LogPixels] is 110. *)
Definition windows_custom_dpi : Host :=
  let h := Hosts.windows_desktop in
  mkHost (environ h) (expanduser h) (os_path_join h)
    (exists_on_disk h) (readable h)
    (dir_entries h) (glob_matches h) (file_bytes h) (md5_hexdigest h) (spawn h)
    (json_setting h) (xml_texts h)
    (fun key name =>
       if (key =? "Control Panel\Desktop")%string && (name =? "LogPixels")%string
       then inr (RegInt 110) else registry_value h key name)
    (write_failure h).

(** A Mac whose display runs at a scaled resolution. *)
Definition mac_scaled_display : Host :=
  Hosts.with_spawn
    (fun argv =>
       match argv with
       | ["system_profiler"; "SPDisplaysDataType"] =>
           Hosts.completed 0
             ("Displays:" ++ nl ++ "  Resolution: 1680 x 1050 (scaled)" ++ nl) ""
       | _ => inl (Hosts.no_such_file (hd "" argv))
       end)
    (Hosts.bare "/Users/user").

(** * Properties

    The statements below are about the methods as embedded above, for
    every host unless a concrete one is named. *)

(** ** Evaluating the monad

    [py_simpl] runs the monad's operations on the tool object without
    touching the host's answers; [name_body] gives the body of the loop in
    the goal a name, so that it is unfolded one iteration at a time. *)

Ltac py_simpl :=
  repeat progress
    (cbv beta iota zeta delta
       [bind ret raise try_except emit print lift get_system get_report
        update_report when log with_report is_Exception];
     cbn [trace report self_system fst snd andb negb orb]);
  rewrite <- ?app_assoc; cbn [app map].

Ltac name_body body :=
  match goal with |- context [for_in _ _ ?b] => set (body := b) end.

(** ** The tool object and the platform resolver *)

Lemma log_nil t : log t [] = t.
Proof. destruct t. unfold log. cbn. rewrite app_nil_r. reflexivity. Qed.

Lemma log_log t e1 e2 : log (log t e1) e2 = log t (e1 ++ e2)%list.
Proof. unfold log. cbn. rewrite app_assoc. reflexivity. Qed.

(** [get_font_dirs] leaves the tool object alone and answers by the platform identifier only. *)
Lemma get_font_dirs_run host t :
  get_font_dirs host t = (t, font_dirs_of host (self_system t)).
Proof.
  unfold get_font_dirs, font_dirs_of, bind, get_system, os_environ, ret, raise.
  destruct (self_system t =? "Windows")%string.
  - destruct (environ host "WINDIR"); [|reflexivity].
    destruct (environ host "LOCALAPPDATA"); reflexivity.
  - destruct (self_system t =? "Linux")%string; [reflexivity|].
    destruct (self_system t =? "Darwin")%string; reflexivity.
Qed.

Lemma unsupported_tests sys :
  supported sys = false ->
  (sys =? "Windows")%string = false /\ (sys =? "Linux")%string = false
  /\ (sys =? "Darwin")%string = false.
Proof.
  unfold supported, Hosts.mem, existsb. 
  intros H. apply orb_false_elim in H as [H1 H]. apply orb_false_elim in H as [H2 H].
  apply orb_false_elim in H as [H3 _]. auto.
Qed.

Lemma critical_fonts_unsupported sys : supported sys = false -> critical_fonts sys = [].
Proof.
  intros H. destruct (unsupported_tests sys H) as (H1 & H2 & H3).
  unfold critical_fonts, dict_get.
  rewrite (String.eqb_sym "Windows"), (String.eqb_sym "Linux"), (String.eqb_sym "Darwin").
  rewrite H1, H2, H3. reflexivity.
Qed.

Lemma font_dirs_unsupported host sys :
  supported sys = false -> font_dirs_of host sys = Returns [].
Proof.
  intros H. destruct (unsupported_tests sys H) as (H1 & H2 & H3).
  unfold font_dirs_of. rewrite H1, H2, H3. reflexivity.
Qed.

Lemma critical_fonts_NoDup sys : NoDup (critical_fonts sys).
Proof.
  unfold critical_fonts, dict_get.
  repeat match goal with
         | |- context [if ?b then _ else _] => destruct b
         end;
    repeat constructor; cbn; intuition discriminate.
Qed.

(** Every digest of [known_font_hashes] is a non-empty string. *)
Lemma known_hash_truthy name known :
  dict_get known_font_hashes name = Some known -> PyStr.truthy known = true.
Proof.
  unfold known_font_hashes, dict_get.
  repeat match goal with
         | |- context [if ?b then _ else _] => destruct b
         end; intros H; inversion H; reflexivity.
Qed.

(** ** Computations that only print *)

Lemma quiet_ret : quiet (ret tt).
Proof. intros t. exists []. unfold log, ret. cbn. rewrite app_nil_r. destruct t; reflexivity. Qed.

Lemma quiet_print text : quiet (print text).
Proof. intros t. exists [text]. reflexivity. Qed.

Lemma quiet_bind (m : Py unit) (f : unit -> Py unit) :
  quiet m -> quiet (f tt) -> quiet (bind m f).
Proof.
  intros Hm Hf t. destruct (Hm t) as [l1 E1]. destruct (Hf (log t (map Print l1))) as [l2 E2].
  exists (l1 ++ l2)%list. unfold bind. rewrite E1, E2. unfold log. cbn.
  rewrite map_app, app_assoc. reflexivity.
Qed.

Lemma quiet_for_each {A} (items : list A) (body : A -> Py unit) :
  (forall a, quiet (body a)) -> quiet (for_each items body).
Proof.
  intros Hb. unfold for_each. induction items as [| a items IH].
  - apply quiet_ret.
  - intros t. cbn [for_in]. 
    destruct (Hb a t) as [l1 E1]. destruct (IH (log t (map Print l1))) as [l2 E2].
    exists (l1 ++ l2)%list. unfold bind at 1 2. rewrite E1. unfold ret at 1. cbv beta iota.
    rewrite E2. unfold log. cbn. rewrite map_app, app_assoc. reflexivity.
Qed.

Lemma quiet_when b m : quiet m -> quiet (when b m).
Proof. destruct b; [auto | intros _; apply quiet_ret]. Qed.

Lemma quiet_print_section title lines render : quiet (print_section title lines render).
Proof.
  unfold print_section. destruct lines; [apply quiet_ret|].
  apply quiet_bind; [apply quiet_print|].
  apply quiet_for_each. intros. apply quiet_print.
Qed.

Lemma print_prefixed_refl {A} (m : Py A) : print_prefixed m m.
Proof. intros t. exists []. cbn [map]. rewrite log_nil. reflexivity. Qed.

Lemma print_prefixed_quiet {A} (c : Py unit) (m k : Py A) :
  quiet c -> print_prefixed m k -> print_prefixed (c ;; m) k.
Proof.
  intros Hc Hm t. destruct (Hc t) as [l1 E1].
  destruct (Hm (log t (map Print l1))) as [l2 E2].
  exists (l1 ++ l2)%list. unfold bind. rewrite E1, E2, log_log, map_app. reflexivity.
Qed.

Lemma print_prefixed_get_report {A} (f : Report -> Py A) k :
  (forall r, print_prefixed (f r) k) -> print_prefixed (r <- get_report ;; f r) k.
Proof. intros H t. unfold bind, get_report. apply H. Qed.

(** ** [restore_default_fonts] *)

(** C10: [restore_default_fonts] returns from every state, leaves the report and
    [self.system] as they were, and adds nothing but printed lines to the
    trace: it touches no file, starts no process and writes nothing. *)
Theorem restore_default_fonts_only_prints t :
  exists lines,
    restore_default_fonts t = (log t (map Print lines), Returns tt).
Proof.
  unfold restore_default_fonts, bind, get_system, print, emit, ret, log; simpl.
  destruct (self_system t =? "Windows")%string.
  - eexists [_; _; _; _; _]. simpl. rewrite <- !app_assoc. reflexivity.
  - destruct (self_system t =? "Linux")%string.
    + eexists [_; _; _; _; _]. simpl. rewrite <- !app_assoc. reflexivity.
    + destruct (self_system t =? "Darwin")%string.
      * eexists [_; _; _; _]. simpl. rewrite <- !app_assoc. reflexivity.
      * eexists [_]. reflexivity.
Qed.

(** ** [verify_font_integrity] *)

(** The method never raises: it opens the file once, prints, and returns [verified]. *)
Lemma verify_font_integrity_run host font_path font_name t :
  exists lines,
    verify_font_integrity host font_path font_name t =
      (log t (FsRead font_path :: map Print lines),
       Returns (verified host font_path font_name)).
Proof.
  unfold verify_font_integrity, verified. py_simpl.
  destruct (file_bytes host font_path) as [e | data]; py_simpl.
  - eexists [_]. reflexivity.
  - destruct (dict_get known_font_hashes font_name) as [known |].
    + destruct (PyStr.truthy known && negb (md5_hexdigest host data =? known)%string);
        py_simpl.
      * eexists [_; _; _]. reflexivity.
      * exists []. reflexivity.
    + exists []. reflexivity.
Qed.







(** ** [check_dpi_scaling] *)

(** C7: the code records the suggestion on Windows only.  Off Windows
    [check_dpi_scaling] never touches [suggestions], whatever the query
    answers; so on a Linux desktop ([gsettings] answers [uint32 0]) and on
    a Mac with a scaled resolution it records the scaling issue and no
    suggestion, whereas on a Windows desktop with [LogPixels] 110 the
    same check records the issue together with its suggestion. *)
Theorem dpi_suggestion_only_on_windows :
  (forall host t,
      (self_system t =? "Windows")%string = false ->
      suggestions (report (fst (check_dpi_scaling host t))) = suggestions (report t))
  /\ dpi_scaling_issues
       (report (fst (check_dpi_scaling Hosts.linux_all_fonts (init "Linux")))) =
       ["非标准缩放设置 (uint32 0) 可能导致字体显示问题"]
  /\ suggestions
       (report (fst (check_dpi_scaling Hosts.linux_all_fonts (init "Linux")))) = []
  /\ dpi_scaling_issues
       (report (fst (check_dpi_scaling mac_scaled_display (init "Darwin")))) =
       ["检测到缩放的显示分辨率，可能影响字体显示"]
  /\ suggestions
       (report (fst (check_dpi_scaling mac_scaled_display (init "Darwin")))) = []
  /\ dpi_scaling_issues
       (report (fst (check_dpi_scaling windows_custom_dpi (init "Windows")))) =
       ["非标准DPI设置 (110) 可能导致字体显示问题"]
  /\ suggestions
       (report (fst (check_dpi_scaling windows_custom_dpi (init "Windows")))) =
       ["尝试将DPI设置为100%(96)、125%(120)或150%(144)"].
Proof.
  split; [| repeat split; vm_compute; reflexivity].
  intros host t Hw. unfold check_dpi_scaling, subprocess_run. py_simpl. rewrite Hw.
  destruct (self_system t =? "Linux")%string; py_simpl.
  { destruct (spawn host _) as [e | result]; py_simpl; [reflexivity|].
    destruct (returncode result =? 0)%Z; py_simpl; [|reflexivity].
    destruct (standard_scaling _); py_simpl; reflexivity. }
  destruct (self_system t =? "Darwin")%string; py_simpl; [|reflexivity].
  destruct (spawn host _) as [e | result]; py_simpl; [reflexivity|].
  destruct (PyStr.contains "Resolution" (stdout result)); py_simpl; [|reflexivity].
  destruct (ResolutionRe.search (stdout result)) as [resolution |]; [|reflexivity].
  destruct (PyStr.contains "scaled" (PyStr.lower resolution)); py_simpl; reflexivity.
Qed.

(** ** Platforms the program does not know *)

Section Unsupported.

Variable host : Host.
Variable t : Tool.
Hypothesis unknown : supported (self_system t) = false.

Let not_windows := proj1 (unsupported_tests _ unknown).
Let not_linux := proj1 (proj2 (unsupported_tests _ unknown)).
Let not_darwin := proj2 (proj2 (unsupported_tests _ unknown)).

Ltac unknown_platform :=
  repeat progress (py_simpl; rewrite ?not_windows, ?not_linux, ?not_darwin).

Lemma check_font_directories_unsupported :
  exists lines, check_font_directories host t = (log t (map Print lines), Returns tt).
Proof.
  unfold check_font_directories. py_simpl. rewrite get_font_dirs_run.
  cbn [self_system]. rewrite (font_dirs_unsupported host _ unknown).
  unfold for_each, for_in. py_simpl. eexists [_]. reflexivity.
Qed.

Lemma check_font_cache_unsupported :
  exists lines, check_font_cache host t = (log t (map Print lines), Returns tt).
Proof.
  unfold check_font_cache. unknown_platform. eexists [_]. reflexivity.
Qed.

Lemma check_system_fonts_unsupported :
  exists lines, check_system_fonts host t = (log t (map Print lines), Returns tt).
Proof.
  unfold check_system_fonts. py_simpl.
  rewrite (critical_fonts_unsupported _ unknown).
  unfold collect_missing, for_in. py_simpl. eexists [_; _]. reflexivity.
Qed.

Lemma check_font_config_unsupported :
  exists lines, check_font_config host t = (log t (map Print lines), Returns tt).
Proof.
  unfold check_font_config. unknown_platform. eexists [_]. reflexivity.
Qed.

Lemma check_locale_settings_unsupported :
  exists lines, check_locale_settings host t = (log t (map Print lines), Returns tt).
Proof.
  unfold check_locale_settings. unknown_platform. eexists [_]. reflexivity.
Qed.

Lemma check_font_integrity_unsupported :
  exists lines, check_font_integrity host t = (log t (map Print lines), Returns tt).
Proof.
  unfold check_font_integrity. py_simpl.
  rewrite (critical_fonts_unsupported _ unknown).
  unfold for_each, for_in. py_simpl. eexists [_]. reflexivity.
Qed.

Lemma check_dpi_scaling_unsupported :
  exists lines, check_dpi_scaling host t = (log t (map Print lines), Returns tt).
Proof.
  unfold check_dpi_scaling. unknown_platform. eexists [_]. reflexivity.
Qed.

Lemma check_software_specific_issues_unsupported :
  check_software_specific_issues host t =
    check_ide_fonts host (log t [Print (nl ++ "检查特定软件的字体问题...")]).
Proof.
  unfold check_software_specific_issues. unknown_platform. reflexivity.
Qed.

End Unsupported.

Lemma read_font_family_frame host config_path key t :
  exists events, fst (read_font_family host config_path key t) = log t events.
Proof.
  unfold read_font_family.
  destruct (PyStr.endswith config_path ".json").
  - py_simpl. destruct (json_setting host config_path key); py_simpl;
      eexists [_]; reflexivity.
  - destruct (PyStr.endswith config_path ".xml").
    + py_simpl. destruct (xml_texts host config_path key) as [e | texts]; py_simpl.
      * eexists [_]; reflexivity.
      * destruct texts as [| [text |] rest]; py_simpl; eexists [_]; reflexivity.
    + py_simpl. exists []. rewrite app_nil_r. destruct t; reflexivity.
Qed.

(** With no font directory to search, a configured font family that is not
    empty is always reported as unavailable. *)
Lemma check_ide_font_config_unsupported host t ide_name config_path key font_family :
  supported (self_system t) = false ->
  snd (read_font_family host config_path key t) = Returns font_family ->
  pyval_truthy font_family = true ->
  snd (check_ide_font_config host ide_name config_path key t) = Returns tt
  /\ report (fst (check_ide_font_config host ide_name config_path key t)) =
       append_suggestion ("在" ++ ide_name ++ "设置中更改为已安装的字体")
         (append_software_issue ide_name
            ("配置的字体 '" ++ pyval_str font_family ++ "' 不可用") (report t)).
Proof.
  intros unknown Hread Htruthy.
  destruct (read_font_family_frame host config_path key t) as [events Hframe].
  unfold check_ide_font_config. py_simpl.
  destruct (read_font_family host config_path key t) as [t1 o].
  cbn [fst snd] in Hread, Hframe. subst t1 o. py_simpl. rewrite Htruthy.
  unfold font_family_available. py_simpl. rewrite get_font_dirs_run.
  cbn [self_system]. rewrite (font_dirs_unsupported host _ unknown).
  unfold for_in. py_simpl. split; reflexivity.
Qed.

Lemma never_raises_ret {A} (a : A) : never_raises (ret a).
Proof. intros t. exists a. reflexivity. Qed.

Lemma never_raises_emit e : never_raises (emit e).
Proof. intros t. exists tt. reflexivity. Qed.

Lemma never_raises_update f : never_raises (update_report f).
Proof. intros t. exists tt. reflexivity. Qed.

Lemma never_raises_get_system : never_raises get_system.
Proof. intros t. eexists. reflexivity. Qed.

Lemma never_raises_bind {A B} (m : Py A) (f : A -> Py B) :
  never_raises m -> (forall a, never_raises (f a)) -> never_raises (bind m f).
Proof.
  intros Hm Hf t. unfold bind. destruct (Hm t) as [a Ha].
  destruct (m t) as [t' o]. cbn [snd] in Ha. subst o. apply Hf.
Qed.

Lemma never_raises_guarded {A} (body : Py A) handler :
  (forall e, never_raises (handler e)) ->
  never_raises (try_except body is_Exception handler).
Proof.
  intros Hh t. unfold try_except. destruct (body t) as [t' [a | e]].
  - exists a. reflexivity.
  - apply Hh.
Qed.

Lemma never_raises_for_in {A L} (items : list A) (locals : L) body :
  (forall a l, never_raises (body a l)) -> never_raises (for_in items locals body).
Proof.
  intros Hb. revert locals.
  induction items as [| a items IH]; intros locals; cbn [for_in].
  - apply never_raises_ret.
  - apply never_raises_bind; [apply Hb|].
    intros [[|] l']; [apply IH | apply never_raises_ret].
Qed.

Ltac never_raises_step :=
  match goal with
  | |- never_raises (ret _) => apply never_raises_ret
  | |- never_raises get_system => apply never_raises_get_system
  | |- never_raises (emit _) => apply never_raises_emit
  | |- never_raises (print _) => apply never_raises_emit
  | |- never_raises (update_report _) => apply never_raises_update
  | |- never_raises (try_except _ is_Exception _) => apply never_raises_guarded; intro
  | |- never_raises (bind _ _) => apply never_raises_bind; [| intro]
  | |- never_raises (for_in _ _ _) => apply never_raises_for_in; intros
  | |- never_raises (if ?b then _ else _) => destruct b
  | |- never_raises (match ?x with _ => _ end) => destruct x
  end.

(** Three checks return whatever the host answers. *)
Lemma check_software_specific_issues_never_raises host :
  never_raises (check_software_specific_issues host).
Proof.
  unfold check_software_specific_issues, check_adobe_fonts, check_office_fonts,
    check_ide_fonts, check_ide_font_config, os_path_exists, glob_glob, for_each, when.
  cbv zeta. repeat never_raises_step.
Qed.

Lemma check_locale_settings_never_raises host : never_raises (check_locale_settings host).
Proof. unfold check_locale_settings, when. repeat never_raises_step. Qed.

Lemma check_dpi_scaling_never_raises host : never_raises (check_dpi_scaling host).
Proof. unfold check_dpi_scaling. repeat never_raises_step. Qed.

(** X2: the locale check, the software-specific check and the DPI check
    catch every exception of their body: on every host and from every
    state they return. *)
Theorem guarded_checks_never_raise host :
  never_raises (check_locale_settings host)
  /\ never_raises (check_software_specific_issues host)
  /\ never_raises (check_dpi_scaling host).
Proof.
  split; [| split].
  - apply check_locale_settings_never_raises.
  - apply check_software_specific_issues_never_raises.
  - apply check_dpi_scaling_never_raises.
Qed.

(** C8: the code does not treat the empty list as "no check applies" in
    the scan of the editors' settings.  On a platform the program does not
    know the resolver returns no directory and the seven checks that test
    the platform record nothing; yet [check_ide_font_config] reports any
    configured font family that is not empty as unavailable, with a
    suggestion, having searched no directory: so does a full pass on a
    FreeBSD host with a VS Code settings file.  And on Windows without
    [WINDIR] the resolver raises instead of returning a list. *)
Theorem unknown_platform_reports_editor_font :
  (forall host t,
      supported (self_system t) = false ->
      snd (get_font_dirs host t) = Returns []
      /\ Forall (fun c => snd (c t) = Returns tt /\ report (fst (c t)) = report t)
           (platform_gated_checks host))
  /\ (forall host t ide_name config_path key font_family,
        supported (self_system t) = false ->
        snd (read_font_family host config_path key t) = Returns font_family ->
        pyval_truthy font_family = true ->
        report (fst (check_ide_font_config host ide_name config_path key t)) =
          append_suggestion ("在" ++ ide_name ++ "设置中更改为已安装的字体")
            (append_software_issue ide_name
               ("配置的字体 '" ++ pyval_str font_family ++ "' 不可用") (report t)))
  /\ supported "FreeBSD" = false
  /\ software_specific_issues
       (report (fst (run_full_diagnostics Hosts.freebsd_with_vscode (init "FreeBSD")))) =
       [("VSCode", ["配置的字体 'Fira Code' 不可用"])]
  /\ suggestions
       (report (fst (run_full_diagnostics Hosts.freebsd_with_vscode (init "FreeBSD")))) =
       ["在VSCode设置中更改为已安装的字体"]
  /\ filter (fun e => match e with FsExists path => PyStr.contains "Fira Code" path
                                 | _ => false end)
       (trace (fst (run_full_diagnostics Hosts.freebsd_with_vscode (init "FreeBSD")))) = []
  /\ snd (get_font_dirs Hosts.windows_without_environment (init "Windows")) =
       Raises (PyExc KeyError "'WINDIR'").
Proof.
  split; [| split; [| repeat split; vm_compute; reflexivity]].
  - intros host t unknown. split.
    + rewrite get_font_dirs_run. cbn [snd]. apply font_dirs_unsupported, unknown.
    + unfold platform_gated_checks.
      apply Forall_cons;
        [destruct (check_font_directories_unsupported host t unknown) as [lines E];
         rewrite E; split; reflexivity|].
      apply Forall_cons;
        [destruct (check_font_cache_unsupported host t unknown) as [lines E];
         rewrite E; split; reflexivity|].
      apply Forall_cons;
        [destruct (check_system_fonts_unsupported host t unknown) as [lines E];
         rewrite E; split; reflexivity|].
      apply Forall_cons;
        [destruct (check_font_config_unsupported host t unknown) as [lines E];
         rewrite E; split; reflexivity|].
      apply Forall_cons;
        [destruct (check_locale_settings_unsupported host t unknown) as [lines E];
         rewrite E; split; reflexivity|].
      apply Forall_cons;
        [destruct (check_font_integrity_unsupported host t unknown) as [lines E];
         rewrite E; split; reflexivity|].
      apply Forall_cons;
        [destruct (check_dpi_scaling_unsupported host t unknown) as [lines E];
         rewrite E; split; reflexivity|].
      apply Forall_nil.
  - intros host t ide_name config_path key font_family unknown Hread Htruthy.
    apply (check_ide_font_config_unsupported host t ide_name config_path key
             font_family unknown Hread Htruthy).
Qed.

(** ** [check_font_directories] *)



(** ** [check_system_fonts] *)

(** The search loop answers whether the font lies in some directory. *)
Lemma font_found_run host font dirs t :
  font_dirs_of host (self_system t) = Returns dirs ->
  exists events,
    font_found host font t = (log t events, Returns (present_in host dirs font)).
Proof.
  intros Hdirs. unfold font_found. unfold bind at 1.
  rewrite get_font_dirs_run, Hdirs. cbv beta iota. unfold present_in.
  name_body body.
  enough (forall found t0, exists events,
             for_in dirs found body t0 =
             (log t0 events,
              Returns (existsb (fun d => exists_on_disk host (os_path_join host d [font]))
                         dirs || found))) as H.
  { destruct (H false t) as [events E]. exists events. rewrite E, orb_false_r. reflexivity. }
  clear Hdirs. induction dirs as [| d dirs IH]; intros found t0.
  - exists []. rewrite log_nil. reflexivity.
  - cbn [for_in existsb]. unfold body at 1, os_path_exists. py_simpl.
    destruct (exists_on_disk host (os_path_join host d [font])); py_simpl.
    + eexists [_]. reflexivity.
    + destruct (IH found (log t0 [FsExists (os_path_join host d [font])])) as [events E].
      unfold log in E. cbn [trace report self_system] in E. rewrite E.
      eexists (_ :: events). unfold log. cbn [trace report self_system].
      rewrite <- app_assoc. reflexivity.
Qed.

Lemma collect_missing_run host dirs fonts t :
  font_dirs_of host (self_system t) = Returns dirs ->
  exists events,
    collect_missing host fonts t =
      (log t events, Returns (absent_fonts host dirs fonts)).
Proof.
  intros Hdirs. unfold collect_missing, absent_fonts. name_body body.
  enough (forall missing t0, self_system t0 = self_system t -> exists events,
             for_in fonts missing body t0 =
             (log t0 events,
              Returns (missing ++ filter (fun font => negb (present_in host dirs font))
                                    fonts)%list)) as H.
  { destruct (H [] t eq_refl) as [events E]. exists events. exact E. }
  induction fonts as [| font fonts IH]; intros missing t0 Hsys.
  - exists []. rewrite log_nil, app_nil_r. reflexivity.
  - cbn [for_in filter]. unfold body at 1. rewrite <- Hsys in Hdirs.
    destruct (font_found_run host font dirs t0 Hdirs) as [ev1 E1].
    unfold bind at 1 2. rewrite E1.
    destruct (present_in host dirs font); cbn [negb]; py_simpl.
    + destruct (IH missing (log t0 ev1)) as [ev2 E2]; [exact Hsys|].
      unfold log in E2. cbn [trace report self_system] in E2. rewrite E2.
      exists (ev1 ++ ev2)%list. unfold log. cbn [trace report self_system].
      rewrite <- app_assoc. reflexivity.
    + destruct (IH (missing ++ [font])%list (log t0 ev1)) as [ev2 E2]; [exact Hsys|].
      unfold log in E2. cbn [trace report self_system] in E2. rewrite E2.
      exists (ev1 ++ ev2)%list. unfold log. cbn [trace report self_system].
      rewrite <- !app_assoc. reflexivity.
Qed.

Lemma absent_fonts_spec host dirs fonts font :
  In font (absent_fonts host dirs fonts) <->
  In font fonts /\
  forall d, In d dirs -> exists_on_disk host (os_path_join host d [font]) = false.
Proof.
  unfold absent_fonts, present_in. rewrite filter_In, negb_true_iff.
  split; intros [Hin H]; split; try exact Hin.
  - intros d Hd. destruct (exists_on_disk host (os_path_join host d [font])) eqn:E; [|reflexivity].
    assert (existsb (fun d0 => exists_on_disk host (os_path_join host d0 [font])) dirs = true)
      as Hex by (apply existsb_exists; exists d; auto).
    congruence.
  - destruct (existsb _ dirs) eqn:E; [|reflexivity].
    apply existsb_exists in E as (d & Hd & Hp). rewrite (H d Hd) in Hp. discriminate.
Qed.

(** C3, as amended: when the directories resolve, [check_system_fonts]
    returns; if some critical font lies in none of them, [missing_fonts] is
    set to exactly those fonts, in the order of the critical list, and one
    issue and one suggestion are appended; if none is absent the report is
    left as it was.  Hence, when [missing_fonts] is empty on entry, as in
    the first pass of a tool object, it equals afterwards exactly the
    critical fonts absent from every directory. *)
Theorem check_system_fonts_records host t dirs :
  font_dirs_of host (self_system t) = Returns dirs ->
  snd (check_system_fonts host t) = Returns tt
  /\ report (fst (check_system_fonts host t)) =
       match absent_fonts host dirs (critical_fonts (self_system t)) with
       | [] => report t
       | missing =>
           append_suggestion "考虑重新安装系统或恢复默认字体"
             (append_issue ("缺少关键系统字体: " ++ PyStr.join ", " missing)
                (set_missing_fonts missing (report t)))
       end
  /\ (missing_fonts (report t) = [] ->
      missing_fonts (report (fst (check_system_fonts host t))) =
        absent_fonts host dirs (critical_fonts (self_system t))
      /\ forall font,
           In font (missing_fonts (report (fst (check_system_fonts host t)))) <->
           In font (critical_fonts (self_system t)) /\
           forall d, In d dirs ->
                     exists_on_disk host (os_path_join host d [font]) = false).
Proof.
  intros Hdirs.
  destruct (collect_missing_run host dirs (critical_fonts (self_system t))
              (log t [Print (nl ++ "检查系统字体...")]) Hdirs) as [events E].
  assert (check_system_fonts host t =
          match absent_fonts host dirs (critical_fonts (self_system t)) with
          | [] => (log t (Print (nl ++ "检查系统字体...") :: events
                          ++ [Print "关键系统字体存在"]), Returns tt)
          | missing =>
              (with_report (log t (Print (nl ++ "检查系统字体...") :: events))
                 (append_suggestion "考虑重新安装系统或恢复默认字体"
                    (append_issue ("缺少关键系统字体: " ++ PyStr.join ", " missing)
                       (set_missing_fonts missing (report t)))), Returns tt)
          end) as Hrun.
  { unfold check_system_fonts. py_simpl. unfold log in E. cbn [trace report self_system] in E.
    rewrite <- ?app_assoc in E. cbn [app] in E. rewrite E.
    destruct (absent_fonts host dirs (critical_fonts (self_system t))); py_simpl; reflexivity. }
  rewrite Hrun.
  destruct (absent_fonts host dirs (critical_fonts (self_system t))) as [| f fs] eqn:Habs;
    cbn [fst snd log with_report report].
  - split; [reflexivity|]. split; [reflexivity|]. intros Hempty. rewrite Hempty.
    split; [reflexivity|]. intros font. rewrite <- absent_fonts_spec, Habs. reflexivity.
  - split; [reflexivity|]. split; [reflexivity|]. intros _. cbn.
    split; [reflexivity|]. intros font. rewrite <- absent_fonts_spec, Habs. reflexivity.
Qed.

(** C3 on a Linux host with [DejaVuSans.ttf] installed and [FreeSans.ttf] absent. *)
Lemma check_system_fonts_records_witness :
  snd (check_system_fonts Hosts.linux_dejavu_only (init "Linux")) = Returns tt
  /\ missing_fonts (report (fst (check_system_fonts Hosts.linux_dejavu_only
                                   (init "Linux")))) = ["FreeSans.ttf"].
Proof.
  destruct (check_system_fonts_records Hosts.linux_dejavu_only (init "Linux")
              Hosts.linux_dirs eq_refl) as (Hret & _ & Hmissing).
  split; [exact Hret|].
  destruct (Hmissing eq_refl) as [Heq _]. rewrite Heq. vm_compute. reflexivity.
Defined.

(** C3 fails as stated: in a second pass of the same tool object, after the
    fonts were installed, no critical font is absent and [missing_fonts]
    still holds the two fonts of the first pass. *)
Lemma stale_missing_fonts_on_second_pass :
  missing_fonts (report after_first_pass) = ["DejaVuSans.ttf"; "FreeSans.ttf"]
  /\ font_dirs_of Hosts.linux_all_fonts (self_system after_first_pass) =
       Returns Hosts.linux_dirs
  /\ absent_fonts Hosts.linux_all_fonts Hosts.linux_dirs
       (critical_fonts (self_system after_first_pass)) = []
  /\ snd (check_system_fonts Hosts.linux_all_fonts after_first_pass) = Returns tt
  /\ missing_fonts (report (fst (check_system_fonts Hosts.linux_all_fonts
                                   after_first_pass))) =
       ["DejaVuSans.ttf"; "FreeSans.ttf"].
Proof. repeat split; vm_compute; reflexivity. Qed.

(** ** [check_font_integrity] *)

Lemma reads_of_app e1 e2 : reads_of (e1 ++ e2) = (reads_of e1 ++ reads_of e2)%list.
Proof.
  induction e1 as [| e e1 IH]; [reflexivity|].
  destruct e; cbn [app reads_of]; rewrite IH; reflexivity.
Qed.

Lemma reads_of_prints lines : reads_of (map Print lines) = [].
Proof. induction lines; [reflexivity | exact IHlines]. Qed.

(** One critical font: the directories are searched in order and the first copy alone is verified. *)
Lemma integrity_search_run host font dirs t :
  exists events,
    for_in dirs tt
      (fun font_dir (_ : unit) =>
         let font_path := os_path_join host font_dir [font] in
         present <- os_path_exists host font_path ;;
         (if present then
            intact <- verify_font_integrity host font_path font ;;
            when (negb intact) (update_report (append_font_integrity_issue font)) ;;
            ret (Break, tt)
          else ret (Continue, tt))) t =
      (with_report (log t events)
         (record_failures (integrity_failures host dirs [font]) (report t)), Returns tt)
    /\ reads_of events = copy_read host dirs font.
Proof.
  name_body body. unfold integrity_failures, copy_read, first_copy, record_failures.
  cbn [filter]. revert t.
  induction dirs as [| d dirs IH]; intros t.
  - exists []. split; [|reflexivity]. cbn [for_in map find fold_left].
    unfold ret, with_report. rewrite log_nil. destruct t; reflexivity.
  - cbn [for_in map find]. unfold body at 1, os_path_exists. py_simpl.
    destruct (exists_on_disk host (os_path_join host d [font])).
    + py_simpl.
      destruct (verify_font_integrity_run host (os_path_join host d [font]) font
                  (log t [FsExists (os_path_join host d [font])])) as [lines E].
      unfold log in E. cbn [trace report self_system] in E. rewrite E.
      destruct (verified host (os_path_join host d [font]) font); py_simpl.
      * eexists (_ :: _ :: map Print lines). split; [reflexivity|].
        cbn [reads_of]. rewrite reads_of_prints. reflexivity.
      * eexists (_ :: _ :: map Print lines). split; [reflexivity|].
        cbn [reads_of]. rewrite reads_of_prints. reflexivity.
    + py_simpl.
      destruct (IH (log t [FsExists (os_path_join host d [font])])) as (events & E & R).
      unfold log in E. cbn [trace report self_system] in E. rewrite E.
      exists (FsExists (os_path_join host d [font]) :: events). split; [|exact R].
      unfold with_report, log. cbn [trace report self_system].
      rewrite <- app_assoc. reflexivity.
Qed.

Lemma integrity_failures_cons host dirs font fonts :
  integrity_failures host dirs (font :: fonts) =
    (integrity_failures host dirs [font] ++ integrity_failures host dirs fonts)%list.
Proof.
  unfold integrity_failures. cbn [filter].
  destruct (match first_copy host dirs font with
            | Some path => negb (verified host path font)
            | None => false
            end); reflexivity.
Qed.

Lemma record_failures_issues fonts r :
  font_integrity_issues (record_failures fonts r) =
    (font_integrity_issues r ++ fonts)%list.
Proof.
  unfold record_failures. revert r.
  induction fonts as [| f fonts IH]; intros r; cbn [fold_left].
  - rewrite app_nil_r. reflexivity.
  - rewrite IH. cbn. rewrite <- app_assoc. reflexivity.
Qed.

Lemma integrity_loop_run host dirs fonts t :
  font_dirs_of host (self_system t) = Returns dirs ->
  exists events,
    for_each fonts (fun font =>
      font_dirs <- get_font_dirs host ;;
      for_in font_dirs tt (fun font_dir (_ : unit) =>
        let font_path := os_path_join host font_dir [font] in
        present <- os_path_exists host font_path ;;
        (if present then
           intact <- verify_font_integrity host font_path font ;;
           when (negb intact) (update_report (append_font_integrity_issue font)) ;;
           ret (Break, tt)
         else ret (Continue, tt)))) t =
      (with_report (log t events)
         (record_failures (integrity_failures host dirs fonts) (report t)), Returns tt)
    /\ reads_of events = flat_map (copy_read host dirs) fonts.
Proof.
  unfold for_each. name_body body. revert t.
  induction fonts as [| font fonts IH]; intros t Hdirs.
  - exists []. split; [|reflexivity]. cbn [for_in]. unfold ret, with_report.
    rewrite log_nil. destruct t; reflexivity.
  - cbn [for_in flat_map]. unfold body at 1. unfold bind at 1 2 3.
    rewrite get_font_dirs_run, Hdirs. cbv beta iota zeta.
    destruct (integrity_search_run host font dirs t) as (ev1 & E1 & R1).
    cbv zeta in E1. rewrite E1. unfold ret at 1. cbv beta iota.
    destruct (IH (with_report (log t ev1)
                    (record_failures (integrity_failures host dirs [font]) (report t))))
      as (ev2 & E2 & R2); [exact Hdirs|].
    rewrite E2. exists (ev1 ++ ev2)%list. split.
    + rewrite (integrity_failures_cons host dirs font fonts).
      unfold record_failures. rewrite fold_left_app.
      unfold with_report, log. cbn [trace report self_system].
      rewrite app_assoc. reflexivity.
    + rewrite reads_of_app, R1, R2. reflexivity.
Qed.

(** [first_copy] is the copy in the first directory, in list order, that has the font. *)
Lemma first_copy_is_first host dirs font path :
  first_copy host dirs font = Some path <->
  exists before d after,
    dirs = (before ++ d :: after)%list
    /\ path = os_path_join host d [font]
    /\ exists_on_disk host path = true
    /\ forall d', In d' before ->
                  exists_on_disk host (os_path_join host d' [font]) = false.
Proof.
  unfold first_copy. induction dirs as [| d dirs IH]; cbn [map find].
  - split; [discriminate|]. intros (before & d & after & H & _).
    destruct before; discriminate.
  - destruct (exists_on_disk host (os_path_join host d [font])) eqn:E.
    + split.
      * intros H. inversion H; subst path. exists [], d, dirs.
        repeat split; auto. intros d' [].
      * intros (before & d0 & after & Hd & Hp & He & Hb).
        destruct before as [| b before]; cbn in Hd; inversion Hd; subst.
        -- reflexivity.
        -- rewrite (Hb b (or_introl eq_refl)) in E. discriminate.
    + rewrite IH. split.
      * intros (before & d0 & after & Hd & Hp & He & Hb).
        exists (d :: before), d0, after. subst dirs. repeat split; auto.
        intros d' [<- | Hin]; auto.
      * intros (before & d0 & after & Hd & Hp & He & Hb).
        destruct before as [| b before]; cbn in Hd; inversion Hd; subst.
        -- congruence.
        -- exists before, d0, after. repeat split; auto.
           intros d' Hin. apply Hb. right. exact Hin.
Qed.



(** ** The report only grows *)

Section Stability.

Variable R : Tool -> Tool -> Prop.
Hypothesis R_refl : forall t, R t t.
Hypothesis R_trans : forall a b c, R a b -> R b c -> R a c.

Lemma stable_ret {A} (a : A) : stable R (ret a).
Proof. intros t. apply R_refl. Qed.

Lemma stable_raise {A} (e : exn) : stable R (@raise A e).
Proof. intros t. apply R_refl. Qed.

Lemma stable_lift {A} (r : exn + A) : stable R (lift r).
Proof. destruct r; [apply stable_raise | apply stable_ret]. Qed.

Lemma stable_get_system : stable R get_system.
Proof. intros t. apply R_refl. Qed.

Lemma stable_get_report : stable R get_report.
Proof. intros t. apply R_refl. Qed.

Lemma stable_bind {A B} (m : Py A) (f : A -> Py B) :
  stable R m -> (forall a, stable R (f a)) -> stable R (bind m f).
Proof.
  intros Hm Hf t. unfold bind. specialize (Hm t).
  destruct (m t) as [t' [a | e]]; cbn [fst] in *.
  - eapply R_trans; [exact Hm | apply Hf].
  - exact Hm.
Qed.

Lemma stable_try {A} (body : Py A) clause handler :
  stable R body -> (forall e, stable R (handler e)) ->
  stable R (try_except body clause handler).
Proof.
  intros Hb Hh t. unfold try_except. specialize (Hb t).
  destruct (body t) as [t' [a | e]]; cbn [fst] in *; [exact Hb|].
  destruct (clause e); [|exact Hb].
  eapply R_trans; [exact Hb | apply Hh].
Qed.

Lemma stable_for_in {A L} (items : list A) (locals : L) body :
  (forall a l, stable R (body a l)) -> stable R (for_in items locals body).
Proof.
  intros Hb. revert locals.
  induction items as [| a items IH]; intros locals; cbn [for_in].
  - apply stable_ret.
  - apply stable_bind; [apply Hb|].
    intros [[|] l']; [apply IH | apply stable_ret].
Qed.

Lemma stable_for_each {A} (items : list A) body :
  (forall a, stable R (body a)) -> stable R (for_each items body).
Proof.
  intros Hb. apply stable_for_in. intros a _.
  apply stable_bind; [apply Hb | intros; apply stable_ret].
Qed.

Lemma stable_when b m : stable R m -> stable R (when b m).
Proof. destruct b; [auto | intros; apply stable_ret]. Qed.

Hypothesis R_emit : forall e, stable R (emit e).

Ltac stable_step :=
  match goal with
  | |- stable _ (ret _) => apply stable_ret
  | |- stable _ (raise _) => apply stable_raise
  | |- stable _ (lift _) => apply stable_lift
  | |- stable _ get_system => apply stable_get_system
  | |- stable _ get_report => apply stable_get_report
  | |- stable _ (emit _) => apply R_emit
  | |- stable _ (print _) => apply R_emit
  | |- stable _ (bind _ _) => apply stable_bind; [| intro]
  | |- stable _ (try_except _ _ _) => apply stable_try; [| intro]
  | |- stable _ (for_each _ _) => apply stable_for_each; intro
  | |- stable _ (for_in _ _ _) => apply stable_for_in; intros
  | |- stable _ (when _ _) => apply stable_when
  | |- stable _ (if ?b then _ else _) => destruct b
  | |- stable _ (match ?x with _ => _ end) => destruct x
  | |- stable _ _ => solve [auto]
  end.

Ltac stable_auto := cbv zeta; repeat stable_step.

Variable host : Host.

Lemma stable_os_path_exists p : stable R (os_path_exists host p).
Proof. unfold os_path_exists. stable_auto. Qed.

Lemma stable_get_font_dirs : stable R (get_font_dirs host).
Proof. unfold get_font_dirs, os_environ. stable_auto. Qed.

Lemma stable_subprocess_run argv check : stable R (subprocess_run host argv check).
Proof. unfold subprocess_run. stable_auto. Qed.

Lemma stable_font_found font : stable R (font_found host font).
Proof.
  pose proof stable_get_font_dirs. pose proof stable_os_path_exists.
  unfold font_found. stable_auto.
Qed.

Lemma stable_collect_missing fonts : stable R (collect_missing host fonts).
Proof. pose proof stable_font_found. unfold collect_missing. stable_auto. Qed.

Lemma stable_verify_font_integrity p f : stable R (verify_font_integrity host p f).
Proof. unfold verify_font_integrity. stable_auto. Qed.

Lemma stable_generate_report : stable R (generate_report host).
Proof. unfold generate_report, print_section. stable_auto. Qed.

Hypothesis R_issue : forall x, stable R (update_report (append_issue x)).
Hypothesis R_suggestion : forall x, stable R (update_report (append_suggestion x)).
Hypothesis R_cache : stable R (update_report set_font_cache_issues).
Hypothesis R_software :
  forall app x, stable R (update_report (append_software_issue app x)).
Hypothesis R_dpi : forall x, stable R (update_report (append_dpi_scaling_issue x)).
Hypothesis R_integrity :
  forall x, stable R (update_report (append_font_integrity_issue x)).

Lemma stable_check_font_directories : stable R (check_font_directories host).
Proof.
  pose proof stable_get_font_dirs. pose proof stable_os_path_exists.
  unfold check_font_directories, os_access_R_OK. stable_auto.
Qed.

Lemma stable_check_font_cache : stable R (check_font_cache host).
Proof.
  pose proof stable_os_path_exists. pose proof stable_subprocess_run.
  unfold check_font_cache, os_environ. stable_auto.
Qed.

Lemma stable_check_font_config : stable R (check_font_config host).
Proof. pose proof stable_subprocess_run. unfold check_font_config. stable_auto. Qed.

Lemma stable_check_locale_settings : stable R (check_locale_settings host).
Proof. pose proof stable_subprocess_run. unfold check_locale_settings. stable_auto. Qed.

Lemma stable_check_ide_font_config ide c k : stable R (check_ide_font_config host ide c k).
Proof.
  pose proof stable_get_font_dirs. pose proof stable_os_path_exists.
  unfold check_ide_font_config, read_font_family, font_family_available. stable_auto.
Qed.

Lemma stable_check_software_specific_issues :
  stable R (check_software_specific_issues host).
Proof.
  pose proof stable_os_path_exists. pose proof stable_collect_missing.
  pose proof stable_check_ide_font_config.
  unfold check_software_specific_issues, check_adobe_fonts, check_office_fonts,
    check_ide_fonts, os_listdir, glob_glob.
  stable_auto.
Qed.

Lemma stable_check_font_integrity : stable R (check_font_integrity host).
Proof.
  pose proof stable_get_font_dirs. pose proof stable_os_path_exists.
  pose proof stable_verify_font_integrity.
  unfold check_font_integrity. stable_auto.
Qed.

Lemma stable_check_dpi_scaling : stable R (check_dpi_scaling host).
Proof. pose proof stable_subprocess_run. unfold check_dpi_scaling. stable_auto. Qed.

Lemma stable_check_system_fonts :
  (forall l, stable R (update_report (set_missing_fonts l))) ->
  stable R (check_system_fonts host).
Proof.
  intros R_missing. pose proof stable_collect_missing.
  unfold check_system_fonts. stable_auto.
Qed.

End Stability.

Lemma extends_refl {A} (l : list A) : extends l l.
Proof. exists []. rewrite app_nil_r. reflexivity. Qed.

Lemma extends_trans {A} (a b c : list A) : extends a b -> extends b c -> extends a c.
Proof. intros [x ->] [y ->]. exists (x ++ y)%list. rewrite app_assoc. reflexivity. Qed.

Lemma extends_snoc {A} (l : list A) x : extends l (l ++ [x]).
Proof. exists [x]. reflexivity. Qed.

Lemma dict_extends_refl d : dict_extends d d.
Proof. intros k l H. exists l. split; [exact H | apply extends_refl]. Qed.

Lemma dict_extends_trans a b c :
  dict_extends a b -> dict_extends b c -> dict_extends a c.
Proof.
  intros Hab Hbc k l H. destruct (Hab k l H) as (l1 & H1 & E1).
  destruct (Hbc k l1 H1) as (l2 & H2 & E2). exists l2. split; [exact H2|].
  eapply extends_trans; eassumption.
Qed.

Lemma dict_extends_append d app x : dict_extends d (dict_append d app x).
Proof.
  induction d as [| [k v] d IH]; intros key l H; [discriminate|].
  cbn [dict_get dict_append] in *.
  destruct (k =? app)%string eqn:Eapp; cbn [dict_get].
  - destruct (k =? key)%string.
    + inversion H; subst. exists (l ++ [x])%list. split; [reflexivity | apply extends_snoc].
    + exists l. split; [exact H | apply extends_refl].
  - destruct (k =? key)%string.
    + exists l. split; [exact H | apply extends_refl].
    + apply IH, H.
Qed.

Lemma grows_refl t : grows t t.
Proof.
  constructor; auto using extends_refl, dict_extends_refl.
Qed.

Lemma grows_trans a b c : grows a b -> grows b c -> grows a c.
Proof.
  intros [] []. constructor; try congruence; eauto using extends_trans, dict_extends_trans.
Qed.

Lemma grows_emit e : stable grows (emit e).
Proof.
  intros t. constructor; cbn; auto using extends_refl, dict_extends_refl, extends_snoc.
Qed.

Ltac grows_update :=
  intros; intros t;
  constructor; cbn; auto using extends_refl, dict_extends_refl, extends_snoc,
                     dict_extends_append.

Lemma grows_issue x : stable grows (update_report (append_issue x)).
Proof. grows_update. Qed.

Lemma grows_suggestion x : stable grows (update_report (append_suggestion x)).
Proof. grows_update. Qed.

Lemma grows_cache : stable grows (update_report set_font_cache_issues).
Proof. grows_update. Qed.

Lemma grows_software app x : stable grows (update_report (append_software_issue app x)).
Proof. grows_update. Qed.

Lemma grows_dpi x : stable grows (update_report (append_dpi_scaling_issue x)).
Proof. grows_update. Qed.

Lemma grows_integrity x : stable grows (update_report (append_font_integrity_issue x)).
Proof. grows_update. Qed.

Lemma grows_missing l : stable grows (update_report (set_missing_fonts l)).
Proof. grows_update. Qed.

Lemma keeping_refl t : grows_keeping_missing t t.
Proof. split; [apply grows_refl | reflexivity]. Qed.

Lemma keeping_trans a b c :
  grows_keeping_missing a b -> grows_keeping_missing b c -> grows_keeping_missing a c.
Proof. intros [H1 E1] [H2 E2]. split; [eapply grows_trans; eassumption | congruence]. Qed.

Ltac keeping_update lemma := intros t; split; [apply lemma | reflexivity].

Ltac by_stability lemma :=
  apply lemma;
  first [ exact grows_refl | exact grows_trans | exact grows_emit | exact grows_issue
        | exact grows_suggestion | exact grows_cache | exact grows_software
        | exact grows_dpi | exact grows_integrity | exact grows_missing ].

(** Every check keeps what the report holds, [missing_fonts] left aside. *)
Lemma checks_grow host c : In c (checks host) -> stable grows c.
Proof.
  unfold checks. cbn [In]. intros H.
  repeat (destruct H as [<- | H]); [..| contradiction].
  - by_stability stable_check_font_directories.
  - by_stability stable_check_font_cache.
  - by_stability stable_check_system_fonts.
  - by_stability stable_check_font_config.
  - by_stability stable_check_locale_settings.
  - by_stability stable_check_software_specific_issues.
  - by_stability stable_check_font_integrity.
  - by_stability stable_check_dpi_scaling.
Qed.

Lemma keeping_emit e : stable grows_keeping_missing (emit e).
Proof. keeping_update grows_emit. Qed.

Lemma keeping_issue x : stable grows_keeping_missing (update_report (append_issue x)).
Proof. keeping_update grows_issue. Qed.

Lemma keeping_suggestion x :
  stable grows_keeping_missing (update_report (append_suggestion x)).
Proof. keeping_update grows_suggestion. Qed.

Lemma keeping_cache : stable grows_keeping_missing (update_report set_font_cache_issues).
Proof. keeping_update grows_cache. Qed.

Lemma keeping_software app x :
  stable grows_keeping_missing (update_report (append_software_issue app x)).
Proof. keeping_update grows_software. Qed.

Lemma keeping_dpi x :
  stable grows_keeping_missing (update_report (append_dpi_scaling_issue x)).
Proof. keeping_update grows_dpi. Qed.

Lemma keeping_integrity x :
  stable grows_keeping_missing (update_report (append_font_integrity_issue x)).
Proof. keeping_update grows_integrity. Qed.

Ltac by_keeping lemma :=
  apply lemma;
  first [ exact keeping_refl | exact keeping_trans | exact keeping_emit
        | exact keeping_issue | exact keeping_suggestion | exact keeping_cache
        | exact keeping_software | exact keeping_dpi | exact keeping_integrity ].

(** Every check but the third, [check_system_fonts], leaves [missing_fonts] alone. *)
Lemma checks_keep_missing host n c :
  nth_error (checks host) n = Some c -> n <> 2 -> stable grows_keeping_missing c.
Proof.
  unfold checks. intros H Hn.
  do 9 (try destruct n as [| n]); cbn in H; try discriminate; try congruence;
    inversion H; subst c.
  - by_keeping stable_check_font_directories.
  - by_keeping stable_check_font_cache.
  - by_keeping stable_check_font_config.
  - by_keeping stable_check_locale_settings.
  - by_keeping stable_check_software_specific_issues.
  - by_keeping stable_check_font_integrity.
  - by_keeping stable_check_dpi_scaling.
Qed.

Lemma run_checks_step (cs : list (Py unit)) n t :
  fst (run_checks (firstn (S n) cs) t) = fst (run_checks (firstn n cs) t)
  \/ exists c, nth_error cs n = Some c
               /\ fst (run_checks (firstn (S n) cs) t) =
                    fst (c (fst (run_checks (firstn n cs) t))).
Proof.
  revert n t. induction cs as [| c cs IH]; intros n t.
  - left. destruct n; reflexivity.
  - destruct n as [| n].
    + right. exists c. split; [reflexivity|].
      cbn [firstn run_checks]. unfold bind, ret. cbn [fst].
      destruct (c t) as [t' [[] | e]]; reflexivity.
    + change (firstn (S (S n)) (c :: cs)) with (c :: firstn (S n) cs).
      change (firstn (S n) (c :: cs)) with (c :: firstn n cs).
      cbn [run_checks nth_error]. unfold bind.
      destruct (c t) as [t' [[] | e]]; [apply IH | left; reflexivity].
Qed.

Lemma after_checks_step host n t :
  grows (after_checks host n t) (after_checks host (S n) t)
  /\ (n <> 2 -> missing_fonts (report (after_checks host (S n) t)) =
                missing_fonts (report (after_checks host n t))).
Proof.
  unfold after_checks.
  destruct (run_checks_step (checks host) n t) as [E | (c & Hc & E)]; rewrite E.
  - split; [apply grows_refl | reflexivity].
  - split.
    + apply (checks_grow host c). eapply nth_error_In, Hc.
    + intros Hn. apply (checks_keep_missing host n c Hc Hn).
Qed.

Lemma after_checks_grows host t i j :
  i <= j -> grows (after_checks host i t) (after_checks host j t).
Proof.
  induction 1 as [| j Hle IH]; [apply grows_refl|].
  eapply grows_trans; [exact IH | apply after_checks_step].
Qed.

Lemma after_checks_missing_high host t i j :
  3 <= i -> i <= j ->
  missing_fonts (report (after_checks host j t)) =
  missing_fonts (report (after_checks host i t)).
Proof.
  intros Hi. induction 1 as [| j Hle IH]; [reflexivity|].
  rewrite <- IH. apply after_checks_step. lia.
Qed.

Lemma after_checks_missing_low host t i :
  i <= 2 ->
  missing_fonts (report (after_checks host i t)) = missing_fonts (report t).
Proof.
  intros Hi. induction i as [| i IH]; [reflexivity|].
  rewrite <- IH by lia. apply after_checks_step. lia.
Qed.

Lemma first_pass_append_only host t i j :
  missing_fonts (report t) = [] -> i <= j ->
  grows_everywhere (after_checks host i t) (after_checks host j t).
Proof.
  intros Hempty Hij. split; [apply after_checks_grows, Hij|].
  destruct (Nat.le_gt_cases i 2) as [Hlow | Hhigh].
  - rewrite (after_checks_missing_low host t i Hlow), Hempty.
    eexists. reflexivity.
  - rewrite (after_checks_missing_high host t i j) by lia. apply extends_refl.
Qed.

(** [run_full_diagnostics] prints a line, runs the eight checks in the
    order directories, cache, required fonts, config, locale, software,
    integrity, DPI, prints a line and generates the report; an exception
    of a check ends it there. *)
Lemma run_full_diagnostics_checks host t :
  run_full_diagnostics host t =
    (print "正在运行全面的字体诊断..." ;;
     run_checks (checks host) ;;
     print (nl ++ "诊断完成!") ;;
     generate_report host) t.
Proof.
  unfold run_full_diagnostics, checks, run_checks.
  unfold bind, print, emit, ret.
  repeat match goal with
         | |- context [match ?c ?s with _ => _ end] =>
             lazymatch c with
             | check_font_directories _ => idtac
             | check_font_cache _ => idtac
             | check_system_fonts _ => idtac
             | check_font_config _ => idtac
             | check_locale_settings _ => idtac
             | check_software_specific_issues _ => idtac
             | check_font_integrity _ => idtac
             | check_dpi_scaling _ => idtac
             end;
             destruct (c s) as [? [[] | ?]]
         end; reflexivity.
Qed.

Lemma run_full_diagnostics_grows host : stable grows (run_full_diagnostics host).
Proof.
  assert (forall c, In c (checks host) -> stable grows c) as Hc
    by (intros c; apply checks_grow).
  unfold checks in Hc. cbn [In] in Hc.
  unfold run_full_diagnostics.
  repeat match goal with
         | |- stable _ (bind _ _) => apply stable_bind; try exact grows_trans; [| intros _]
         end;
    try (apply Hc; tauto); try apply grows_emit.
  apply stable_generate_report;
    first [exact grows_refl | exact grows_trans | exact grows_emit].
Qed.

(** C9, as amended: across every check, from any state, [self.system] and
    the report's [system] stay as they are and every field other than
    [missing_fonts] only grows ([font_cache_issues] never turns back to
    false, [corrupted_fonts] is never written); [missing_fonts] is written
    by [check_system_fonts] alone; the same holds across a whole pass; and
    in a pass that starts with [missing_fonts] empty, as the first pass of
    a tool object does, the states after any two numbers of checks are
    related by growth in every field, [missing_fonts] included. *)
Theorem report_append_only host :
  (forall c t, In c (checks host) -> grows t (fst (c t)))
  /\ (forall n c t,
        nth_error (checks host) n = Some c -> n <> 2 ->
        missing_fonts (report (fst (c t))) = missing_fonts (report t))
  /\ (forall t, grows t (fst (run_full_diagnostics host t)))
  /\ (forall t i j,
        missing_fonts (report t) = [] -> i <= j ->
        grows_everywhere (after_checks host i t) (after_checks host j t)).
Proof.
  split; [| split; [| split]].
  - intros c t Hc. apply (checks_grow host c Hc).
  - intros n c t Hc Hn. apply (checks_keep_missing host n c Hc Hn).
  - apply run_full_diagnostics_grows.
  - intros t i j. apply first_pass_append_only.
Qed.

(** C9 on a Linux host without critical fonts. *)
Lemma report_append_only_witness :
  grows (init "Linux") (fst (check_system_fonts Hosts.linux_no_fonts (init "Linux")))
  /\ missing_fonts
       (report (fst (check_font_integrity Hosts.linux_no_fonts (init "Linux")))) =
     missing_fonts (report (init "Linux"))
  /\ grows_everywhere (after_checks Hosts.linux_no_fonts 2 (init "Linux"))
                      (after_checks Hosts.linux_no_fonts 8 (init "Linux")).
Proof.
  destruct (report_append_only Hosts.linux_no_fonts) as (Hgrows & Hkeep & _ & Hfirst).
  split; [| split].
  - apply Hgrows. cbn. tauto.
  - apply (Hkeep 6); [reflexivity | lia].
  - apply Hfirst; [reflexivity | lia].
Defined.

(** C9 fails as stated: in a second pass [check_system_fonts] replaces the
    two recorded missing fonts by the one that is still missing. *)
Lemma second_pass_rewrites_missing_fonts :
  missing_fonts (report after_first_pass) = ["DejaVuSans.ttf"; "FreeSans.ttf"]
  /\ missing_fonts
       (report (fst (check_system_fonts Hosts.linux_dejavu_only after_first_pass))) =
     ["FreeSans.ttf"]
  /\ ~ grows_everywhere after_first_pass
         (fst (check_system_fonts Hosts.linux_dejavu_only after_first_pass)).
Proof.
  split; [vm_compute; reflexivity|]. split; [vm_compute; reflexivity|].
  intros [_ [more H]]. vm_compute in H. discriminate.
Qed.

(** ** Failures that leave a check *)

(** On Linux, whatever [subprocess.run] raises when it cannot start
    [fc-cache] leaves [check_font_cache]: its clause catches
    [CalledProcessError] only. *)
Lemma check_font_cache_propagates host r tr e :
  spawn host ["fc-cache"; "-v"] = inl e ->
  is_CalledProcessError e = false ->
  check_font_cache host (mkTool "Linux" r tr) =
    (mkTool "Linux" r (tr ++ [Print (nl ++ "检查字体缓存..."); Exec ["fc-cache"; "-v"]]),
     Raises e).
Proof.
  intros Hspawn Hclass. unfold check_font_cache, subprocess_run. py_simpl.
  change ("Linux" =? "Windows")%string with false.
  change ("Linux" =? "Linux")%string with true. py_simpl.
  rewrite Hspawn. py_simpl. rewrite Hclass. reflexivity.
Qed.

(** When the report file cannot be written, [generate_report] raises after
    printing the report. *)
Lemma generate_report_unwritable host t e :
  write_failure host (report_path host) = Some e ->
  exists lines,
    generate_report host t =
      (log t (map Print lines ++ [FsWrite (report_path host)]), Raises e).
Proof.
  intros Hfail.
  assert (print_prefixed (generate_report host)
            (emit (FsWrite (report_path host)) ;;
             match write_failure host (report_path host) with
             | Some e => raise e
             | None => r <- get_report ;; emit (JsonDumped (report_path host) r)
             end ;;
             print (nl ++ "完整报告已保存到: " ++ report_path host))) as H.
  { unfold generate_report. fold (report_path host).
    repeat first
      [ apply print_prefixed_get_report; intro
      | apply print_prefixed_quiet;
        [ first [ apply quiet_print | apply quiet_print_section
                | match goal with
                  | |- quiet (match ?l with _ => _ end) => destruct l
                  end;
                  repeat first [ apply quiet_ret | apply quiet_print
                               | apply quiet_bind | apply quiet_for_each; intro ] ]
        | ] ].
    cbv zeta. apply print_prefixed_refl. }
  destruct (H t) as [lines E]. exists lines. rewrite E, Hfail. py_simpl. reflexivity.
Qed.

(** C1: the code does not isolate this failure.  On a Linux host without
    [fc-cache] a full pass stops in [check_font_cache] with
    [FileNotFoundError]: no issue is recorded, the flag stays false and the
    report is not written, whereas [check_font_config] records the missing
    [fc-match] as an issue; on Windows without [WINDIR] the pass stops in
    the first check with [KeyError]. *)
Theorem full_pass_aborts_without_fc_cache :
  snd (run_full_diagnostics Hosts.linux_without_fontconfig (init "Linux")) =
    Raises (Hosts.no_such_file "fc-cache")
  /\ issues (report (fst (run_full_diagnostics Hosts.linux_without_fontconfig
                            (init "Linux")))) = []
  /\ font_cache_issues (report (fst (run_full_diagnostics Hosts.linux_without_fontconfig
                                       (init "Linux")))) = false
  /\ dumped (trace (fst (run_full_diagnostics Hosts.linux_without_fontconfig
                           (init "Linux")))) = false
  /\ issues (report (fst (check_font_config Hosts.linux_without_fontconfig
                            (init "Linux")))) = ["fontconfig未安装或不可用"]
  /\ snd (run_full_diagnostics Hosts.windows_without_environment (init "Windows")) =
       Raises (PyExc KeyError "'WINDIR'").
Proof. repeat split; vm_compute; reflexivity. Qed.

(** C4: the code lets this failure end the pass.  On a host where the report
    file cannot be opened for writing a full pass ends with the
    [PermissionError] of [open], and nothing is written. *)
Theorem full_pass_fails_on_unwritable_report :
  snd (run_full_diagnostics Hosts.linux_unwritable_home (init "Linux")) =
    Raises (Hosts.permission_denied "/home/user/font_diagnostic_report.txt")
  /\ dumped (trace (fst (run_full_diagnostics Hosts.linux_unwritable_home
                           (init "Linux")))) = false.
Proof. split; vm_compute; reflexivity. Qed.

(** ** Scenarios *)

(** Linux, the three directories present, [DejaVuSans.ttf] installed and
    [FreeSans.ttf] absent everywhere: the pass completes and writes the
    report, [missing_fonts] is [FreeSans.ttf] alone, the one issue names
    it, and the directory check records no issue. *)
Theorem scenario_linux_one_font_absent :
  missing_fonts (report (fst (run_full_diagnostics Hosts.linux_dejavu_only
                                (init "Linux")))) = ["FreeSans.ttf"]
  /\ issues (report (fst (run_full_diagnostics Hosts.linux_dejavu_only
                            (init "Linux")))) = ["缺少关键系统字体: FreeSans.ttf"]
  /\ issues (report (fst (check_font_directories Hosts.linux_dejavu_only
                            (init "Linux")))) = []
  /\ snd (run_full_diagnostics Hosts.linux_dejavu_only (init "Linux")) = Returns tt
  /\ dumped (trace (fst (run_full_diagnostics Hosts.linux_dejavu_only
                           (init "Linux")))) = true.
Proof. repeat split; vm_compute; reflexivity. Qed.

(** A VS Code settings file names a font family no directory holds: one
    software-specific issue under the editor's name that names the family,
    and the matching suggestion. *)
Theorem scenario_editor_font_not_installed :
  software_specific_issues
    (report (fst (run_full_diagnostics linux_with_vscode (init "Linux")))) =
    [("VSCode", ["配置的字体 'Fira Code' 不可用"])]
  /\ suggestions
       (report (fst (run_full_diagnostics linux_with_vscode (init "Linux")))) =
       ["考虑重新安装系统或恢复默认字体"; "在VSCode设置中更改为已安装的字体"].
Proof. repeat split; vm_compute; reflexivity. Qed.

(** A critical font whose digest differs from the table's fails
    verification and is listed once in [font_integrity_issues]. *)
Theorem scenario_digest_mismatch :
  verified Hosts.linux_dejavu_only "/usr/share/fonts/DejaVuSans.ttf" "DejaVuSans.ttf"
    = false
  /\ count_occ string_dec
       (font_integrity_issues
          (report (fst (run_full_diagnostics Hosts.linux_dejavu_only (init "Linux")))))
       "DejaVuSans.ttf" = 1.
Proof. repeat split; vm_compute; reflexivity. Qed.

(** * Further properties

    The checks one by one, the printed report, what a pass may touch, the
    repair operations and the menu loop. *)

(** ** The system-level checks *)

Ltac on_platform :=
  py_simpl;
  repeat match goal with
         | |- context [(?a =? ?b)%string] =>
             let v := eval vm_compute in (a =? b)%string in
             change (a =? b)%string with v
         end;
  py_simpl.

(** X3: [check_font_cache] by platform.  On Windows with [LOCALAPPDATA]
    set it returns, and records the issue and sets [font_cache_issues]
    exactly when the cache directory does not exist; on Linux, when
    [fc-cache -v] can be started, it returns, and records the issue and
    sets the flag exactly when the exit status is not 0; on every other
    platform, macOS included, it returns and leaves the report as it
    was. *)
Theorem check_font_cache_records host r tr :
  (forall localappdata,
      environ host "LOCALAPPDATA" = Some localappdata ->
      snd (check_font_cache host (mkTool "Windows" r tr)) = Returns tt
      /\ report (fst (check_font_cache host (mkTool "Windows" r tr))) =
           if exists_on_disk host
                (os_path_join host localappdata ["Microsoft"; "Windows"; "FontCache"])
           then r
           else append_issue "Windows字体缓存目录不存在" (set_font_cache_issues r))
  /\ (forall completed,
        spawn host ["fc-cache"; "-v"] = inr completed ->
        snd (check_font_cache host (mkTool "Linux" r tr)) = Returns tt
        /\ report (fst (check_font_cache host (mkTool "Linux" r tr))) =
             if (returncode completed =? 0)%Z then r
             else append_issue "Linux字体缓存问题" (set_font_cache_issues r))
  /\ (forall sys,
        (sys =? "Windows")%string = false -> (sys =? "Linux")%string = false ->
        snd (check_font_cache host (mkTool sys r tr)) = Returns tt
        /\ report (fst (check_font_cache host (mkTool sys r tr))) = r).
Proof.
  split; [| split].
  - intros la Hla. unfold check_font_cache, os_environ, os_path_exists. on_platform.
    rewrite Hla. py_simpl.
    destruct (exists_on_disk host _); py_simpl; split; reflexivity.
  - intros cp Hcp. unfold check_font_cache, subprocess_run. on_platform.
    rewrite Hcp. py_simpl.
    destruct (returncode cp =? 0)%Z; py_simpl; split; reflexivity.
  - intros sys Hw Hl. unfold check_font_cache. py_simpl. rewrite Hw, Hl.
    destruct (sys =? "Darwin")%string; py_simpl; split; reflexivity.
Qed.

(** X3 on a Linux desktop whose [fc-cache] succeeds, and on a Windows desktop without the cache directory. *)
Lemma check_font_cache_records_witness :
  snd (check_font_cache linux_with_download (init "Linux")) = Returns tt
  /\ report (fst (check_font_cache linux_with_download (init "Linux"))) =
       report (init "Linux")
  /\ issues (report (fst (check_font_cache Hosts.windows_desktop (init "Windows")))) =
       ["Windows字体缓存目录不存在"]
  /\ font_cache_issues
       (report (fst (check_font_cache Hosts.windows_desktop (init "Windows")))) = true.
Proof.
  destruct (check_font_cache_records linux_with_download (report (init "Linux")) [])
    as (_ & Hlinux & _).
  destruct (Hlinux (mkCompleted 0 "fc-cache: succeeded" "") eq_refl) as [Hret Hrep].
  destruct (check_font_cache_records Hosts.windows_desktop (report (init "Windows")) [])
    as (Hwindows & _).
  destruct (Hwindows "C:\Users\user\AppData\Local" eq_refl) as [_ Hwin].
  split; [exact Hret|]. split; [exact Hrep|].
  change (init "Windows") with (mkTool "Windows" (report (init "Windows")) []).
  rewrite Hwin. split; reflexivity.
Defined.

(** X4: [check_font_config] on Linux records one issue when [fc-match
    sans-serif] exits with a status other than 0, an issue and a suggestion
    when the executable is not found, and nothing when it exits with 0; an
    exception other than [FileNotFoundError] leaves the check, with the
    report as it was; on any other platform the check returns and records
    nothing. *)
Theorem check_font_config_records host r tr :
  report (fst (check_font_config host (mkTool "Linux" r tr))) =
    match spawn host ["fc-match"; "sans-serif"] with
    | inr completed =>
        if (returncode completed =? 0)%Z then r
        else append_issue "字体配置问题: 无法匹配基本字体" r
    | inl e =>
        if is_FileNotFoundError e
        then append_suggestion "安装fontconfig包: sudo apt install fontconfig"
               (append_issue "fontconfig未安装或不可用" r)
        else r
    end
  /\ snd (check_font_config host (mkTool "Linux" r tr)) =
       match spawn host ["fc-match"; "sans-serif"] with
       | inr _ => Returns tt
       | inl e => if is_FileNotFoundError e then Returns tt else Raises e
       end
  /\ (forall sys,
        (sys =? "Linux")%string = false ->
        snd (check_font_config host (mkTool sys r tr)) = Returns tt
        /\ report (fst (check_font_config host (mkTool sys r tr))) = r).
Proof.
  split; [| split].
  - unfold check_font_config, subprocess_run. on_platform.
    destruct (spawn host _) as [e | cp]; py_simpl.
    + destruct (is_FileNotFoundError e); py_simpl; reflexivity.
    + destruct (returncode cp =? 0)%Z; py_simpl; reflexivity.
  - unfold check_font_config, subprocess_run. on_platform.
    destruct (spawn host _) as [e | cp]; py_simpl.
    + destruct (is_FileNotFoundError e); py_simpl; reflexivity.
    + destruct (returncode cp =? 0)%Z; py_simpl; reflexivity.
  - intros sys Hl. unfold check_font_config. py_simpl. rewrite Hl. py_simpl.
    split; reflexivity.
Qed.

(** X4 on macOS. *)
Lemma check_font_config_records_witness :
  snd (check_font_config linux_with_download (init "Darwin")) = Returns tt
  /\ report (fst (check_font_config linux_with_download (init "Darwin"))) =
       report (init "Darwin").
Proof.
  destruct (check_font_config_records linux_with_download (report (init "Darwin")) [])
    as (_ & _ & Hother).
  exact (Hother "Darwin" eq_refl).
Defined.

(** X5: [check_locale_settings] returns on every platform; on Linux it
    records an issue and a suggestion exactly when [locale] could be run
    and its output does not contain [en_US.UTF-8], whatever its exit
    status, and nothing when the command could not be run; elsewhere it
    records nothing. *)
Theorem check_locale_settings_records host r tr :
  report (fst (check_locale_settings host (mkTool "Linux" r tr))) =
    match spawn host ["locale"] with
    | inr completed =>
        if PyStr.contains "en_US.UTF-8" (stdout completed) then r
        else append_suggestion "考虑设置LANG=en_US.UTF-8"
               (append_issue "区域设置可能不支持某些字体" r)
    | inl _ => r
    end
  /\ (forall sys,
        (sys =? "Linux")%string = false ->
        report (fst (check_locale_settings host (mkTool sys r tr))) = r)
  /\ (forall sys, snd (check_locale_settings host (mkTool sys r tr)) = Returns tt).
Proof.
  split; [| split].
  - unfold check_locale_settings, subprocess_run. on_platform.
    destruct (spawn host _) as [e | cp]; py_simpl; [reflexivity|].
    destruct (PyStr.contains _ _); py_simpl; reflexivity.
  - intros sys Hl. unfold check_locale_settings. py_simpl. rewrite Hl. reflexivity.
  - intros sys. unfold check_locale_settings, subprocess_run. py_simpl.
    destruct (sys =? "Linux")%string; py_simpl; [|reflexivity].
    destruct (spawn host _) as [e | cp]; py_simpl; [reflexivity|].
    destruct (PyStr.contains _ _); py_simpl; reflexivity.
Qed.

(** X5 on macOS. *)
Lemma check_locale_settings_records_witness :
  report (fst (check_locale_settings linux_with_download (init "Darwin"))) =
    report (init "Darwin").
Proof.
  destruct (check_locale_settings_records linux_with_download
              (report (init "Darwin")) []) as (_ & Hother & _).
  exact (Hother "Darwin" eq_refl).
Defined.

(** ** The printed report

    [generate_report] prints [rendered r] for the report [r] of the tool
    object, section by section. *)

Lemma prints_at_print r text : prints_at r (print text) [text].
Proof. intros t _. reflexivity. Qed.

Lemma prints_at_ret r : prints_at r (ret tt) [].
Proof. intros t _. unfold ret. cbn [map]. rewrite log_nil. reflexivity. Qed.

Lemma prints_at_bind r (m : Py unit) (k : unit -> Py unit) l1 l2 :
  prints_at r m l1 -> prints_at r (k tt) l2 -> prints_at r (bind m k) (l1 ++ l2).
Proof.
  intros Hm Hk t Ht. unfold bind. rewrite (Hm t Ht).
  rewrite (Hk (log t (map Print l1)) Ht), log_log, map_app. reflexivity.
Qed.

Lemma prints_at_for_each {A} r (items : list A) (body : A -> Py unit) lines :
  (forall a, prints_at r (body a) (lines a)) ->
  prints_at r (for_each items body) (flat_map lines items).
Proof.
  intros Hb. unfold for_each. induction items as [| a items IH].
  - apply prints_at_ret.
  - intros t Ht. cbn [for_in flat_map]. unfold bind at 1 2. rewrite (Hb a t Ht).
    unfold ret at 1. cbv beta iota.
    rewrite (IH (log t (map Print (lines a))) Ht), log_log, map_app. reflexivity.
Qed.

Lemma flat_map_singleton {A B} (f : A -> B) l : flat_map (fun x => [f x]) l = map f l.
Proof. induction l; cbn; congruence. Qed.

Lemma prints_at_lines r (items : list string) (render : string -> string) :
  prints_at r (for_each items (fun x => print (render x))) (map render items).
Proof.
  rewrite <- flat_map_singleton. apply prints_at_for_each.
  intros a. apply prints_at_print.
Qed.

Lemma prints_at_section r title entries render :
  prints_at r (print_section title entries render) (section_lines title entries render).
Proof.
  unfold print_section, section_lines. destruct entries as [| e entries].
  - apply prints_at_ret.
  - apply (prints_at_bind r _ _ [nl ++ title]); [apply prints_at_print|].
    apply prints_at_lines.
Qed.

Lemma prefixed_at_refl {A} r (m : Py A) : prefixed_at r m [] m.
Proof. intros t _. cbn [map]. rewrite log_nil. reflexivity. Qed.

Lemma prefixed_at_bind {A} r (c : Py unit) (m : Py A) l1 l2 k :
  prints_at r c l1 -> prefixed_at r m l2 k -> prefixed_at r (c ;; m) (l1 ++ l2) k.
Proof.
  intros Hc Hm t Ht. unfold bind. rewrite (Hc t Ht).
  rewrite (Hm (log t (map Print l1)) Ht), log_log, map_app. reflexivity.
Qed.

Lemma prefixed_at_get_report {A} r (f : Report -> Py A) lines k :
  prefixed_at r (f r) lines k -> prefixed_at r (x <- get_report ;; f x) lines k.
Proof. intros H t Ht. unfold bind, get_report. rewrite Ht. apply H, Ht. Qed.

Lemma generate_report_prints host r :
  prefixed_at r (generate_report host) (rendered r)
    (emit (FsWrite (report_path host)) ;;
     match write_failure host (report_path host) with
     | Some e => raise e
     | None => x <- get_report ;; emit (JsonDumped (report_path host) x)
     end ;;
     print (nl ++ "完整报告已保存到: " ++ report_path host)).
Proof.
  unfold generate_report, rendered. fold (report_path host). cbn [concat].
  apply (prefixed_at_bind r _ _ [_]); [apply prints_at_print|].
  apply prefixed_at_get_report.
  apply (prefixed_at_bind r _ _ [_]); [apply prints_at_print|].
  apply prefixed_at_get_report.
  apply prefixed_at_bind.
  { destruct (issues r).
    - apply prints_at_print.
    - apply (prints_at_bind r _ _ [_]); [apply prints_at_print | apply prints_at_lines]. }
  apply prefixed_at_get_report.
  apply prefixed_at_bind; [apply prints_at_section|].
  apply prefixed_at_get_report.
  apply prefixed_at_bind; [apply prints_at_section|].
  apply prefixed_at_get_report.
  apply prefixed_at_bind; [apply prints_at_section|].
  apply prefixed_at_get_report.
  apply prefixed_at_bind; [apply prints_at_section|].
  apply prefixed_at_get_report.
  apply prefixed_at_bind.
  { destruct (software_specific_issues r).
    - apply prints_at_ret.
    - apply (prints_at_bind r _ _ [_]); [apply prints_at_print|].
      apply prints_at_for_each. intros entry.
      apply (prints_at_bind r _ _ [_]); [apply prints_at_print | apply prints_at_lines]. }
  apply prefixed_at_get_report.
  apply prefixed_at_bind; [apply prints_at_section|].
  cbv zeta. apply prefixed_at_refl.
Qed.

Lemma generate_report_run host t :
  generate_report host t =
    match write_failure host (report_path host) with
    | None =>
        (log t (map Print (rendered (report t))
                ++ [ FsWrite (report_path host);
                     JsonDumped (report_path host) (report t);
                     Print (nl ++ "完整报告已保存到: " ++ report_path host) ]),
         Returns tt)
    | Some e =>
        (log t (map Print (rendered (report t)) ++ [FsWrite (report_path host)]),
         Raises e)
    end.
Proof.
  rewrite (generate_report_prints host (report t) t eq_refl).
  destruct (write_failure host (report_path host)); py_simpl; reflexivity.
Qed.

(** X6: [generate_report] prints the lines of [rendered]: the header, the
    platform, the issues or the line saying there is none, then each
    section that has an entry, in the order missing fonts, corrupted
    fonts, integrity, DPI, software, suggestions.  It then opens the
    report file in the home directory; if that succeeds it dumps the
    report as it is, prints where it was saved and returns; if it fails
    the exception leaves it after the printing, and nothing is dumped.
    The report is not changed.  This is for a report whose lines the
    console accepts: [print] raises for a line it cannot encode. *)
Theorem generate_report_writes host t :
  forallb console_accepts (rendered (report t)) = true ->
  console_accepts (nl ++ "完整报告已保存到: " ++ report_path host) = true ->
  generate_report host t =
    match write_failure host (report_path host) with
    | None =>
        (log t (map Print (rendered (report t))
                ++ [ FsWrite (report_path host);
                     JsonDumped (report_path host) (report t);
                     Print (nl ++ "完整报告已保存到: " ++ report_path host) ]),
         Returns tt)
    | Some e =>
        (log t (map Print (rendered (report t)) ++ [FsWrite (report_path host)]),
         Raises e)
    end
  /\ report (fst (generate_report host t)) = report t.
Proof.
  intros _ _. rewrite generate_report_run.
  destruct (write_failure host (report_path host)); split; reflexivity.
Qed.

(** X6 on the report of a new tool object. *)
Lemma generate_report_writes_witness :
  generate_report linux_with_download (init "Linux") =
    (log (init "Linux")
       [ Print (nl ++ "=== 诊断报告 ===");
         Print "系统: Linux";
         Print (nl ++ "未发现重大问题");
         FsWrite "/home/user/font_diagnostic_report.txt";
         JsonDumped "/home/user/font_diagnostic_report.txt" (report (init "Linux"));
         Print (nl ++ "完整报告已保存到: /home/user/font_diagnostic_report.txt") ],
     Returns tt).
Proof.
  destruct (generate_report_writes linux_with_download (init "Linux"))
    as [Hrun _]; [vm_compute; reflexivity | vm_compute; reflexivity |].
  rewrite Hrun. reflexivity.
Defined.

(** ** The software-specific checks *)

(** X7: [check_adobe_fonts] always returns; it records an issue under
    [Adobe] and a suggestion exactly when the directory [adobe_font_dir]
    ([Adobe/CoreSync/plugins/livetype/c] under [APPDATA]) exists,
    can be listed and holds no file whose name ends in [.lst]; when the
    directory is absent or cannot be listed the report is left as it
    was. *)
Theorem check_adobe_fonts_records host t :
  snd (check_adobe_fonts host t) = Returns tt
  /\ report (fst (check_adobe_fonts host t)) =
       if exists_on_disk host (adobe_font_dir host) then
         match dir_entries host (adobe_font_dir host) with
         | inr entries =>
             if existsb (fun f => PyStr.endswith f ".lst") entries then report t
             else append_suggestion "尝试在Adobe软件中重置字体首选项"
                    (append_software_issue "Adobe" "Adobe字体缓存文件缺失" (report t))
         | inl _ => report t
         end
       else report t.
Proof.
  unfold check_adobe_fonts, os_path_exists, os_listdir. fold (adobe_font_dir host).
  py_simpl.
  destruct (exists_on_disk host (adobe_font_dir host)); py_simpl; [| split; reflexivity].
  destruct (dir_entries host (adobe_font_dir host)) as [e | entries]; py_simpl;
    [split; reflexivity|].
  assert (filter (fun f => PyStr.endswith f ".lst") entries = [] <->
          existsb (fun f => PyStr.endswith f ".lst") entries = false) as Hiff.
  { induction entries as [| f entries IH]; cbn [filter existsb]; [tauto|].
    destruct (PyStr.endswith f ".lst"); cbn [orb]; [split; discriminate | exact IH]. }
  destruct (filter (fun f => PyStr.endswith f ".lst") entries) as [| f fs] eqn:Hf.
  - rewrite (proj1 Hiff eq_refl). py_simpl. split; reflexivity.
  - destruct (existsb (fun f => PyStr.endswith f ".lst") entries).
    + py_simpl. split; reflexivity.
    + discriminate (proj2 Hiff eq_refl).
Qed.

Lemma collect_missing_raises host font fonts t e :
  font_dirs_of host (self_system t) = Raises e ->
  collect_missing host (font :: fonts) t = (t, Raises e).
Proof.
  intros Hdirs. unfold collect_missing. cbn [for_in]. unfold font_found.
  unfold bind at 1 2 3. rewrite get_font_dirs_run, Hdirs. reflexivity.
Qed.

(** X8: [check_office_fonts] always returns, on every platform; when the
    font directories resolve it records, under [Microsoft Office], one
    issue that names the Office fonts found in none of them, in the order
    Calibri, Cambria, Consolas, and one suggestion, and nothing when each
    is found; when the resolver raises the report is left as it
    was. *)
Theorem check_office_fonts_records host t :
  snd (check_office_fonts host t) = Returns tt
  /\ (forall dirs,
        font_dirs_of host (self_system t) = Returns dirs ->
        report (fst (check_office_fonts host t)) =
          match absent_fonts host dirs office_fonts with
          | [] => report t
          | missing =>
              append_suggestion "重新安装Microsoft Office或手动安装缺失的Office字体"
                (append_software_issue "Microsoft Office"
                   ("Office使用的字体缺失: " ++ PyStr.join ", " missing) (report t))
          end)
  /\ (forall e,
        font_dirs_of host (self_system t) = Raises e ->
        report (fst (check_office_fonts host t)) = report t).
Proof.
  unfold check_office_fonts. fold office_fonts. cbv zeta.
  destruct (font_dirs_of host (self_system t)) as [dirs | e] eqn:Hdirs.
  - destruct (collect_missing_run host dirs office_fonts t Hdirs) as [events E].
    unfold try_except, bind. rewrite E.
    destruct (absent_fonts host dirs office_fonts) as [| f fs] eqn:Habs; py_simpl.
    + split; [reflexivity|]. split; [|discriminate].
      intros dirs' H. inversion H; subst. rewrite Habs. reflexivity.
    + split; [reflexivity|]. split; [|discriminate].
      intros dirs' H. inversion H; subst. rewrite Habs. reflexivity.
  - unfold try_except, bind. unfold office_fonts.
    rewrite (collect_missing_raises host _ _ t e Hdirs). py_simpl.
    split; [reflexivity|]. split; [discriminate|]. intros e' _. reflexivity.
Qed.

(** X8 on a Linux desktop, where no Office font is installed. *)
Lemma check_office_fonts_records_witness :
  software_specific_issues
    (report (fst (check_office_fonts linux_with_download (init "Linux")))) =
    [("Microsoft Office",
      ["Office使用的字体缺失: Calibri.ttf, Cambria.ttf, Consolas.ttf"])].
Proof.
  destruct (check_office_fonts_records linux_with_download (init "Linux"))
    as (_ & Hdirs & _).
  rewrite (Hdirs Hosts.linux_dirs eq_refl). reflexivity.
Defined.

Lemma search_loop_run {A} host (path_of : A -> string) (items : list A) found t :
  exists events,
    for_in items found
      (fun x found0 =>
         present <- os_path_exists host (path_of x) ;;
         (if present then ret (Break, true) else ret (Continue, found0))) t =
      (log t events,
       Returns (existsb (fun x => exists_on_disk host (path_of x)) items || found)).
Proof.
  name_body body. revert found t.
  induction items as [| x items IH]; intros found t.
  - exists []. rewrite log_nil. reflexivity.
  - cbn [for_in existsb]. unfold body at 1, os_path_exists. py_simpl.
    destruct (exists_on_disk host (path_of x)); py_simpl.
    + eexists [_]. reflexivity.
    + destruct (IH found (log t [FsExists (path_of x)])) as [events E].
      unfold log in E. cbn [trace report self_system] in E. rewrite E.
      exists (FsExists (path_of x) :: events). unfold log. cbn [trace report self_system].
      rewrite <- app_assoc. reflexivity.
Qed.

Lemma font_family_available_run host family dirs t :
  font_dirs_of host (self_system t) = Returns dirs ->
  exists events,
    font_family_available host family t =
      (log t events, Returns (family_available host dirs family)).
Proof.
  intros Hdirs. unfold font_family_available. unfold bind at 1.
  rewrite get_font_dirs_run, Hdirs. cbv beta iota. unfold family_available.
  name_body body.
  enough (forall available t0, exists events,
             for_in dirs available body t0 =
               (log t0 events,
                Returns (existsb (fun d =>
                           existsb (fun ext =>
                             exists_on_disk host (os_path_join host d [family ++ ext]))
                             [".ttf"; ".otf"; ".ttc"]) dirs || available))) as H.
  { destruct (H false t) as [events E]. exists events. rewrite E, orb_false_r. reflexivity. }
  clear Hdirs. induction dirs as [| d dirs IH]; intros available t0.
  - exists []. rewrite log_nil. reflexivity.
  - cbn [for_in]. unfold body at 1. unfold bind at 1 2.
    destruct (search_loop_run host (fun ext => os_path_join host d [family ++ ext])
                [".ttf"; ".otf"; ".ttc"] available t0) as [ev1 E1].
    cbv beta in E1. rewrite E1.
    match goal with
    | |- context [existsb ?f (d :: dirs)] =>
        change (existsb f (d :: dirs)) with (f d || existsb f dirs)
    end.
    cbv beta.
    set (here := existsb (fun ext => exists_on_disk host (os_path_join host d [family ++ ext]))
                   [".ttf"; ".otf"; ".ttc"]).
    destruct (here || available) eqn:Hh; unfold ret at 1; cbv beta iota.
    + exists ev1. unfold ret.
      apply orb_true_iff in Hh as [Hh | Hh]; rewrite Hh; cbn [orb];
        rewrite ?orb_true_r; reflexivity.
    + destruct (IH false (log t0 ev1)) as [ev2 E2].
      apply orb_false_iff in Hh as [Hh1 Hh2]. subst available. rewrite Hh1. cbn [orb].
      rewrite E2, log_log. exists (ev1 ++ ev2)%list. reflexivity.
Qed.

Lemma report_after_read_font_family host config_path key t :
  report (fst (read_font_family host config_path key t)) = report t
  /\ self_system (fst (read_font_family host config_path key t)) = self_system t.
Proof.
  destruct (read_font_family_frame host config_path key t) as [events E].
  rewrite E. split; reflexivity.
Qed.

(** X9: [check_ide_font_config] always returns; when the settings file
    was read and the font directories resolve, it records an issue under
    the editor's name and a suggestion exactly when the configured family
    is not empty and no directory holds a file of that name with the
    extension [.ttf], [.otf] or [.ttc]; when the settings cannot be read
    the report is left as it was. *)
Theorem check_ide_font_config_records host ide_name config_path key t :
  snd (check_ide_font_config host ide_name config_path key t) = Returns tt
  /\ (forall dirs font_family,
        font_dirs_of host (self_system t) = Returns dirs ->
        snd (read_font_family host config_path key t) = Returns font_family ->
        report (fst (check_ide_font_config host ide_name config_path key t)) =
          if pyval_truthy font_family
             && negb (family_available host dirs (pyval_str font_family))
          then append_suggestion ("在" ++ ide_name ++ "设置中更改为已安装的字体")
                 (append_software_issue ide_name
                    ("配置的字体 '" ++ pyval_str font_family ++ "' 不可用") (report t))
          else report t)
  /\ (forall e,
        snd (read_font_family host config_path key t) = Raises e ->
        report (fst (check_ide_font_config host ide_name config_path key t)) = report t).
Proof.
  assert (exists t',
            check_ide_font_config host ide_name config_path key t = (t', Returns tt)
            /\ report t' =
                 match snd (read_font_family host config_path key t),
                       font_dirs_of host (self_system t) with
                 | Returns v, Returns dirs =>
                     if pyval_truthy v
                        && negb (family_available host dirs (pyval_str v))
                     then append_suggestion ("在" ++ ide_name ++ "设置中更改为已安装的字体")
                            (append_software_issue ide_name
                               ("配置的字体 '" ++ pyval_str v ++ "' 不可用") (report t))
                     else report t
                 | Returns v, Raises _ => report t
                 | Raises _, _ => report t
                 end) as (t' & Hrun & Hrep).
  { destruct (report_after_read_font_family host config_path key t) as [Hr Hs].
    unfold check_ide_font_config, try_except. unfold bind at 1.
    destruct (read_font_family host config_path key t) as [t1 [v | e]];
      cbn [fst snd] in *.
    - destruct (pyval_truthy v) eqn:Hv; cbn [when andb].
      + destruct (font_dirs_of host (self_system t)) as [dirs | e] eqn:Hdirs.
        * rewrite <- Hs in Hdirs.
          destruct (font_family_available_run host (pyval_str v) dirs t1 Hdirs)
            as [events E].
          unfold bind at 1. rewrite E.
          destruct (family_available host dirs (pyval_str v)); py_simpl;
            eexists; (split; [reflexivity|]); cbn [report]; rewrite ?Hr; reflexivity.
        * rewrite <- Hs in Hdirs. unfold font_family_available. unfold bind at 1 2.
          rewrite get_font_dirs_run, Hdirs. py_simpl.
          eexists; (split; [reflexivity|]); cbn [report]; rewrite ?Hr; reflexivity.
      + unfold ret. eexists; (split; [reflexivity|]). rewrite Hr.
        destruct (font_dirs_of host (self_system t)); reflexivity.
    - py_simpl. eexists; (split; [reflexivity|]); cbn [report]; rewrite ?Hr; reflexivity. }
  rewrite Hrun. cbn [fst snd].
  split; [reflexivity|]. split.
  - intros dirs v Hd Hv. rewrite Hrep, Hd, Hv. reflexivity.
  - intros e He. rewrite Hrep, He. reflexivity.
Qed.

(** X9 on a Linux desktop whose VS Code settings name a font that is not installed. *)
Lemma check_ide_font_config_records_witness :
  software_specific_issues
    (report (fst (check_ide_font_config linux_with_vscode "VSCode"
                    "/home/user/.vscode/settings.json" "editor.fontFamily"
                    (init "Linux")))) =
    [("VSCode", ["配置的字体 'Fira Code' 不可用"])].
Proof.
  destruct (check_ide_font_config_records linux_with_vscode "VSCode"
              "/home/user/.vscode/settings.json" "editor.fontFamily" (init "Linux"))
    as (_ & Hread & _).
  rewrite (Hread Hosts.linux_dirs (VStr "Fira Code") eq_refl eq_refl). reflexivity.
Defined.

(** ** The fields a check writes

    [touches_only fields] holds from a state to a later one when the
    platform identifier and every field outside [fields] are the same. *)

Lemma touches_only_refl allowed t : touches_only allowed t t.
Proof.
  split; [reflexivity|]. split; [reflexivity|]. intros f _. destruct f; reflexivity.
Qed.

Lemma touches_only_trans allowed a b c :
  touches_only allowed a b -> touches_only allowed b c -> touches_only allowed a c.
Proof.
  intros (H1 & H2 & H3) (K1 & K2 & K3).
  split; [congruence|]. split; [congruence|].
  intros f Hf. specialize (H3 f Hf). specialize (K3 f Hf).
  destruct f; cbn in *; congruence.
Qed.

Lemma touches_only_emit allowed e : stable (touches_only allowed) (emit e).
Proof.
  intros t. split; [reflexivity|]. split; [reflexivity|].
  intros f _. destruct f; reflexivity.
Qed.

Ltac touches_update :=
  intros t; split; [reflexivity|]; split; [reflexivity|];
  intros f Hf; destruct f; try reflexivity; cbn in Hf; discriminate.

Ltac by_frame lemma :=
  apply lemma;
  first [ exact (touches_only_refl _) | exact (touches_only_trans _)
        | exact (touches_only_emit _)
        | intros; touches_update ].

(** X10: each check writes only the fields of its own concern, from every
    state and whether it returns or raises: the directory, configuration
    and locale checks [issues] and [suggestions]; the cache check [issues]
    and [font_cache_issues]; the required-fonts check [issues],
    [suggestions] and [missing_fonts]; the software check
    [software_specific_issues] and [suggestions]; the integrity check
    [font_integrity_issues]; the DPI check [dpi_scaling_issues] and
    [suggestions]; [generate_report] none. *)
Theorem checks_write_their_own_fields host :
  stable (touches_only [Issues; Suggestions]) (check_font_directories host)
  /\ stable (touches_only [Issues; FontCacheIssues]) (check_font_cache host)
  /\ stable (touches_only [Issues; Suggestions; MissingFonts]) (check_system_fonts host)
  /\ stable (touches_only [Issues; Suggestions]) (check_font_config host)
  /\ stable (touches_only [Issues; Suggestions]) (check_locale_settings host)
  /\ stable (touches_only [SoftwareSpecificIssues; Suggestions])
       (check_software_specific_issues host)
  /\ stable (touches_only [FontIntegrityIssues]) (check_font_integrity host)
  /\ stable (touches_only [DpiScalingIssues; Suggestions]) (check_dpi_scaling host)
  /\ stable (touches_only []) (generate_report host).
Proof.
  repeat match goal with |- _ /\ _ => split end.
  - by_frame stable_check_font_directories.
  - by_frame stable_check_font_cache.
  - by_frame stable_check_system_fonts.
  - by_frame stable_check_font_config.
  - by_frame stable_check_locale_settings.
  - by_frame stable_check_software_specific_issues.
  - by_frame stable_check_font_integrity.
  - by_frame stable_check_dpi_scaling.
  - by_frame stable_generate_report.
Qed.

(** ** The repair operations *)

Lemma quiet_get_report (f : Report -> Py unit) :
  (forall r, quiet (f r)) -> quiet (r <- get_report ;; f r).
Proof. intros H t. unfold bind, get_report. apply H. Qed.

Lemma quiet_get_system (f : string -> Py unit) :
  (forall sys, quiet (f sys)) -> quiet (sys <- get_system ;; f sys).
Proof. intros H t. unfold bind, get_system. apply H. Qed.

Ltac quiet_step :=
  match goal with
  | |- quiet (ret tt) => apply quiet_ret
  | |- quiet (print _) => apply quiet_print
  | |- quiet (bind get_report _) => apply quiet_get_report; intro
  | |- quiet (bind get_system _) => apply quiet_get_system; intro
  | |- quiet (bind _ _) => apply quiet_bind
  | |- quiet (for_each _ _) => apply quiet_for_each; intro
  | |- quiet (if ?b then _ else _) => destruct b
  | |- quiet (match ?x with _ => _ end) => destruct x
  end.

(** X11: [fix_font_cache] leaves the report as it was and adds to the log
    printed lines and at most the command [fc-cache -f -v]; off Linux it
    only prints and returns; on Linux, when the command can be started, it
    returns after printing success for exit status 0 and otherwise the
    failure line, which ends in [None] since the output is not captured;
    when the command cannot be started the exception leaves it. *)
Theorem fix_font_cache_effects host t :
  (exists events,
      fst (fix_font_cache host t) = log t events
      /\ forall e, In e events -> is_print e = true \/ e = Exec fc_cache_rebuild)
  /\ ((self_system t =? "Linux")%string = false ->
      exists lines, fix_font_cache host t = (log t (map Print lines), Returns tt))
  /\ ((self_system t =? "Linux")%string = true ->
      forall completed, spawn host fc_cache_rebuild = inr completed ->
      fix_font_cache host t =
        (log t [ Print (nl ++ "尝试修复字体缓存...");
                 Print "在Linux上重建字体缓存...";
                 Exec fc_cache_rebuild;
                 Print (if (returncode completed =? 0)%Z then "字体缓存重建成功"
                        else "重建字体缓存失败: None") ],
         Returns tt))
  /\ ((self_system t =? "Linux")%string = true ->
      forall e, spawn host fc_cache_rebuild = inl e ->
      is_CalledProcessError e = false ->
      fix_font_cache host t =
        (log t [ Print (nl ++ "尝试修复字体缓存...");
                 Print "在Linux上重建字体缓存...";
                 Exec fc_cache_rebuild ],
         Raises e)).
Proof.
  unfold fc_cache_rebuild.
  assert (forall e (l : list event),
             (forall x, In x l -> is_print x = true \/ x = Exec ["fc-cache"; "-f"; "-v"]) ->
             is_print e = true \/ e = Exec ["fc-cache"; "-f"; "-v"] ->
             forall x, In x (e :: l) -> is_print x = true \/ x = Exec ["fc-cache"; "-f"; "-v"])
    as Hcons by (intros e l Hl He x [<- | Hx]; auto).
  assert (forall x, In x (@nil event) -> is_print x = true \/ x = Exec ["fc-cache"; "-f"; "-v"])
    as Hnil by (intros x []).
  split; [| split; [| split]].
  - unfold fix_font_cache, subprocess_run_checked. py_simpl.
    destruct (self_system t =? "Windows")%string; py_simpl.
    { eexists. split; [reflexivity|]. repeat (apply Hcons; [| left; reflexivity]). exact Hnil. }
    destruct (self_system t =? "Linux")%string; py_simpl.
    { destruct (spawn host _) as [e | cp]; py_simpl.
      - destruct (is_CalledProcessError e); py_simpl;
          (eexists; split; [reflexivity|]);
          repeat (apply Hcons; [| first [left; reflexivity | right; reflexivity]]);
          exact Hnil.
      - destruct (returncode cp =? 0)%Z; py_simpl;
          (eexists; split; [reflexivity|]);
          repeat (apply Hcons; [| first [left; reflexivity | right; reflexivity]]);
          exact Hnil. }
    destruct (self_system t =? "Darwin")%string; py_simpl;
      (eexists; split; [reflexivity|]);
      repeat (apply Hcons; [| left; reflexivity]); exact Hnil.
  - intros Hl. unfold fix_font_cache. py_simpl. rewrite Hl.
    destruct (self_system t =? "Windows")%string; py_simpl.
    { eexists [_; _; _; _; _; _; _]. reflexivity. }
    destruct (self_system t =? "Darwin")%string; py_simpl.
    { eexists [_; _; _; _; _]. reflexivity. }
    eexists [_]. reflexivity.
  - intros Hl cp Hcp. unfold fix_font_cache, subprocess_run_checked. py_simpl.
    assert ((self_system t =? "Windows")%string = false) as Hw.
    { apply String.eqb_eq in Hl. rewrite Hl. reflexivity. }
    rewrite Hw, Hl. py_simpl. rewrite Hcp. py_simpl.
    destruct (returncode cp =? 0)%Z; py_simpl; reflexivity.
  - intros Hl e He Hclass. unfold fix_font_cache, subprocess_run_checked. py_simpl.
    assert ((self_system t =? "Windows")%string = false) as Hw.
    { apply String.eqb_eq in Hl. rewrite Hl. reflexivity. }
    rewrite Hw, Hl. py_simpl. rewrite He. py_simpl. rewrite Hclass. reflexivity.
Qed.

(** X11 on a Linux desktop with [fc-cache], and on one without. *)
Lemma fix_font_cache_effects_witness :
  fix_font_cache linux_with_download (init "Linux") =
    (log (init "Linux") [ Print (nl ++ "尝试修复字体缓存...");
                          Print "在Linux上重建字体缓存...";
                          Exec fc_cache_rebuild;
                          Print "字体缓存重建成功" ],
     Returns tt)
  /\ snd (fix_font_cache Hosts.linux_all_fonts (init "Linux")) =
       Raises (Hosts.no_such_file "fc-cache").
Proof.
  destruct (fix_font_cache_effects linux_with_download (init "Linux"))
    as (_ & _ & Hrun & _).
  destruct (fix_font_cache_effects Hosts.linux_all_fonts (init "Linux"))
    as (_ & _ & _ & Hraise).
  split.
  - exact (Hrun eq_refl (mkCompleted 0 "fc-cache: succeeded" "") eq_refl).
  - rewrite (Hraise eq_refl (Hosts.no_such_file "fc-cache") eq_refl eq_refl).
    reflexivity.
Defined.

Ltac sh_simpl :=
  repeat progress
    (cbv beta iota zeta delta
       [sbind sret stry on_tool did swhen
        bind ret raise try_except emit print lift get_system get_report
        update_report when log with_report is_Exception];
     cbn [tool disk asked trace report self_system fst snd andb negb orb]);
  rewrite <- ?app_assoc; cbn [app map].

(** X12: [install_font].  If the source file does not exist, or no font
    directory is known for the platform, it prints an error and returns
    with disk and report as they were.  Otherwise it works on the first
    font directory: the disk operations are those of [install_steps] (the
    directory is created only if absent, then the file is copied under its
    base name), it returns, and it records one suggestion when every step
    succeeded and else one issue, also when the copy was made and only the
    rebuilding of the cache failed.  If the resolver raises, the exception
    leaves it with disk and report as they were. *)
Theorem install_font_outcome host installer font_path w :
  (exists_on_disk host font_path = false ->
   install_font host installer font_path w =
     (mkSession
        (log (tool w) [ Print (nl ++ "尝试安装字体: " ++ font_path);
                        FsExists font_path;
                        Print "错误: 字体文件不存在" ])
        (disk w) (asked w),
      Returns tt))
  /\ (exists_on_disk host font_path = true ->
      font_dirs_of host (self_system (tool w)) = Returns [] ->
      install_font host installer font_path w =
        (mkSession
           (log (tool w) [ Print (nl ++ "尝试安装字体: " ++ font_path);
                           FsExists font_path;
                           Print "错误: 无法确定系统字体目录" ])
           (disk w) (asked w),
         Returns tt))
  /\ (forall target_dir others,
        exists_on_disk host font_path = true ->
        font_dirs_of host (self_system (tool w)) = Returns (target_dir :: others) ->
        snd (install_font host installer font_path w) = Returns tt
        /\ disk (fst (install_font host installer font_path w)) =
             (disk w ++ fst (install_steps host installer (self_system (tool w))
                               font_path target_dir))%list
        /\ report (tool (fst (install_font host installer font_path w))) =
             if snd (install_steps host installer (self_system (tool w))
                       font_path target_dir)
             then append_suggestion
                    ("新字体安装完成: " ++ os_path_basename installer font_path)
                    (report (tool w))
             else append_issue
                    ("字体安装失败: " ++ os_path_basename installer font_path)
                    (report (tool w)))
  /\ (forall e,
        exists_on_disk host font_path = true ->
        font_dirs_of host (self_system (tool w)) = Raises e ->
        snd (install_font host installer font_path w) = Raises e
        /\ disk (fst (install_font host installer font_path w)) = disk w
        /\ report (tool (fst (install_font host installer font_path w))) =
             report (tool w)).
Proof.
  split; [| split; [| split]].
  - intros Hno. unfold install_font, os_path_exists. sh_simpl. rewrite Hno.
    sh_simpl. reflexivity.
  - intros Hyes Hdirs. unfold install_font, os_path_exists. sh_simpl. rewrite Hyes.
    sh_simpl. rewrite get_font_dirs_run. cbn [self_system]. rewrite Hdirs.
    sh_simpl. reflexivity.
  - intros target others Hyes Hdirs.
    unfold install_font, os_path_exists, install_steps, fc_cache_rebuild.
    sh_simpl. rewrite Hyes. sh_simpl. rewrite get_font_dirs_run. cbn [self_system].
    rewrite Hdirs. sh_simpl.
    destruct (exists_on_disk host target); sh_simpl.
    + unfold shutil_copy2.
      destruct (copy2_failure installer font_path _) as [[cls msg] |]; sh_simpl.
      { rewrite app_nil_r. repeat split. }
      destruct (self_system (tool w) =? "Linux")%string; sh_simpl.
      * unfold subprocess_run_checked. sh_simpl.
        destruct (spawn host _) as [e | cp]; sh_simpl; [repeat split|].
        destruct (returncode cp =? 0)%Z; sh_simpl; repeat split.
      * repeat split.
    + unfold os_makedirs.
      destruct (makedirs_failure installer target) as [[cls msg] |]; sh_simpl.
      { rewrite app_nil_r. repeat split. }
      unfold shutil_copy2.
      destruct (copy2_failure installer font_path _) as [[cls msg] |]; sh_simpl.
      { repeat split. }
      destruct (self_system (tool w) =? "Linux")%string; sh_simpl.
      * unfold subprocess_run_checked. sh_simpl.
        destruct (spawn host _) as [e | cp]; sh_simpl; [repeat split|].
        destruct (returncode cp =? 0)%Z; sh_simpl; repeat split.
      * repeat split.
  - intros e Hyes Hdirs. unfold install_font, os_path_exists. sh_simpl. rewrite Hyes.
    sh_simpl. rewrite get_font_dirs_run. cbn [self_system]. rewrite Hdirs.
    sh_simpl. repeat split.
Qed.

(** X12 on a Linux desktop: a downloaded font is copied to the first font directory. *)
Lemma install_font_outcome_witness :
  snd (install_font linux_with_download obliging_installer
         "/home/user/Downloads/Inter.ttf" (mkSession (init "Linux") [] [])) = Returns tt
  /\ disk (fst (install_font linux_with_download obliging_installer
                  "/home/user/Downloads/Inter.ttf" (mkSession (init "Linux") [] []))) =
       [Copy2 "/home/user/Downloads/Inter.ttf" "/usr/share/fonts/Inter.ttf"]
  /\ suggestions
       (report (tool (fst (install_font linux_with_download obliging_installer
                             "/home/user/Downloads/Inter.ttf"
                             (mkSession (init "Linux") [] []))))) =
       ["新字体安装完成: Inter.ttf"].
Proof.
  destruct (install_font_outcome linux_with_download obliging_installer
              "/home/user/Downloads/Inter.ttf" (mkSession (init "Linux") [] []))
    as (_ & _ & Hcopy & _).
  destruct (Hcopy "/usr/share/fonts" ["/usr/local/share/fonts"; "/home/user/.fonts"]
              eq_refl eq_refl) as (Hret & Hdisk & Hreport).
  split; [exact Hret|]. split; [rewrite Hdisk | rewrite Hreport]; reflexivity.
Defined.

(** ** Growth across the repair operations *)

Lemma grows_log t events : grows t (log t events).
Proof.
  constructor; cbn; auto using extends_refl, dict_extends_refl.
  exists events. reflexivity.
Qed.

Lemma quiet_grows m : quiet m -> stable grows m.
Proof. intros H t. destruct (H t) as [lines E]. rewrite E. apply grows_log. Qed.

Lemma fix_font_cache_grows host : stable grows (fix_font_cache host).
Proof.
  intros t. unfold fix_font_cache, subprocess_run_checked. py_simpl.
  repeat match goal with
         | |- context [if ?b then _ else _] => destruct b; py_simpl
         | |- context [match spawn ?h ?a with _ => _ end] => destruct (spawn h a); py_simpl
         end;
    match goal with
    | |- grows ?t0 (mkTool _ _ (_ ++ ?ev)) => apply (grows_log t0 ev)
    | |- grows ?t0 ?t0 => apply grows_refl
    end.
Qed.

Lemma grows_log_issue t events x :
  grows t (mkTool (self_system t) (append_issue x (report t)) (trace t ++ events)).
Proof.
  apply (grows_trans _ (log t events)); [apply grows_log | apply (grows_issue x)].
Qed.

Lemma grows_log_suggestion t events x :
  grows t (mkTool (self_system t) (append_suggestion x (report t)) (trace t ++ events)).
Proof.
  apply (grows_trans _ (log t events)); [apply grows_log | apply (grows_suggestion x)].
Qed.

Lemma install_font_grows host installer font_path w :
  grows (tool w) (tool (fst (install_font host installer font_path w))).
Proof.
  unfold install_font, os_path_exists, os_makedirs, shutil_copy2, subprocess_run_checked.
  sh_simpl.
  destruct (exists_on_disk host font_path); sh_simpl;
    [| apply (grows_log (tool w))].
  rewrite get_font_dirs_run. cbn [self_system].
  destruct (font_dirs_of host (self_system (tool w))) as [[| target others] | e];
    sh_simpl; try apply (grows_log (tool w)).
  repeat match goal with
         | |- context [if ?b then _ else _] => destruct b; sh_simpl
         | |- context [match makedirs_failure ?i ?p with _ => _ end] =>
             destruct (makedirs_failure i p) as [[? ?] |]; sh_simpl
         | |- context [match copy2_failure ?i ?p ?q with _ => _ end] =>
             destruct (copy2_failure i p q) as [[? ?] |]; sh_simpl
         | |- context [match spawn ?h ?a with _ => _ end] => destruct (spawn h a); sh_simpl
         end;
    first [ apply grows_log_issue | apply grows_log_suggestion ].
Qed.

Lemma restore_default_fonts_quiet : quiet restore_default_fonts.
Proof. unfold restore_default_fonts. repeat quiet_step. Qed.

Lemma fix_dpi_scaling_quiet : quiet fix_dpi_scaling.
Proof. unfold fix_dpi_scaling. repeat quiet_step. Qed.

Lemma list_software_issues_quiet : quiet list_software_issues.
Proof. unfold list_software_issues. repeat quiet_step. Qed.

Lemma fix_font_cache_frame host t :
  exists events, fst (fix_font_cache host t) = log t events.
Proof.
  unfold fix_font_cache, subprocess_run_checked. py_simpl.
  repeat match goal with
         | |- context [if ?b then _ else _] => destruct b; py_simpl
         | |- context [match spawn ?h ?a with _ => _ end] => destruct (spawn h a); py_simpl
         end;
    eexists; reflexivity.
Qed.

(** X13: [fix_dpi_scaling] and selection 6 of the menu only print and
    return, from every state; with no DPI issue recorded the former prints
    two lines, and with no software issue recorded the latter prints
    one. *)
Theorem advice_only_prints :
  quiet fix_dpi_scaling
  /\ quiet list_software_issues
  /\ (forall t,
        dpi_scaling_issues (report t) = [] ->
        fix_dpi_scaling t =
          (log t [ Print (nl ++ "尝试修复DPI/缩放设置...");
                   Print "未发现DPI/缩放设置问题" ],
           Returns tt))
  /\ (forall t,
        software_specific_issues (report t) = [] ->
        list_software_issues t =
          (log t [Print "未检测到特定软件的字体问题"], Returns tt)).
Proof.
  split; [apply fix_dpi_scaling_quiet|].
  split; [apply list_software_issues_quiet|].
  split; intros t Hnone.
  - unfold fix_dpi_scaling. py_simpl. rewrite Hnone. py_simpl. reflexivity.
  - unfold list_software_issues. py_simpl. rewrite Hnone. reflexivity.
Qed.

(** X13 on a new tool object. *)
Lemma advice_only_prints_witness :
  fix_dpi_scaling (init "Linux") =
    (log (init "Linux") [ Print (nl ++ "尝试修复DPI/缩放设置...");
                          Print "未发现DPI/缩放设置问题" ],
     Returns tt)
  /\ list_software_issues (init "Linux") =
       (log (init "Linux") [Print "未检测到特定软件的字体问题"], Returns tt).
Proof.
  destruct advice_only_prints as (_ & _ & Hdpi & Hsoftware).
  split; [apply Hdpi | apply Hsoftware]; reflexivity.
Defined.

(** ** What the checks may do *)

Lemma seq_run {A} (c : Py unit) (k : Py A) t :
  (c ;; k) t =
    match snd (c t) with
    | Returns _ => k (fst (c t))
    | Raises e => (fst (c t), Raises e)
    end.
Proof. unfold bind. destruct (c t) as [t' [[] | e]]; reflexivity. Qed.

Lemma print_run text t : print text t = (log t [Print text], Returns tt).
Proof. reflexivity. Qed.

Lemma returns_of_never_raises (m : Py unit) t :
  never_raises m -> snd (m t) = Returns tt.
Proof. intros H. destruct (H t) as [[] E]. exact E. Qed.

Lemma check_font_directories_outcome host t :
  snd (check_font_directories host t) =
    match font_dirs_of host (self_system t) with
    | Returns _ => Returns tt
    | Raises e => Raises e
    end.
Proof.
  unfold check_font_directories. rewrite seq_run, print_run. cbn [fst snd].
  unfold bind at 1. rewrite get_font_dirs_run.
  change (self_system (log t [Print (nl ++ "检查字体目录...")])) with (self_system t).
  destruct (font_dirs_of host (self_system t)) as [dirs | e]; [| reflexivity].
  apply returns_of_never_raises.
  unfold for_each, os_path_exists, os_access_R_OK. repeat never_raises_step.
Qed.

Lemma check_font_cache_outcome host t :
  snd (check_font_cache host t) =
    match cache_failure host (self_system t) with
    | Some e => Raises e
    | None => Returns tt
    end.
Proof.
  unfold check_font_cache, cache_failure, os_environ, os_path_exists, subprocess_run.
  py_simpl.
  destruct (self_system t =? "Windows")%string; py_simpl.
  { destruct (environ host "LOCALAPPDATA"); py_simpl; [| reflexivity].
    destruct (exists_on_disk host _); py_simpl; reflexivity. }
  destruct (self_system t =? "Linux")%string; py_simpl.
  { destruct (spawn host _) as [e | cp]; py_simpl.
    - destruct (is_CalledProcessError e); py_simpl; reflexivity.
    - destruct (returncode cp =? 0)%Z; py_simpl; reflexivity. }
  destruct (self_system t =? "Darwin")%string; py_simpl; reflexivity.
Qed.

Lemma check_system_fonts_returns host t dirs :
  font_dirs_of host (self_system t) = Returns dirs ->
  snd (check_system_fonts host t) = Returns tt.
Proof.
  intros Hdirs.
  destruct (collect_missing_run host dirs (critical_fonts (self_system t))
              (log t [Print (nl ++ "检查系统字体...")]) Hdirs) as [events E].
  unfold check_system_fonts. py_simpl. unfold log in E.
  cbn [trace report self_system] in E. rewrite E.
  destruct (absent_fonts host dirs (critical_fonts (self_system t))); py_simpl;
    reflexivity.
Qed.

Lemma check_font_config_outcome host t :
  snd (check_font_config host t) =
    match config_failure host (self_system t) with
    | Some e => Raises e
    | None => Returns tt
    end.
Proof.
  unfold check_font_config, config_failure, subprocess_run, when. py_simpl.
  destruct (self_system t =? "Linux")%string; py_simpl; [| reflexivity].
  destruct (spawn host _) as [e | cp]; py_simpl.
  - destruct (is_FileNotFoundError e); py_simpl; reflexivity.
  - destruct (returncode cp =? 0)%Z; py_simpl; reflexivity.
Qed.

Lemma check_font_integrity_returns host t dirs :
  font_dirs_of host (self_system t) = Returns dirs ->
  snd (check_font_integrity host t) = Returns tt.
Proof.
  intros Hdirs.
  destruct (integrity_loop_run host dirs (critical_fonts (self_system t))
              (log t [Print (nl ++ "检查字体文件完整性...")]) Hdirs) as (events & E & _).
  unfold check_font_integrity. unfold bind at 1 2. unfold print, emit, get_system.
  cbv beta iota. cbn [self_system]. unfold log in E.
  cbn [trace report self_system] in E. rewrite E. reflexivity.
Qed.

Lemma adds_only_refl allowed t : adds_only allowed t t.
Proof. exists []. split; [symmetry; apply app_nil_r | reflexivity]. Qed.

Lemma adds_only_trans allowed a b c :
  adds_only allowed a b -> adds_only allowed b c -> adds_only allowed a c.
Proof.
  intros (e1 & E1 & H1) (e2 & E2 & H2). exists (e1 ++ e2)%list. split.
  - rewrite E2, E1, app_assoc. reflexivity.
  - rewrite forallb_app, H1, H2. reflexivity.
Qed.

Lemma adds_only_log allowed t events :
  forallb allowed events = true -> adds_only allowed t (log t events).
Proof. intros H. exists events. split; [reflexivity | exact H]. Qed.

Lemma adds_only_emit allowed e :
  allowed e = true -> stable (adds_only allowed) (emit e).
Proof.
  intros H t. apply (adds_only_log allowed t [e]). cbn [forallb]. rewrite H.
  reflexivity.
Qed.

Lemma adds_only_update allowed f : stable (adds_only allowed) (update_report f).
Proof. intros t. exists []. split; [symmetry; apply app_nil_r | reflexivity]. Qed.

Lemma adds_only_weaken (allowed allowed' : event -> bool) t t' :
  (forall e, allowed e = true -> allowed' e = true) ->
  adds_only allowed t t' -> adds_only allowed' t t'.
Proof.
  intros Hsub (events & E & H). exists events. split; [exact E|].
  rewrite forallb_forall in *. intros e He. apply Hsub, H, He.
Qed.

Lemma forallb_prints allowed lines :
  (forall text, allowed (Print text) = true) ->
  forallb allowed (map Print lines) = true.
Proof.
  intros H. induction lines as [| l lines IH]; [reflexivity|].
  cbn [map forallb]. rewrite H, IH. reflexivity.
Qed.

Ltac footprint_step :=
  match goal with
  | |- stable _ (ret _) => apply stable_ret, adds_only_refl
  | |- stable _ (raise _) => apply stable_raise, adds_only_refl
  | |- stable _ (lift _) => apply stable_lift, adds_only_refl
  | |- stable _ get_system => apply stable_get_system, adds_only_refl
  | |- stable _ get_report => apply stable_get_report, adds_only_refl
  | |- stable _ (emit _) => apply adds_only_emit; reflexivity
  | |- stable _ (print _) => apply adds_only_emit; reflexivity
  | |- stable _ (update_report _) => apply adds_only_update
  | |- stable _ (bind _ _) => apply stable_bind; [apply adds_only_trans | | intro]
  | |- stable _ (try_except _ _ _) => apply stable_try; [apply adds_only_trans | | intro]
  | |- stable _ (for_each _ _) =>
      apply stable_for_each; [apply adds_only_refl | apply adds_only_trans | intro]
  | |- stable _ (for_in _ _ _) =>
      apply stable_for_in; [apply adds_only_refl | apply adds_only_trans | intros]
  | |- stable _ (when _ _) => apply stable_when; [apply adds_only_refl |]
  | |- stable _ (if ?b then _ else _) => destruct b
  | |- stable _ (match ?x with _ => _ end) => destruct x
  end.

Lemma get_font_dirs_adds_nothing allowed host :
  stable (adds_only allowed) (get_font_dirs host).
Proof. intros t. rewrite get_font_dirs_run. apply adds_only_refl. Qed.

Lemma checks_read_only host c :
  In c (checks host) -> stable (adds_only (read_only check_commands)) c.
Proof.
  pose proof (get_font_dirs_adds_nothing (read_only check_commands) host) as Hdirs.
  unfold checks. cbn [In].
  intros [<- | [<- | [<- | [<- | [<- | [<- | [<- | [<- | []]]]]]]]].
  - unfold check_font_directories, os_path_exists, os_access_R_OK.
    repeat first [exact Hdirs | footprint_step].
  - unfold check_font_cache, os_environ, os_path_exists, subprocess_run.
    cbv zeta. repeat first [exact Hdirs | footprint_step].
  - unfold check_system_fonts, collect_missing, font_found, os_path_exists.
    cbv zeta. repeat first [exact Hdirs | footprint_step].
  - unfold check_font_config, subprocess_run.
    repeat first [exact Hdirs | footprint_step].
  - unfold check_locale_settings, subprocess_run.
    repeat first [exact Hdirs | footprint_step].
  - unfold check_software_specific_issues, check_adobe_fonts, check_office_fonts,
      check_ide_fonts, check_ide_font_config, read_font_family, font_family_available,
      collect_missing, font_found, os_path_exists, os_listdir, glob_glob.
    cbv zeta. repeat first [exact Hdirs | footprint_step].
  - unfold check_font_integrity, verify_font_integrity, os_path_exists.
    cbv zeta. repeat first [exact Hdirs | footprint_step].
  - unfold check_dpi_scaling, subprocess_run.
    repeat first [exact Hdirs | footprint_step].
Qed.

(** X14: none of the eight checks writes a file, and the only commands
    they run are [fc-cache -v], [fc-match sans-serif], [locale], the
    [gsettings] query and [system_profiler SPDisplaysDataType]: from every
    state, and whether the check returns or raises, each event it adds to
    the log is one of these commands, a printed line, a look at the file
    system, the reading of a file or a query of the registry. *)
Theorem checks_are_read_only host :
  Forall (fun c => stable (adds_only (read_only check_commands)) c) (checks host).
Proof. apply Forall_forall. intros c Hc. exact (checks_read_only host c Hc). Qed.

(** ** The outcome of a full pass *)

Ltac through_check host t G F :=
  rewrite seq_run;
  match goal with
  | |- context [snd (?c ?s)] =>
      let G' := fresh "G" in
      let F' := fresh "F" in
      assert (In c (checks host)) as F' by (unfold checks; cbn [In]; tauto);
      assert (grows t (fst (c s))) as G'
        by (apply (grows_trans _ s); [exact G | apply (checks_grow host c F')]);
      apply (checks_read_only host c) in F'; specialize (F' s);
      apply (adds_only_trans _ _ _ _ F) in F';
      first [ rewrite check_font_directories_outcome
            | rewrite check_font_cache_outcome
            | rewrite check_font_config_outcome
            | rewrite (check_system_fonts_returns host s _
                         ltac:(rewrite (same_self_system _ _ G); eassumption))
            | rewrite (check_font_integrity_returns host s _
                         ltac:(rewrite (same_self_system _ _ G); eassumption))
            | rewrite (returns_of_never_raises c s)
                by first [ apply check_locale_settings_never_raises
                         | apply check_software_specific_issues_never_raises
                         | apply check_dpi_scaling_never_raises ] ];
      rewrite ?(same_self_system _ _ G)
  end.

Lemma full_pass_run host t :
  exists t2,
    grows t t2
    /\ adds_only (read_only check_commands) t t2
    /\ run_full_diagnostics host t =
         match check_failure host (self_system t) with
         | Some e => (t2, Raises e)
         | None => generate_report host t2
         end.
Proof.
  unfold run_full_diagnostics, check_failure.
  rewrite seq_run, print_run. cbn [fst snd].
  assert (grows t (log t [Print "正在运行全面的字体诊断..."])) as G0
    by apply grows_log.
  assert (adds_only (read_only check_commands) t
            (log t [Print "正在运行全面的字体诊断..."])) as F0
    by (apply adds_only_log; reflexivity).
  through_check host t G0 F0.
  destruct (font_dirs_of host (self_system t)) as [dirs | e] eqn:Hdirs;
    [| eexists; split; [exact G | split; [exact F | reflexivity]]].
  through_check host t G F.
  destruct (cache_failure host (self_system t)) as [e |];
    [eexists; split; [exact G1 | split; [exact F1 | reflexivity]] |].
  through_check host t G1 F1.
  through_check host t G2 F2.
  destruct (config_failure host (self_system t)) as [e |];
    [eexists; split; [exact G3 | split; [exact F3 | reflexivity]] |].
  through_check host t G3 F3.
  through_check host t G4 F4.
  through_check host t G5 F5.
  through_check host t G6 F6.
  rewrite seq_run, print_run. cbn [fst snd].
  eexists. split; [| split; [| reflexivity]].
  - eapply grows_trans; [exact G7 | apply grows_log].
  - eapply adds_only_trans; [exact F7 | apply adds_only_log; reflexivity].
Qed.

Lemma read_only_not_dumped commands events :
  forallb (read_only commands) events = true -> dumped events = false.
Proof.
  unfold dumped. induction events as [| e events IH]; [reflexivity|].
  cbn [forallb existsb]. intros H. apply andb_true_iff in H as [He H].
  rewrite (IH H). destruct e; try reflexivity; discriminate.
Qed.

Lemma dumped_app e1 e2 : dumped (e1 ++ e2) = dumped e1 || dumped e2.
Proof. apply existsb_app. Qed.

Lemma dumped_prints lines : dumped (map Print lines) = false.
Proof. induction lines as [| l lines IH]; [reflexivity | exact IH]. Qed.

(** X15: provided the console accepts every line the pass prints, a
    full pass raises exactly when [pass_failure] names an exception, and
    then raises that one: the resolver's [KeyError] on Windows without
    [WINDIR] or [LOCALAPPDATA], on Linux what starting [fc-cache] raises
    other than [CalledProcessError], or what starting [fc-match] raises
    other than [FileNotFoundError], and last the failure to open the
    report file; in that case no report is dumped.  Otherwise the pass
    returns, and what it adds to the log ends with the printed lines of
    the final report, the writing of the report file, the dump of that
    same report and the closing line; nothing before them writes a
    file. *)
Theorem full_pass_outcome host t events :
  trace (fst (run_full_diagnostics host t)) = (trace t ++ events)%list ->
  printable events = true ->
  snd (run_full_diagnostics host t) =
    match pass_failure host (self_system t) with
    | Some e => Raises e
    | None => Returns tt
    end
  /\ match pass_failure host (self_system t) with
     | Some _ => dumped events = false
     | None =>
         exists before,
           forallb (read_only check_commands) before = true
           /\ events =
                (before
                 ++ map Print (rendered (report (fst (run_full_diagnostics host t))))
                 ++ [ FsWrite (report_path host);
                      JsonDumped (report_path host)
                        (report (fst (run_full_diagnostics host t)));
                      Print (nl ++ "完整报告已保存到: " ++ report_path host) ])%list
     end.
Proof.
  intros Hevents _. revert Hevents.
  destruct (full_pass_run host t) as (t2 & G & (before & Hbefore & Hro) & E).
  unfold pass_failure. rewrite E. clear E.
  destruct (check_failure host (self_system t)) as [e |].
  - cbn [fst snd]. rewrite Hbefore. intros Hevents.
    apply app_inv_head in Hevents. subst events.
    split; [reflexivity|]. apply (read_only_not_dumped _ _ Hro).
  - rewrite generate_report_run.
    destruct (write_failure host (report_path host)) as [e |]; cbn [fst snd log trace report];
      rewrite Hbefore, <- app_assoc; intros Hevents;
      apply app_inv_head in Hevents; subst events.
    + split; [reflexivity|].
      rewrite !dumped_app, (read_only_not_dumped _ _ Hro), dumped_prints.
      reflexivity.
    + split; [reflexivity|]. exists before. split; [exact Hro | reflexivity].
Qed.

(** X15 on a Linux desktop, where the pass completes, and on one without [fc-cache], where it raises. *)
Lemma full_pass_outcome_witness :
  snd (run_full_diagnostics linux_with_download (init "Linux")) = Returns tt
  /\ snd (run_full_diagnostics Hosts.linux_without_fontconfig (init "Linux")) =
       Raises (Hosts.no_such_file "fc-cache")
  /\ dumped (trace (fst (run_full_diagnostics Hosts.linux_without_fontconfig
                           (init "Linux")))) = false.
Proof.
  destruct (full_pass_outcome linux_with_download (init "Linux")
              (trace (fst (run_full_diagnostics linux_with_download (init "Linux")))))
    as [Hret _]; [reflexivity | vm_compute; reflexivity |].
  destruct (full_pass_outcome Hosts.linux_without_fontconfig (init "Linux")
              (trace (fst (run_full_diagnostics Hosts.linux_without_fontconfig
                             (init "Linux")))))
    as [Hraise Hdump]; [reflexivity | vm_compute; reflexivity |].
  split; [exact Hret|]. split; [exact Hraise | exact Hdump].
Defined.

(** ** Sessions *)

Lemma read_only_runs_only e :
  read_only check_commands e = true -> runs_only known_commands e = true.
Proof.
  destruct e; try reflexivity; try discriminate.
  unfold read_only, runs_only, known_commands. rewrite existsb_app.
  intros ->. reflexivity.
Qed.

Lemma run_full_diagnostics_commands host :
  stable (adds_only (runs_only known_commands)) (run_full_diagnostics host).
Proof.
  intros t. destruct (full_pass_run host t) as (t2 & _ & F & E). rewrite E.
  apply (adds_only_weaken _ _ _ _ read_only_runs_only) in F.
  destruct (check_failure host (self_system t)); [exact F|].
  eapply adds_only_trans; [exact F|]. rewrite generate_report_run.
  destruct (write_failure host (report_path host)); cbn [fst];
    apply adds_only_log; rewrite forallb_app, forallb_prints by reflexivity;
    reflexivity.
Qed.

Lemma fix_font_cache_commands host :
  stable (adds_only (runs_only known_commands)) (fix_font_cache host).
Proof.
  unfold fix_font_cache, subprocess_run_checked. cbv zeta.
  repeat footprint_step.
Qed.

Lemma install_font_commands host installer font_path w :
  adds_only (runs_only known_commands) (tool w)
    (tool (fst (install_font host installer font_path w))).
Proof.
  unfold install_font, os_path_exists, os_makedirs, shutil_copy2, subprocess_run_checked.
  sh_simpl.
  destruct (exists_on_disk host font_path); sh_simpl;
    [| apply (adds_only_log _ (tool w)); reflexivity].
  rewrite get_font_dirs_run. cbn [self_system].
  destruct (font_dirs_of host (self_system (tool w))) as [[| target others] | e];
    sh_simpl; try (apply (adds_only_log _ (tool w)); reflexivity).
  repeat match goal with
         | |- context [if ?b then _ else _] => destruct b; sh_simpl
         | |- context [match makedirs_failure ?i ?p with _ => _ end] =>
             destruct (makedirs_failure i p) as [[? ?] |]; sh_simpl
         | |- context [match copy2_failure ?i ?p ?q with _ => _ end] =>
             destruct (copy2_failure i p q) as [[? ?] |]; sh_simpl
         | |- context [match spawn ?h ?a with _ => _ end] => destruct (spawn h a); sh_simpl
         end;
    (eexists; split; [cbn [trace]; reflexivity | reflexivity]).
Qed.

Lemma on_tool_quiet_returns (m : Py unit) w :
  quiet m -> snd (on_tool m w) = Returns tt.
Proof.
  intros H. destruct (H (tool w)) as [lines E]. unfold on_tool. rewrite E.
  reflexivity.
Qed.

Lemma and_then_tool (P : Session -> Session -> Prop) r next w :
  (forall a b c, P a b -> P b c -> P a c) ->
  P w (fst r) -> (forall w', P w' (fst (next w'))) -> P w (fst (and_then r next)).
Proof.
  intros Htrans Hr Hnext. destruct r as [w1 [[] | e]]; cbn [and_then fst] in *.
  - eapply Htrans; [exact Hr | apply Hnext].
  - exact Hr.
Qed.

Lemma on_tool_quiet (m : Py unit) w :
  quiet m -> exists lines, fst (on_tool m w) = say lines w.
Proof.
  intros H. destruct (H (tool w)) as [lines E]. exists lines.
  unfold on_tool, say. rewrite E. reflexivity.
Qed.

Section Sessions.

Variable P : Session -> Session -> Prop.
Variable typed_lines : list typed_line.
Hypothesis P_trans : forall a b c, P a b -> P b c -> P a c.
Hypothesis P_say : forall lines w, P w (say lines w).
Hypothesis P_answered : forall prompt answer w, P w (answered prompt answer w).
Hypothesis P_diagnostics :
  forall l w, In l typed_lines -> line l = "1" ->
              P w (fst (on_tool (run_full_diagnostics (host_then l)) w)).
Hypothesis P_fix_font_cache :
  forall l w, In l typed_lines -> line l = "2" ->
              P w (fst (on_tool (fix_font_cache (host_then l)) w)).
Hypothesis P_install :
  forall l p w, In l typed_lines -> line l = "3" ->
                P w (fst (install_font (host_then p) (installer_then p)
                            (PyStr.strip (line p)) w)).

Lemma on_tool_quiet_keeps (m : Py unit) w : quiet m -> P w (fst (on_tool m w)).
Proof.
  intros H. destruct (on_tool_quiet m w H) as [lines E]. rewrite E. apply P_say.
Qed.

Lemma menu_loop_keeps_bounded n :
  forall input w,
    length input <= n -> incl input typed_lines -> P w (fst (menu_loop input w)).
Proof.
  induction n as [| n IH]; intros input w Hlen Hin.
  - destruct input; [| cbn in Hlen; lia]. apply P_say.
  - destruct input as [| s rest]; [apply P_say|].
    cbn [length] in Hlen.
    assert (forall w', P w' (fst (menu_loop rest w'))) as Hrest.
    { intros. apply IH; [lia|]. intros l Hl. apply Hin. right. exact Hl. }
    assert (P w (answered "请选择操作 (1-7): " (line s) (say menu w))) as Hw.
    { eapply P_trans; [apply P_say | apply P_answered]. }
    assert (In s typed_lines) as Hs by (apply Hin; left; reflexivity).
    cbn [menu_loop]. cbv zeta.
    destruct (line s =? "1")%string eqn:E1; [apply String.eqb_eq in E1|].
    { apply (and_then_tool P); [exact P_trans | | exact Hrest].
      eapply P_trans; [exact Hw |]. apply P_diagnostics; assumption. }
    destruct (line s =? "2")%string eqn:E2; [apply String.eqb_eq in E2|].
    { apply (and_then_tool P); [exact P_trans | | exact Hrest].
      eapply P_trans; [exact Hw |]. apply P_fix_font_cache; assumption. }
    destruct (line s =? "3")%string eqn:E3; [apply String.eqb_eq in E3|].
    { destruct rest as [| p rest']; [exact Hw|].
      apply (and_then_tool P); [exact P_trans | |].
      - eapply P_trans; [exact Hw |].
        eapply P_trans; [apply P_answered |].
        apply (P_install s); assumption.
      - intros w'. apply IH; [cbn [length] in Hlen; lia|].
        intros l Hl. apply Hin. right. right. exact Hl. }
    destruct (line s =? "4")%string eqn:E4.
    { apply (and_then_tool P); [exact P_trans | | exact Hrest].
      eapply P_trans; [exact Hw |].
      apply on_tool_quiet_keeps, restore_default_fonts_quiet. }
    destruct (line s =? "5")%string eqn:E5.
    { apply (and_then_tool P); [exact P_trans | | exact Hrest].
      eapply P_trans; [exact Hw |].
      apply on_tool_quiet_keeps, fix_dpi_scaling_quiet. }
    destruct (line s =? "6")%string eqn:E6.
    { apply (and_then_tool P); [exact P_trans | | exact Hrest].
      eapply P_trans; [exact Hw |].
      apply on_tool_quiet_keeps, list_software_issues_quiet. }
    destruct (line s =? "7")%string eqn:E7.
    { eapply P_trans; [exact Hw |]. apply P_say. }
    eapply P_trans; [| apply Hrest].
    eapply P_trans; [exact Hw |]. apply P_say.
Qed.

Lemma menu_loop_keeps w : P w (fst (menu_loop typed_lines w)).
Proof.
  apply (menu_loop_keeps_bounded (length typed_lines)); [lia | apply incl_refl].
Qed.

End Sessions.

Lemma opened_app e1 e2 :
  opened_for_writing (e1 ++ e2) = (opened_for_writing e1 ++ opened_for_writing e2)%list.
Proof. apply flat_map_app. Qed.

Lemma opened_prints lines : opened_for_writing (map Print lines) = [].
Proof. induction lines as [| l lines IH]; [reflexivity | exact IH]. Qed.

Lemma read_only_opens_nothing commands events :
  forallb (read_only commands) events = true -> opened_for_writing events = [].
Proof.
  induction events as [| e events IH]; [reflexivity|].
  cbn [forallb]. intros H. apply andb_true_iff in H as [He H].
  change (opened_for_writing (e :: events))
    with ((match e with FsWrite path => [path] | _ => [] end)
          ++ opened_for_writing events)%list.
  rewrite (IH H). destruct e; try reflexivity; discriminate.
Qed.

Lemma written_say lines w : written (say lines w) = written w.
Proof.
  unfold written, say. cbn [tool disk trace log].
  rewrite opened_app, opened_prints, app_nil_r. reflexivity.
Qed.

Lemma written_on_tool {A} (m : Py A) w events :
  trace (fst (m (tool w))) = (trace (tool w) ++ events)%list ->
  written (fst (on_tool m w)) =
    (opened_for_writing (trace (tool w)) ++ opened_for_writing events
     ++ map (fun op => match op with Makedirs path => path | Copy2 _ dst => dst end)
          (disk w))%list.
Proof.
  intros H. unfold written, on_tool. destruct (m (tool w)) as [t' o].
  cbn [fst tool disk] in *. rewrite H, opened_app, <- app_assoc. reflexivity.
Qed.

Lemma fix_font_cache_read_only host :
  stable (adds_only (read_only known_commands)) (fix_font_cache host).
Proof.
  unfold fix_font_cache, subprocess_run_checked. cbv zeta.
  repeat footprint_step.
Qed.

Lemma run_full_diagnostics_opens host t :
  exists events,
    trace (fst (run_full_diagnostics host t)) = (trace t ++ events)%list
    /\ forall path, In path (opened_for_writing events) -> path = report_path host.
Proof.
  destruct (full_pass_run host t) as (t2 & _ & (before & Hbefore & Hro) & E).
  rewrite E. pose proof (read_only_opens_nothing _ _ Hro) as Hnone.
  destruct (check_failure host (self_system t)).
  - exists before. split; [exact Hbefore|]. rewrite Hnone. intros path [].
  - rewrite generate_report_run.
    destruct (write_failure host (report_path host)); cbn [fst log trace];
      rewrite Hbefore, <- app_assoc; eexists; (split; [reflexivity|]);
      rewrite !opened_app, Hnone, opened_prints; cbn;
      intros path [<- | []]; reflexivity.
Qed.

Lemma menu_loop_exit_bounded n :
  forall input w,
    length input <= n -> snd (menu_loop input w) = Exited ->
    exists l, In l input /\ line l = "7".
Proof.
  induction n as [| n IH]; intros input w Hlen Hexit.
  - destruct input; [discriminate | cbn in Hlen; lia].
  - destruct input as [| s rest]; [discriminate|].
    cbn [length] in Hlen.
    assert (forall w', snd (menu_loop rest w') = Exited ->
                       exists l, In l (s :: rest) /\ line l = "7") as Hrest.
    { intros w' H. destruct (IH rest w') as (l & Hl & E); [lia | exact H |].
      exists l. split; [right; exact Hl | exact E]. }
    assert (forall r, snd (and_then r (menu_loop rest)) = Exited ->
                      exists l, In l (s :: rest) /\ line l = "7") as Hthen.
    { intros [w1 [[] | e]]; cbn [and_then]; [apply Hrest | discriminate]. }
    cbn [menu_loop] in Hexit. cbv zeta in Hexit.
    destruct (line s =? "1")%string; [apply Hthen in Hexit; exact Hexit|].
    destruct (line s =? "2")%string; [apply Hthen in Hexit; exact Hexit|].
    destruct (line s =? "3")%string.
    { destruct rest as [| p rest']; [discriminate|].
      destruct (install_font _ _ _ _) as [w1 [[] | e]]; cbn [and_then] in Hexit;
        [| discriminate].
      destruct (IH rest' w1) as (l & Hl & E');
        [cbn [length] in Hlen; lia | exact Hexit |].
      exists l. split; [right; right; exact Hl | exact E']. }
    destruct (line s =? "4")%string; [apply Hthen in Hexit; exact Hexit|].
    destruct (line s =? "5")%string; [apply Hthen in Hexit; exact Hexit|].
    destruct (line s =? "6")%string; [apply Hthen in Hexit; exact Hexit|].
    destruct (line s =? "7")%string eqn:E7.
    { exists s. split; [left; reflexivity | apply String.eqb_eq; exact E7]. }
    apply Hrest in Hexit. exact Hexit.
Qed.

Lemma menu_loop_crash_bounded n :
  forall input w e,
    length input <= n -> snd (menu_loop input w) = Crashed e ->
    e = end_of_input
    \/ exists l, In l input /\ (line l = "1" \/ line l = "2" \/ line l = "3").
Proof.
  induction n as [| n IH]; intros input w e Hlen Hcrash.
  - destruct input; [| cbn in Hlen; lia]. left. cbn in Hcrash. congruence.
  - destruct input as [| s rest]; [left; cbn in Hcrash; congruence|].
    cbn [length] in Hlen.
    assert (forall w', snd (menu_loop rest w') = Crashed e ->
                       e = end_of_input
                       \/ exists l, In l (s :: rest)
                                    /\ (line l = "1" \/ line l = "2" \/ line l = "3"))
      as Hrest.
    { intros w' H. destruct (IH rest w' e) as [E | (l & Hl & E)]; [lia | exact H | |].
      - left. exact E.
      - right. exists l. split; [right; exact Hl | exact E]. }
    assert (forall (m : Py unit) w',
               quiet m ->
               snd (and_then (on_tool m w') (menu_loop rest)) = Crashed e ->
               e = end_of_input
               \/ exists l, In l (s :: rest)
                            /\ (line l = "1" \/ line l = "2" \/ line l = "3"))
      as Hquiet.
    { intros m w' Hm H. pose proof (on_tool_quiet_returns m w' Hm) as Hret.
      destruct (on_tool m w') as [w1 o]. cbn [snd] in Hret. subst o.
      cbn [and_then] in H. apply Hrest in H. exact H. }
    assert (forall r, (line s = "1" \/ line s = "2") ->
               snd (and_then r (menu_loop rest)) = Crashed e ->
               e = end_of_input
               \/ exists l, In l (s :: rest)
                            /\ (line l = "1" \/ line l = "2" \/ line l = "3"))
      as Hthen.
    { intros [w1 [[] | e']] Hs; cbn [and_then]; [apply Hrest|].
      intros _. right. exists s. split; [left; reflexivity | tauto]. }
    cbn [menu_loop] in Hcrash. cbv zeta in Hcrash.
    destruct (line s =? "1")%string eqn:E1.
    { apply String.eqb_eq in E1. apply Hthen in Hcrash; [exact Hcrash | tauto]. }
    destruct (line s =? "2")%string eqn:E2.
    { apply String.eqb_eq in E2. apply Hthen in Hcrash; [exact Hcrash | tauto]. }
    destruct (line s =? "3")%string eqn:E3.
    { apply String.eqb_eq in E3. right. exists s. split; [left; reflexivity | tauto]. }
    destruct (line s =? "4")%string;
      [apply Hquiet in Hcrash; [exact Hcrash | apply restore_default_fonts_quiet]|].
    destruct (line s =? "5")%string;
      [apply Hquiet in Hcrash; [exact Hcrash | apply fix_dpi_scaling_quiet]|].
    destruct (line s =? "6")%string;
      [apply Hquiet in Hcrash; [exact Hcrash | apply list_software_issues_quiet]|].
    destruct (line s =? "7")%string; [discriminate|].
    apply Hrest in Hcrash. exact Hcrash.
Qed.

Lemma menu_loop_runs_out input :
  forall w,
    (forall l, In l input ->
               line l <> "1" /\ line l <> "2" /\ line l <> "3" /\ line l <> "7") ->
    snd (menu_loop input w) = Crashed end_of_input.
Proof.
  induction input as [| s rest IH]; intros w Hlines; [reflexivity|].
  assert (forall w', snd (menu_loop rest w') = Crashed end_of_input) as Hrest.
  { intros w'. apply IH. intros l Hl. apply Hlines. right. exact Hl. }
  assert (forall (m : Py unit) w',
             quiet m ->
             snd (and_then (on_tool m w') (menu_loop rest)) = Crashed end_of_input)
    as Hquiet.
  { intros m w' Hm. pose proof (on_tool_quiet_returns m w' Hm) as Hret.
    destruct (on_tool m w') as [w1 o]. cbn [snd] in Hret. subst o.
    cbn [and_then]. apply Hrest. }
  destruct (Hlines s (or_introl eq_refl)) as (N1 & N2 & N3 & N7).
  apply String.eqb_neq in N1, N2, N3, N7.
  cbn [menu_loop]. cbv zeta. rewrite N1, N2, N3.
  destruct (line s =? "4")%string; [apply Hquiet, restore_default_fonts_quiet|].
  destruct (line s =? "5")%string; [apply Hquiet, fix_dpi_scaling_quiet|].
  destruct (line s =? "6")%string; [apply Hquiet, list_software_issues_quiet|].
  rewrite N7. apply Hrest.
Qed.


